(** * NBA milestone engine: a shallow embedding and its verified properties

    The development follows two source files of the repository:
    - [utils/helpers.py]: defensive coercions ([safe_int], [parse_minutes]),
      derived metrics and the multi-category predicates;
    - [nba_processor/engines/milestone_engine.py]: [MilestoneEntry],
      [MilestoneResults] and the [MilestoneEngine] that classifies every
      player of every game;
    and the table of category keys that [nba_processor/website/generator.py]
    hands to the generated page.

    Python values are dynamically typed, so the per-player fields are kept as
    a small universe [pyval]; exceptions are explicit ([result]); the engine
    mutates [self.results], which is threaded as state and survives a raised
    exception, exactly as the list appends of the source do. *)

From Stdlib Require Import ZArith String Ascii List Bool Lia.
From Stdlib Require Import Floats.SpecFloat.
From stdpp Require Import base option list sorting functions gmap strings.

#[local] Open Scope Z_scope.

(* ===================================================================== *)
(** * Exceptions and fallible computations *)
(* ===================================================================== *)

Inductive exn : Set :=
  | ValueError
  | TypeError
  | OverflowError
  | ZeroDivisionError
  | AttributeError.

#[global] Instance exn_eq_dec : EqDecision exn.
Proof. solve_decision. Defined.

Inductive result (A : Type) : Type :=
  | Ok (a : A)
  | Raise (e : exn).
Arguments Ok {A} a.
Arguments Raise {A} e.

#[global] Instance result_ret : MRet result := fun A a => Ok a.
#[global] Instance result_bind : MBind result := fun A B f m =>
  match m with
  | Ok a => f a
  | Raise e => Raise e
  end.
#[global] Instance result_fmap : FMap result := fun A B f m =>
  match m with
  | Ok a => Ok (f a)
  | Raise e => Raise e
  end.

(** [try: body except caught: handler]. *)
Definition try_except {A} (body : result A) (caught : list exn)
    (handler : result A) : result A :=
  match body with
  | Ok a => Ok a
  | Raise e => if bool_decide (e ∈ caught) then handler else Raise e
  end.

Definition is_ok {A} (r : result A) : bool :=
  match r with Ok _ => true | Raise _ => false end.

(* ===================================================================== *)
(** * Python floats: IEEE 754 binary64 *)
(* ===================================================================== *)

Module Float64.

Definition prec : Z := 53.
Definition emax : Z := 1024.

(** A float is a [spec_float]; the ones Python computes with are those that
    [valid_binary prec emax] accepts. *)
Abbreviation float := spec_float.

Definition add : float -> float -> float := SFadd prec emax.
Definition sub : float -> float -> float := SFsub prec emax.
Definition mul : float -> float -> float := SFmul prec emax.
Definition div : float -> float -> float := SFdiv prec emax.

Definition inf : float := S754_infinity false.
Definition nan : float := S754_nan.

Definition is_infinite (x : float) : bool :=
  match x with S754_infinity _ => true | _ => false end.

Definition is_zero (x : float) : bool :=
  match x with S754_zero _ => true | _ => false end.

(** The integer [z], rounded to nearest, ties to even. *)
Definition of_Z (z : Z) : float := binary_normalize prec emax z 0 false.

(** The quotient [n / d] of two positive integers with sign [s], rounded
    once (nearest, ties to even); a zero numerator gives a signed zero. *)
Definition of_ratio (s : bool) (n : Z) (d : positive) : float :=
  match n with
  | Zpos p =>
      let '(mz, ez, lz) := SFdiv_core_binary prec emax (Zpos p) 0 (Zpos d) 0 in
      binary_round_aux prec emax s mz ez lz
  | _ => S754_zero s
  end.

(** The decimal [(-1)^s * m * 10^e], as [strtod] reads it. *)
Definition of_decimal (s : bool) (m : Z) (e : Z) : float :=
  if 0 <=? e then binary_normalize prec emax (cond_Zopp s (m * 10 ^ e)) 0 s
  else of_ratio s m (Z.to_pos (10 ^ (- e))).

(** [int(x)]: truncation toward zero. *)
Definition to_Z (x : float) : result Z :=
  match x with
  | S754_zero _ => Ok 0
  | S754_finite s m e =>
      Ok (cond_Zopp s (if 0 <=? e then Zpos m * 2 ^ e else Zpos m / 2 ^ (- e)))
  | S754_infinity _ => Raise OverflowError
  | S754_nan => Raise ValueError
  end.

(** Python compares a float with an int by value, without rounding. *)
Definition compare_Z (x : float) (z : Z) : option comparison :=
  match x with
  | S754_nan => None
  | S754_infinity s => Some (if s then Lt else Gt)
  | S754_zero _ => Some (0 ?= z)
  | S754_finite s m e =>
      let v := cond_Zopp s (Zpos m) in
      Some (if 0 <=? e then v * 2 ^ e ?= z else v ?= z * 2 ^ (- e))
  end.

(** Comparison of two floats by value, whatever the mantissas' lengths. *)
Definition compare (x y : float) : option comparison :=
  match x, y with
  | S754_finite sx mx ex, S754_finite sy my ey =>
      let e := Z.min ex ey in
      Some (cond_Zopp sx (Zpos mx) * 2 ^ (ex - e)
            ?= cond_Zopp sy (Zpos my) * 2 ^ (ey - e))
  | _, _ => SFcompare x y
  end.

(** [n / d] rounded to an integer, ties to even ([0 <= n], [0 < d]). *)
Definition div_half_even (n d : Z) : Z :=
  let q := n / d in
  match 2 * (n mod d) ?= d with
  | Lt => q
  | Gt => q + 1
  | Eq => if Z.even q then q else q + 1
  end.

(** [round(x, ndigits)] for [0 <= ndigits]: the exact value of [x] is
    rounded to [ndigits] decimals (ties to even) and the decimal read back. *)
Definition round (x : float) (ndigits : Z) : result float :=
  match x with
  | S754_finite s m e =>
      let p := 10 ^ ndigits in
      let n := if 0 <=? e then Zpos m * 2 ^ e * p
               else div_half_even (Zpos m * p) (2 ^ (- e)) in
      let y := of_ratio s n (Z.to_pos p) in
      if is_infinite y then Raise OverflowError else Ok y
  | _ => Ok x
  end.

End Float64.

Abbreviation float := spec_float.

(* ===================================================================== *)
(** * Python values *)
(* ===================================================================== *)

(** The values a decoded box score can hold in a player field.  [bool] is a
    subclass of [int] in Python and is covered by [PyInt] (0 and 1);
    [PyOther] stands for a container (a list or a dict). *)
Inductive pyval : Type :=
  | PyNone
  | PyInt (z : Z)
  | PyFloat (f : float)
  | PyStr (s : string)
  | PyOther.

Definition isinstance_str (v : pyval) : bool :=
  match v with PyStr _ => true | _ => false end.

(** Numbers, the operands of arithmetic. *)
Inductive num : Type :=
  | Int (z : Z)
  | Float (f : float).

Definition pyval_of_num (a : num) : pyval :=
  match a with Int z => PyInt z | Float f => PyFloat f end.

(** [float(z)] for an int: correctly rounded, [OverflowError] when the
    magnitude does not fit. *)
Definition float_of_int (z : Z) : result float :=
  let f := Float64.of_Z z in
  if Float64.is_infinite f then Raise OverflowError else Ok f.

Definition to_float (a : num) : result float :=
  match a with
  | Int z => float_of_int z
  | Float f => Ok f
  end.

(** Binary arithmetic: exact on two ints, otherwise both operands are taken
    to float.  Float addition, subtraction and multiplication never raise. *)
Definition num_add (a b : num) : result num :=
  match a, b with
  | Int x, Int y => Ok (Int (x + y))
  | _, _ => x ← to_float a; y ← to_float b; Ok (Float (Float64.add x y))
  end.

Definition num_sub (a b : num) : result num :=
  match a, b with
  | Int x, Int y => Ok (Int (x - y))
  | _, _ => x ← to_float a; y ← to_float b; Ok (Float (Float64.sub x y))
  end.

Definition num_mul (a b : num) : result num :=
  match a, b with
  | Int x, Int y => Ok (Int (x * y))
  | _, _ => x ← to_float a; y ← to_float b; Ok (Float (Float64.mul x y))
  end.

(** True division [a / b].  For two ints the quotient is rounded once. *)
Definition num_truediv (a b : num) : result num :=
  match a, b with
  | Int x, Int y =>
      if y =? 0 then Raise ZeroDivisionError
      else
        let q := Float64.of_ratio (xorb (x <? 0) (y <? 0)) (Z.abs x)
                   (Z.to_pos (Z.abs y)) in
        if Float64.is_infinite q then Raise OverflowError else Ok (Float q)
  | _, _ =>
      x ← to_float a; y ← to_float b;
      if Float64.is_zero y then Raise ZeroDivisionError
      else Ok (Float (Float64.div x y))
  end.

(** Three-way comparison by value; [None] when a NaN is involved. *)
Definition num_compare (a b : num) : option comparison :=
  match a, b with
  | Int x, Int y => Some (x ?= y)
  | Float x, Int y => Float64.compare_Z x y
  | Int x, Float y => CompOpp <$> Float64.compare_Z y x
  | Float x, Float y => Float64.compare x y
  end.

Definition num_ge (a b : num) : bool :=
  match num_compare a b with Some (Gt | Eq) => true | _ => false end.
Definition num_eq (a b : num) : bool :=
  match num_compare a b with Some Eq => true | _ => false end.

(** [round(a, ndigits)]: an int is returned as it is (for [0 <= ndigits]). *)
Definition num_round (a : num) (ndigits : Z) : result num :=
  match a with
  | Int z => Ok (Int z)
  | Float f => Float <$> Float64.round f ndigits
  end.

(** Truth value of a number: nonzero (a NaN is true). *)
Definition num_truthy (a : num) : bool :=
  match a with
  | Int z => negb (z =? 0)
  | Float f => negb (Float64.is_zero f)
  end.

(** Expressions are evaluated left to right and stop at the first exception. *)
Definition lift2 (op : num -> num -> result num) (a b : result num)
    : result num :=
  x ← a; y ← b; op x y.

Declare Scope py_scope.
Delimit Scope py_scope with py.
Notation "a + b" := (lift2 num_add a b) : py_scope.
Notation "a - b" := (lift2 num_sub a b) : py_scope.
Notation "a * b" := (lift2 num_mul a b) : py_scope.
Notation "a / b" := (lift2 num_truediv a b) : py_scope.
Notation "# z" := (Ok (Int z)) (at level 5, format "# z") : py_scope.

(* ===================================================================== *)
(** * Python strings: [strip], [split], [float(s)] and [int(s)] *)
(* ===================================================================== *)

(** A string is a sequence of characters, one [ascii] per character. *)
Module Str.

Definition code (c : ascii) : Z := Z.of_N (N_of_ascii c).

(** [str.isspace] on one character. *)
Definition is_space (c : ascii) : bool :=
  let n := code c in
  ((9 <=? n) && (n <=? 13)) || ((28 <=? n) && (n <=? 32))
  || (n =? 133) || (n =? 160).

Definition digit (c : ascii) : option Z :=
  let n := code c in
  if (48 <=? n) && (n <=? 57) then Some (n - 48) else None.

Definition is_digit (c : ascii) : bool := bool_decide (is_Some (digit c)).

Definition lower (c : ascii) : ascii :=
  let n := code c in
  if (65 <=? n) && (n <=? 90) then ascii_of_N (Z.to_N (n + 32)) else c.

Fixpoint lstrip (s : list ascii) : list ascii :=
  match s with
  | c :: s' => if is_space c then lstrip s' else s
  | [] => []
  end.

Definition strip_chars (s : list ascii) : list ascii :=
  rev (lstrip (rev (lstrip s))).

(** [s.strip()] *)
Definition strip (s : string) : string :=
  string_of_list_ascii (strip_chars (list_ascii_of_string s)).

(** [sep in s] for a one-character [sep]. *)
Definition contains (sep : ascii) (s : string) : bool :=
  existsb (Ascii.eqb sep) (list_ascii_of_string s).

Fixpoint split_chars (sep : ascii) (s : list ascii) : list (list ascii) :=
  match s with
  | [] => [[]]
  | c :: s' =>
      if Ascii.eqb c sep then [] :: split_chars sep s'
      else match split_chars sep s' with
           | p :: ps => (c :: p) :: ps
           | [] => [[c]]
           end
  end.

(** [s.split(sep)] for a one-character [sep]. *)
Definition split (sep : ascii) (s : string) : list string :=
  string_of_list_ascii <$> split_chars sep (list_ascii_of_string s).

(** Underscores are accepted between two digits only; they are dropped. *)
Fixpoint drop_underscores (prev : option ascii) (s : list ascii)
    : option (list ascii) :=
  match s with
  | [] => if bool_decide (prev = Some "_"%char) then None else Some []
  | c :: s' =>
      if Ascii.eqb c "_" then
        if from_option is_digit false prev
        then drop_underscores (Some c) s' else None
      else if bool_decide (prev = Some "_"%char) && negb (is_digit c) then None
      else (c ::.) <$> drop_underscores (Some c) s'
  end.

Definition take_sign (s : list ascii) : bool * list ascii :=
  match s with
  | c :: s' =>
      if Ascii.eqb c "-" then (true, s')
      else if Ascii.eqb c "+" then (false, s')
      else (false, s)
  | [] => (false, [])
  end.

(** The longest prefix of decimal digits, and what follows. *)
Fixpoint take_digits (s : list ascii) : list Z * list ascii :=
  match s with
  | c :: s' =>
      match digit c with
      | Some d => let '(ds, r) := take_digits s' in (d :: ds, r)
      | None => ([], s)
      end
  | [] => ([], [])
  end.

Definition digits_value (ds : list Z) : Z :=
  fold_left (fun acc d => 10 * acc + d) ds 0.

(** [digits ["." digits] [("e"|"E") [sign] digits]] with a digit in the
    mantissa; an exponent marker without digits is not part of the number. *)
Definition parse_number (s : bool) (body : list ascii) : option float :=
  let '(ip, r1) := take_digits body in
  let '(fp, r2) :=
    match r1 with
    | c :: r => if Ascii.eqb c "." then take_digits r else ([], r1)
    | [] => ([], r1)
    end in
  if bool_decide (ip = [] ∧ fp = []) then None
  else
    let '(ex, r3) :=
      match r2 with
      | c :: r =>
          if Ascii.eqb (lower c) "e" then
            let '(es, r') := take_sign r in
            let '(ed, r'') := take_digits r' in
            if bool_decide (ed = []) then (0, r2)
            else (cond_Zopp es (digits_value ed), r'')
          else (0, r2)
      | [] => (0, r2)
      end in
    if bool_decide (r3 = [])
    then Some (Float64.of_decimal s (digits_value (ip ++ fp))
                 (ex - Z.of_nat (length fp)))
    else None.

Definition parse_inf_nan (s : bool) (body : list ascii) : option float :=
  let w := string_of_list_ascii (lower <$> body) in
  if bool_decide (w = "inf"%string ∨ w = "infinity"%string)
  then Some (S754_infinity s)
  else if bool_decide (w = "nan"%string) then Some S754_nan
  else None.

(** [float(s)] on a string. *)
Definition to_float (s : string) : result float :=
  match drop_underscores None (strip_chars (list_ascii_of_string s)) with
  | None => Raise ValueError
  | Some t =>
      let '(sg, body) := take_sign t in
      match parse_number sg body with
      | Some f => Ok f
      | None =>
          match parse_inf_nan sg body with
          | Some f => Ok f
          | None => Raise ValueError
          end
      end
  end.

(** [int(s)] on a string, base 10. *)
Definition to_int (s : string) : result Z :=
  match drop_underscores None (strip_chars (list_ascii_of_string s)) with
  | None => Raise ValueError
  | Some t =>
      let '(sg, body) := take_sign t in
      let '(ds, r) := take_digits body in
      if bool_decide (ds ≠ [] ∧ r = [])
      then Ok (cond_Zopp sg (digits_value ds))
      else Raise ValueError
  end.

(** A float literal of the source text, and the literal as an expression. *)
Definition literal (s : string) : num :=
  match to_float s with
  | Ok f => Float f
  | Raise _ => Float S754_nan
  end.

Definition lit (s : string) : result num := Ok (literal s).

(** [s.lower()] for text whose code points are below 256: the letters
    A-Z and the upper-case letters of 192-222 (215, the multiplication
    sign, is not one) move 32 places up; every other character stays. *)
Definition lower_text_char (c : ascii) : ascii :=
  let n := code c in
  if ((65 <=? n) && (n <=? 90))
     || ((192 <=? n) && (n <=? 222) && negb (n =? 215))
  then ascii_of_N (Z.to_N (n + 32)) else c.

Definition lower_text (s : string) : string :=
  string_of_list_ascii (lower_text_char <$> list_ascii_of_string s).

End Str.

(* ===================================================================== *)
(** * Dictionaries and comprehensions *)
(* ===================================================================== *)

(** [d.get(k, dflt)] *)
Definition get {V} (d : gmap string V) (k : string) (dflt : V) : V :=
  default dflt (d !! k).

(** [sum(1 for x in xs if cond(x))] *)
Fixpoint sum_1_for {A} (xs : list A) (cond : A -> result bool) : result Z :=
  match xs with
  | [] => Ok 0
  | x :: xs' =>
      b ← cond x; n ← sum_1_for xs' cond;
      Ok ((if b : bool then 1 else 0) + n)
  end.

(** [all(cond(x) for x in xs)]: stops at the first false. *)
Fixpoint all_for {A} (xs : list A) (cond : A -> result bool) : result bool :=
  match xs with
  | [] => Ok true
  | x :: xs' => b ← cond x; if b : bool then all_for xs' cond else Ok false
  end.

(** [[x for x in xs if cond(x)]] *)
Fixpoint filter_for {A} (xs : list A) (cond : A -> result bool)
    : result (list A) :=
  match xs with
  | [] => Ok []
  | x :: xs' =>
      b ← cond x; ys ← filter_for xs' cond;
      Ok (if b : bool then x :: ys else ys)
  end.

(** A loop whose body may raise: the exception ends the loop. *)
Fixpoint fold_for {A B} (xs : list A) (body : B -> A -> result B) (acc : B)
  : result B :=
  match xs with
  | [] => Ok acc
  | x :: xs' => acc' ← body acc x; fold_for xs' body acc'
  end.

(** [sep.join(parts)] *)
Fixpoint join (sep : string) (parts : list string) : string :=
  match parts with
  | [] => ""
  | [p] => p
  | p :: ps => p +:+ sep +:+ join sep ps
  end.

(* ===================================================================== *)
(** * utils/helpers.py *)
(* ===================================================================== *)

Module Helpers.

Abbreviation dict := (gmap string pyval).

Definition safe_int (value : pyval) (default : Z) : result Z :=
  match value with
  | PyNone => Ok default
  | PyInt z => Ok z
  | PyFloat f => Float64.to_Z f
  | PyStr s =>
      try_except
        (f ← Str.to_float (Str.strip s); Float64.to_Z f)
        [ValueError; AttributeError]
        (Ok default)
  | PyOther => Ok default
  end.

Definition safe_float (value : pyval) (default : float) : result float :=
  match value with
  | PyNone => Ok default
  | PyInt z => float_of_int z
  | PyFloat f => Ok f
  | PyStr s =>
      try_except
        (Str.to_float (Str.strip s))
        [ValueError; AttributeError]
        (Ok default)
  | PyOther => Ok default
  end.

Definition parse_minutes (mp : pyval) : result num :=
  match mp with
  | PyInt z => Float <$> float_of_int z
  | PyFloat f => Ok (Float f)
  | PyStr s =>
      if Str.contains ":" s then
        let parts := Str.split ":" s in
        try_except
          (minutes ← Str.to_int (nth 0 parts "");
           seconds ← (if (1 <? length parts)%nat
                      then Str.to_int (nth 1 parts "") else Ok 0);
           (#minutes + #seconds / Str.lit "60.0")%py)
          [ValueError]
          (Str.lit "0.0")
      else
        try_except (Float <$> Str.to_float s) [ValueError] (Str.lit "0.0")
  | _ => Str.lit "0.0"
  end.

Definition calculate_game_score (stats : dict) : result num :=
  pts ← safe_int (get stats "pts" (PyInt 0)) 0;
  fg ← safe_int (get stats "fg" (PyInt 0)) 0;
  fga ← safe_int (get stats "fga" (PyInt 0)) 0;
  ft ← safe_int (get stats "ft" (PyInt 0)) 0;
  fta ← safe_int (get stats "fta" (PyInt 0)) 0;
  orb ← safe_int (get stats "orb" (PyInt 0)) 0;
  drb ← safe_int (get stats "drb" (PyInt 0)) 0;
  stl ← safe_int (get stats "stl" (PyInt 0)) 0;
  ast ← safe_int (get stats "ast" (PyInt 0)) 0;
  blk ← safe_int (get stats "blk" (PyInt 0)) 0;
  pf ← safe_int (get stats "pf" (PyInt 0)) 0;
  tov ← safe_int (get stats "tov" (PyInt 0)) 0;
  game_score ←
    (#pts
     + Str.lit "0.4" * #fg
     - Str.lit "0.7" * #fga
     - Str.lit "0.4" * (#fta - #ft)
     + Str.lit "0.7" * #orb
     + Str.lit "0.3" * #drb
     + #stl
     + Str.lit "0.7" * #ast
     + Str.lit "0.7" * #blk
     - Str.lit "0.4" * #pf
     - #tov)%py;
  num_round game_score 1.

Definition categories : list string := ["pts"; "trb"; "ast"; "stl"; "blk"].

Definition is_triple_double (stats : dict) (threshold : Z) : result bool :=
  counts ← sum_1_for categories (fun cat =>
    v ← safe_int (get stats cat (PyInt 0)) 0; Ok (threshold <=? v));
  Ok (3 <=? counts).

Definition is_double_double (stats : dict) (threshold : Z) : result bool :=
  counts ← sum_1_for categories (fun cat =>
    v ← safe_int (get stats cat (PyInt 0)) 0; Ok (threshold <=? v));
  Ok (2 <=? counts).

Definition calculate_true_shooting (pts fga fta : Z) : result (option num) :=
  denominator ← (#2 * (#fga + Str.lit "0.44" * #fta))%py;
  if num_eq denominator (Int 0) then Ok None
  else Some <$> (r ← (#pts / Ok denominator)%py; num_round r 3).

Definition calculate_effective_fg_pct (fg fg3 fga : Z) : result (option num) :=
  if fga =? 0 then Ok None
  else Some <$> (r ← ((#fg + Str.lit "0.5" * #fg3) / #fga)%py; num_round r 3).

Definition is_quadruple_double (stats : dict) (threshold : Z) : result bool :=
  counts ← sum_1_for categories (fun cat =>
    v ← safe_int (get stats cat (PyInt 0)) 0; Ok (threshold <=? v));
  Ok (4 <=? counts).

Definition is_five_by_five (stats : dict) (threshold : Z) : result bool :=
  all_for categories (fun cat =>
    v ← safe_int (get stats cat (PyInt 0)) 0; Ok (threshold <=? v)).

Definition is_near_triple_double (stats : dict) (threshold near_threshold : Z)
    : result bool :=
  at_threshold ← sum_1_for categories (fun cat =>
    v ← safe_int (get stats cat (PyInt 0)) 0; Ok (threshold <=? v));
  near ← sum_1_for categories (fun cat =>
    v ← safe_int (get stats cat (PyInt 0)) 0;
    Ok ((near_threshold <=? v) && (v <? threshold)));
  if 3 <=? at_threshold then Ok false
  else Ok ((at_threshold =? 2) && (1 <=? near)).

Definition is_near_double_double (stats : dict) (threshold near_threshold : Z)
    : result bool :=
  at_threshold ← sum_1_for categories (fun cat =>
    v ← safe_int (get stats cat (PyInt 0)) 0; Ok (threshold <=? v));
  near ← sum_1_for categories (fun cat =>
    v ← safe_int (get stats cat (PyInt 0)) 0;
    Ok ((near_threshold <=? v) && (v <? threshold)));
  if 2 <=? at_threshold then Ok false
  else Ok ((at_threshold =? 1) && (1 <=? near)).

Definition is_all_around_game (stats : dict) : result bool :=
  values ← mapM (fun cat => safe_int (get stats cat (PyInt 0)) 0) categories;
  if forallb (fun v => 5 <=? v) values then Ok true
  else
    let at_eight := Z.of_nat (length (List.filter (fun v => 8 <=? v) values)) in
    Ok (4 <=? at_eight).

Definition is_hot_shooting (stats : dict) (fg_pct_threshold : num)
    (min_attempts : Z) : result bool :=
  fg ← safe_int (get stats "fg" (PyInt 0)) 0;
  fga ← safe_int (get stats "fga" (PyInt 0)) 0;
  if fga <? min_attempts then Ok false
  else
    fg_pct ← (if 0 <? fga then #fg / #fga else #0)%py;
    Ok (num_ge fg_pct fg_pct_threshold).

Definition is_perfect_from_three (stats : dict) (min_attempts : Z)
    : result bool :=
  fg3 ← safe_int (get stats "fg3" (PyInt 0)) 0;
  fg3a ← safe_int (get stats "fg3a" (PyInt 0)) 0;
  Ok ((min_attempts <=? fg3a) && (fg3 =? fg3a)).

Definition is_perfect_ft (stats : dict) (min_attempts : Z) : result bool :=
  ft ← safe_int (get stats "ft" (PyInt 0)) 0;
  fta ← safe_int (get stats "fta" (PyInt 0)) 0;
  Ok ((min_attempts <=? fta) && (ft =? fta)).

Definition is_perfect_fg (stats : dict) (min_attempts : Z) : result bool :=
  fg ← safe_int (get stats "fg" (PyInt 0)) 0;
  fga ← safe_int (get stats "fga" (PyInt 0)) 0;
  Ok ((min_attempts <=? fga) && (fg =? fga)).

Definition is_efficient_scoring (stats : dict) (ts_threshold : num)
    (min_points : Z) : result bool :=
  pts ← safe_int (get stats "pts" (PyInt 0)) 0;
  fga ← safe_int (get stats "fga" (PyInt 0)) 0;
  fta ← safe_int (get stats "fta" (PyInt 0)) 0;
  if pts <? min_points then Ok false
  else
    ts ← calculate_true_shooting pts fga fta;
    Ok (match ts with
        | Some t => num_ge t ts_threshold
        | None => false
        end).

Definition is_defensive_monster (stats : dict) (combined_threshold : Z)
    : result bool :=
  stl ← safe_int (get stats "stl" (PyInt 0)) 0;
  blk ← safe_int (get stats "blk" (PyInt 0)) 0;
  Ok (combined_threshold <=? stl + blk).

(** [mp >= min_minutes] for a value of any type. *)
Definition py_ge (v : pyval) (b : num) : result bool :=
  match v with
  | PyInt z => Ok (num_ge (Int z) b)
  | PyFloat f => Ok (num_ge (Float f) b)
  | _ => Raise TypeError
  end.

(** [if isinstance(mp, str): mp = parse_minutes(mp)] *)
Definition minutes_if_str (mp : pyval) : result pyval :=
  if isinstance_str mp then pyval_of_num <$> parse_minutes mp else Ok mp.

Definition is_zero_turnover_game (stats : dict) (min_minutes : num)
    : result bool :=
  tov ← safe_int (get stats "tov" (PyInt 0)) 0;
  let mp := get stats "mp" (PyInt 0) in
  mp ← minutes_if_str mp;
  if tov =? 0 then py_ge mp min_minutes else Ok false.

Definition category_names : gmap string string :=
  {[ "pts" := "pts"; "trb" := "reb"; "ast" := "ast"; "stl" := "stl";
     "blk" := "blk" ]}.

Definition get_double_double_categories (stats : dict) (threshold : Z)
    : result string :=
  cats ← filter_for ["pts"; "trb"; "ast"; "stl"; "blk"] (fun cat =>
    v ← safe_int (get stats cat (PyInt 0)) 0; Ok (threshold <=? v));
  Ok (join "/" ((fun c => get category_names c c) <$> cats)).

Definition calculate_assist_to_turnover_ratio (stats : dict)
    : result (option num) :=
  ast ← safe_int (get stats "ast" (PyInt 0)) 0;
  tov ← safe_int (get stats "tov" (PyInt 0)) 0;
  if tov =? 0 then
    Ok (if ast =? 0 then None else Some (Float Float64.inf))
  else Some <$> (r ← (#ast / #tov)%py; num_round r 2).

Definition calculate_rebound_rate (stats : dict) (team_reb opp_reb : Z)
    : result (option num) :=
  trb ← safe_int (get stats "trb" (PyInt 0)) 0;
  let total_reb := team_reb + opp_reb in
  if total_reb =? 0 then Ok None
  else Some <$> (r ← (#trb / #total_reb * #100)%py; num_round r 1).

End Helpers.

(* ===================================================================== *)
(** * nba_processor/engines/milestone_engine.py *)
(* ===================================================================== *)

Module MilestoneEngine.

Import Helpers.

(** ** f-strings

    A formatted string is kept as its parts: literal text and the values
    substituted into it, so that the text of a number is never needed. *)
Inductive fpart : Type :=
  | FText (s : string)
  | FInt (z : Z)            (* {z} for an int *)
  | FNum (a : num)          (* {a} for a number *)
  | FFixed0 (f : float).    (* {f:.0f} *)

Abbreviation fstring := (list fpart).

(** [f'{v:.0f}']: ints are converted to float first; other types have no
    such format. *)
Definition format_0f (v : pyval) : result fpart :=
  match v with
  | PyInt z => FFixed0 <$> float_of_int z
  | PyFloat f => Ok (FFixed0 f)
  | PyStr _ => Raise ValueError
  | _ => Raise TypeError
  end.

(** ** MilestoneEntry *)

Record MilestoneEntry : Type := {
  milestone_type : string;
  player : pyval;
  player_id : pyval;
  team : string;
  opponent : string;
  game_id : string;
  date : string;
  side : string;
  stats : dict;
  detail : fstring;
  date_yyyymmdd : string;
}.

(** Truth value of a string. *)
Definition str_truthy (s : string) : bool := negb (String.eqb s "").

Definition __post_init__ (self : MilestoneEntry) : MilestoneEntry :=
  if negb (str_truthy (date_yyyymmdd self))
     && str_truthy (game_id self)
     && (8 <=? String.length (game_id self))%nat
  then
    {| milestone_type := milestone_type self; player := player self;
       player_id := player_id self; team := team self;
       opponent := opponent self; game_id := game_id self;
       date := date self; side := side self; stats := stats self;
       detail := detail self;
       date_yyyymmdd := substring 0 8 (game_id self) |}
  else self.

(** The generated [__init__]: the fields are stored, then
    [__post_init__] runs.  [detail] and [date_yyyymmdd] default to [""]. *)
Definition new_MilestoneEntry (milestone_type : string)
    (player player_id : pyval) (team opponent game_id date side : string)
    (stats : dict) (detail : fstring) (date_yyyymmdd : string)
    : MilestoneEntry :=
  __post_init__
    {| milestone_type := milestone_type; player := player;
       player_id := player_id; team := team; opponent := opponent;
       game_id := game_id; date := date; side := side; stats := stats;
       detail := detail; date_yyyymmdd := date_yyyymmdd |}.

(** ** MilestoneResults: one list of entries per category field *)

Inductive category : Set :=
  (* Multi-category achievements *)
  | quadruple_doubles | triple_doubles | double_doubles
  | near_triple_doubles | near_double_doubles | five_by_fives
  | all_around_games
  (* Scoring milestones *)
  | seventy_point_games | sixty_point_games | fifty_point_games
  | forty_five_point_games | forty_point_games | thirty_five_point_games
  | thirty_point_games | twenty_five_point_games | twenty_point_games
  (* Rebounding milestones *)
  | twenty_five_rebound_games | twenty_rebound_games | eighteen_rebound_games
  | fifteen_rebound_games | twelve_rebound_games | ten_rebound_games
  (* Assist milestones *)
  | twenty_assist_games | fifteen_assist_games | twelve_assist_games
  | ten_assist_games
  (* Steal milestones *)
  | ten_steal_games | seven_steal_games | five_steal_games | four_steal_games
  (* Block milestones *)
  | ten_block_games | seven_block_games | five_block_games | four_block_games
  (* Three-pointer milestones *)
  | ten_three_games | eight_three_games | seven_three_games | six_three_games
  | five_three_games | perfect_from_three
  (* Efficiency milestones *)
  | hot_shooting_games | perfect_ft_games | perfect_fg_games
  | efficient_scoring_games | high_game_score
  (* Combined milestones *)
  | thirty_ten_games | twenty_five_ten_games | twenty_ten_games
  | twenty_ten_five_games | twenty_twenty_games | points_assists_double_double
  (* Defensive milestones *)
  | defensive_monster_games
  (* Clean games *)
  | zero_turnover_games
  (* Plus/Minus milestones *)
  | plus_25_games | plus_20_games | minus_25_games.

(** The fields in declaration order. *)
Definition fields : list category :=
  [ quadruple_doubles; triple_doubles; double_doubles; near_triple_doubles;
    near_double_doubles; five_by_fives; all_around_games;
    seventy_point_games; sixty_point_games; fifty_point_games;
    forty_five_point_games; forty_point_games; thirty_five_point_games;
    thirty_point_games; twenty_five_point_games; twenty_point_games;
    twenty_five_rebound_games; twenty_rebound_games; eighteen_rebound_games;
    fifteen_rebound_games; twelve_rebound_games; ten_rebound_games;
    twenty_assist_games; fifteen_assist_games; twelve_assist_games;
    ten_assist_games;
    ten_steal_games; seven_steal_games; five_steal_games; four_steal_games;
    ten_block_games; seven_block_games; five_block_games; four_block_games;
    ten_three_games; eight_three_games; seven_three_games; six_three_games;
    five_three_games; perfect_from_three;
    hot_shooting_games; perfect_ft_games; perfect_fg_games;
    efficient_scoring_games; high_game_score;
    thirty_ten_games; twenty_five_ten_games; twenty_ten_games;
    twenty_ten_five_games; twenty_twenty_games; points_assists_double_double;
    defensive_monster_games; zero_turnover_games;
    plus_25_games; plus_20_games; minus_25_games ].

(** The attribute name of a field. *)
Definition field_name (c : category) : string :=
  match c with
  | quadruple_doubles => "quadruple_doubles"
  | triple_doubles => "triple_doubles"
  | double_doubles => "double_doubles"
  | near_triple_doubles => "near_triple_doubles"
  | near_double_doubles => "near_double_doubles"
  | five_by_fives => "five_by_fives"
  | all_around_games => "all_around_games"
  | seventy_point_games => "seventy_point_games"
  | sixty_point_games => "sixty_point_games"
  | fifty_point_games => "fifty_point_games"
  | forty_five_point_games => "forty_five_point_games"
  | forty_point_games => "forty_point_games"
  | thirty_five_point_games => "thirty_five_point_games"
  | thirty_point_games => "thirty_point_games"
  | twenty_five_point_games => "twenty_five_point_games"
  | twenty_point_games => "twenty_point_games"
  | twenty_five_rebound_games => "twenty_five_rebound_games"
  | twenty_rebound_games => "twenty_rebound_games"
  | eighteen_rebound_games => "eighteen_rebound_games"
  | fifteen_rebound_games => "fifteen_rebound_games"
  | twelve_rebound_games => "twelve_rebound_games"
  | ten_rebound_games => "ten_rebound_games"
  | twenty_assist_games => "twenty_assist_games"
  | fifteen_assist_games => "fifteen_assist_games"
  | twelve_assist_games => "twelve_assist_games"
  | ten_assist_games => "ten_assist_games"
  | ten_steal_games => "ten_steal_games"
  | seven_steal_games => "seven_steal_games"
  | five_steal_games => "five_steal_games"
  | four_steal_games => "four_steal_games"
  | ten_block_games => "ten_block_games"
  | seven_block_games => "seven_block_games"
  | five_block_games => "five_block_games"
  | four_block_games => "four_block_games"
  | ten_three_games => "ten_three_games"
  | eight_three_games => "eight_three_games"
  | seven_three_games => "seven_three_games"
  | six_three_games => "six_three_games"
  | five_three_games => "five_three_games"
  | perfect_from_three => "perfect_from_three"
  | hot_shooting_games => "hot_shooting_games"
  | perfect_ft_games => "perfect_ft_games"
  | perfect_fg_games => "perfect_fg_games"
  | efficient_scoring_games => "efficient_scoring_games"
  | high_game_score => "high_game_score"
  | thirty_ten_games => "thirty_ten_games"
  | twenty_five_ten_games => "twenty_five_ten_games"
  | twenty_ten_games => "twenty_ten_games"
  | twenty_ten_five_games => "twenty_ten_five_games"
  | twenty_twenty_games => "twenty_twenty_games"
  | points_assists_double_double => "points_assists_double_double"
  | defensive_monster_games => "defensive_monster_games"
  | zero_turnover_games => "zero_turnover_games"
  | plus_25_games => "plus_25_games"
  | plus_20_games => "plus_20_games"
  | minus_25_games => "minus_25_games"
  end.

#[global] Instance category_eq_dec : EqDecision category.
Proof. solve_decision. Defined.

Abbreviation MilestoneResults := (category -> list MilestoneEntry).

(** [MilestoneResults()]: every field starts as an empty list. *)
Definition new_MilestoneResults : MilestoneResults := fun _ => [].

(** ** Attributes of a results object, as [dir] and [getattr] see them *)

Inductive attribute : Type :=
  | AttrList (value : list MilestoneEntry)
  | AttrMethod
  | AttrOther.

Definition methods : list string := ["to_dict"; "get_milestone_count"].

(** Names every dataclass instance carries besides its fields and methods. *)
Definition object_names : list string :=
  [ "__annotations__"; "__class__"; "__dataclass_fields__";
    "__dataclass_params__"; "__delattr__"; "__dict__"; "__dir__";
    "__doc__"; "__eq__"; "__format__"; "__ge__"; "__getattribute__";
    "__getstate__"; "__gt__"; "__hash__"; "__init__"; "__init_subclass__";
    "__le__"; "__lt__"; "__match_args__"; "__module__"; "__ne__";
    "__new__"; "__reduce__"; "__reduce_ex__"; "__repr__"; "__setattr__";
    "__sizeof__"; "__str__"; "__subclasshook__"; "__weakref__" ].

(** [dir(self)]: all attribute names, sorted. *)
Definition dir (self : MilestoneResults) : list string :=
  merge_sort (fun a b => Is_true (String.leb a b))
    (object_names ++ methods ++ (field_name <$> fields)).

Definition getattr (self : MilestoneResults) (attr_name : string) : attribute :=
  match List.find (fun c => String.eqb (field_name c) attr_name) fields with
  | Some c => AttrList (self c)
  | None =>
      if bool_decide (attr_name ∈ methods) then AttrMethod else AttrOther
  end.

Definition startswith (pre s : string) : bool := String.prefix pre s.

(** The plain record [to_dict] builds for one entry. *)
Record EntryDict : Type := {
  d_milestone_type : string;
  d_player : pyval;
  d_player_id : pyval;
  d_team : string;
  d_opponent : string;
  d_game_id : string;
  d_date : string;
  d_date_yyyymmdd : string;
  d_side : string;
  d_stats : dict;
  d_detail : fstring;
}.

Definition entry_dict (e : MilestoneEntry) : EntryDict :=
  {| d_milestone_type := milestone_type e; d_player := player e;
     d_player_id := player_id e; d_team := team e;
     d_opponent := opponent e; d_game_id := game_id e; d_date := date e;
     d_date_yyyymmdd := date_yyyymmdd e; d_side := side e;
     d_stats := stats e; d_detail := detail e |}.

Definition to_dict (self : MilestoneResults) : gmap string (list EntryDict) :=
  fold_left
    (fun result attr_name =>
       if negb (startswith "_" attr_name)
          && negb (String.eqb attr_name "to_dict")
       then
         match getattr self attr_name with
         | AttrList value => <[attr_name := entry_dict <$> value]> result
         | _ => result
         end
       else result)
    (dir self) ∅.

Definition get_milestone_count (self : MilestoneResults) : Z :=
  fold_left
    (fun count attr_name =>
       if negb (startswith "_" attr_name)
          && negb (bool_decide
                     (attr_name ∈ ["to_dict"; "get_milestone_count"]))
       then
         match getattr self attr_name with
         | AttrList value => count + Z.of_nat (length value)
         | _ => count
         end
       else count)
    (dir self) 0.

(** ** The engine: [self.results] is the state

    A method returns the state it leaves behind together with its outcome;
    appends made before an exception stay in the state. *)
Definition M (A : Type) : Type :=
  MilestoneResults -> MilestoneResults * result A.

#[global] Instance M_ret : MRet M := fun A a r => (r, Ok a).
#[global] Instance M_bind : MBind M := fun A B f m r =>
  match m r with
  | (r', Ok a) => f a r'
  | (r', Raise e) => (r', Raise e)
  end.

(** A helper call: no effect on the state. *)
Definition lift {A} (x : result A) : M A := fun r => (r, x).

(** [self.results.<c>.append(e)] *)
Definition append (c : category) (e : MilestoneEntry) : M unit :=
  fun r => (<[c := r c ++ [e]]> r, Ok tt).

(** [self.results = r] and reading [self.results] *)
Definition set_results (r : MilestoneResults) : M unit := fun _ => (r, Ok tt).
Definition get_results : M MilestoneResults := fun r => (r, Ok r).

(** [if b: body] *)
Definition when (b : bool) (body : M unit) : M unit :=
  if b then body else mret tt.

(** [for x in xs: body(x)] *)
Fixpoint for_each {A} (xs : list A) (body : A -> M unit) : M unit :=
  match xs with
  | [] => mret tt
  | x :: xs' => body x;; for_each xs' body
  end.

(** ** _check_player_milestones

    The body is cut at the section comments of the source.  Each block
    reads the locals it uses: the coerced stats, the [stats] dict and
    [base_entry], which completes an entry from its [milestone_type] and
    [detail]. *)

Abbreviation Player := (gmap string pyval).

(** The [stats] dict literal. *)
Definition mk_stats (pts trb ast stl blk fg3 fg3a fg fga ft fta tov
    plus_minus : Z) (mp : pyval) : dict :=
  list_to_map
    [ ("pts", PyInt pts); ("trb", PyInt trb); ("ast", PyInt ast);
      ("stl", PyInt stl); ("blk", PyInt blk);
      ("fg3", PyInt fg3); ("fg3a", PyInt fg3a); ("fg", PyInt fg);
      ("fga", PyInt fga);
      ("ft", PyInt ft); ("fta", PyInt fta); ("tov", PyInt tov);
      ("plus_minus", PyInt plus_minus);
      ("mp", mp) ].

(** [MilestoneEntry(milestone_type=..., detail=..., **base_entry)] *)
Definition mk_entry (name player_id : pyval)
    (team opponent game_id date side : string) (stats : dict)
    (milestone_type : string) (detail : fstring) : MilestoneEntry :=
  new_MilestoneEntry milestone_type name player_id team opponent game_id
    date side stats detail "".

Section Blocks.

Variable stats : dict.
Variable base_entry : string -> fstring -> MilestoneEntry.
Variables pts trb ast stl blk fg3 fg3a fg fga ft fta plus_minus : Z.
Variable mp : pyval.

(* === MULTI-CATEGORY ACHIEVEMENTS === *)
Definition multi_category_achievements : M unit :=
  b ← lift (is_quadruple_double stats 10);
  when b (
    categories ← lift (get_double_double_categories stats 10);
    append quadruple_doubles (base_entry "quadruple_double"
      [FText "Quadruple-double ("; FText categories; FText ")"]));;
  b ← lift (is_triple_double stats 10);
  when b (
    categories ← lift (get_double_double_categories stats 10);
    append triple_doubles (base_entry "triple_double"
      [FText "Triple-double ("; FText categories; FText ")"]));;
  b ← lift (is_double_double stats 10);
  when b (
    categories ← lift (get_double_double_categories stats 10);
    append double_doubles (base_entry "double_double"
      [FText "Double-double ("; FText categories; FText ")"]));;
  b ← lift (is_near_triple_double stats 10 8);
  when b (
    append near_triple_doubles (base_entry "near_triple_double"
      [FText "Near triple-double ("; FInt pts; FText "/"; FInt trb;
       FText "/"; FInt ast; FText ")"]));;
  b ← lift (is_near_double_double stats 10 8);
  when b (
    append near_double_doubles (base_entry "near_double_double"
      [FText "Near double-double"]));;
  b ← lift (is_five_by_five stats 5);
  when b (
    append five_by_fives (base_entry "five_by_five"
      [FText "5x5 ("; FInt pts; FText "/"; FInt trb; FText "/"; FInt ast;
       FText "/"; FInt stl; FText "/"; FInt blk; FText ")"]));;
  b ← lift (is_all_around_game stats);
  when b (
    append all_around_games (base_entry "all_around_game"
      [FText "All-around ("; FInt pts; FText "/"; FInt trb; FText "/";
       FInt ast; FText "/"; FInt stl; FText "/"; FInt blk; FText ")"])).

(* === SCORING MILESTONES === *)
Definition scoring_milestones : M unit :=
  if 70 <=? pts then
    append seventy_point_games (base_entry "seventy_point_game"
      [FInt pts; FText " points"])
  else if 60 <=? pts then
    append sixty_point_games (base_entry "sixty_point_game"
      [FInt pts; FText " points"])
  else if 50 <=? pts then
    append fifty_point_games (base_entry "fifty_point_game"
      [FInt pts; FText " points"])
  else if 45 <=? pts then
    append forty_five_point_games (base_entry "forty_five_point_game"
      [FInt pts; FText " points"])
  else if 40 <=? pts then
    append forty_point_games (base_entry "forty_point_game"
      [FInt pts; FText " points"])
  else if 35 <=? pts then
    append thirty_five_point_games (base_entry "thirty_five_point_game"
      [FInt pts; FText " points"])
  else if 30 <=? pts then
    append thirty_point_games (base_entry "thirty_point_game"
      [FInt pts; FText " points"])
  else if 25 <=? pts then
    append twenty_five_point_games (base_entry "twenty_five_point_game"
      [FInt pts; FText " points"])
  else if 20 <=? pts then
    append twenty_point_games (base_entry "twenty_point_game"
      [FInt pts; FText " points"])
  else mret tt.

(* === REBOUNDING MILESTONES === *)
Definition rebounding_milestones : M unit :=
  if 25 <=? trb then
    append twenty_five_rebound_games (base_entry "twenty_five_rebound_game"
      [FInt trb; FText " rebounds"])
  else if 20 <=? trb then
    append twenty_rebound_games (base_entry "twenty_rebound_game"
      [FInt trb; FText " rebounds"])
  else if 18 <=? trb then
    append eighteen_rebound_games (base_entry "eighteen_rebound_game"
      [FInt trb; FText " rebounds"])
  else if 15 <=? trb then
    append fifteen_rebound_games (base_entry "fifteen_rebound_game"
      [FInt trb; FText " rebounds"])
  else if 12 <=? trb then
    append twelve_rebound_games (base_entry "twelve_rebound_game"
      [FInt trb; FText " rebounds"])
  else if 10 <=? trb then
    append ten_rebound_games (base_entry "ten_rebound_game"
      [FInt trb; FText " rebounds"])
  else mret tt.

(* === ASSIST MILESTONES === *)
Definition assist_milestones : M unit :=
  if 20 <=? ast then
    append twenty_assist_games (base_entry "twenty_assist_game"
      [FInt ast; FText " assists"])
  else if 15 <=? ast then
    append fifteen_assist_games (base_entry "fifteen_assist_game"
      [FInt ast; FText " assists"])
  else if 12 <=? ast then
    append twelve_assist_games (base_entry "twelve_assist_game"
      [FInt ast; FText " assists"])
  else if 10 <=? ast then
    append ten_assist_games (base_entry "ten_assist_game"
      [FInt ast; FText " assists"])
  else mret tt.

(* === STEAL MILESTONES === *)
Definition steal_milestones : M unit :=
  if 10 <=? stl then
    append ten_steal_games (base_entry "ten_steal_game"
      [FInt stl; FText " steals"])
  else if 7 <=? stl then
    append seven_steal_games (base_entry "seven_steal_game"
      [FInt stl; FText " steals"])
  else if 5 <=? stl then
    append five_steal_games (base_entry "five_steal_game"
      [FInt stl; FText " steals"])
  else if 4 <=? stl then
    append four_steal_games (base_entry "four_steal_game"
      [FInt stl; FText " steals"])
  else mret tt.

(* === BLOCK MILESTONES === *)
Definition block_milestones : M unit :=
  if 10 <=? blk then
    append ten_block_games (base_entry "ten_block_game"
      [FInt blk; FText " blocks"])
  else if 7 <=? blk then
    append seven_block_games (base_entry "seven_block_game"
      [FInt blk; FText " blocks"])
  else if 5 <=? blk then
    append five_block_games (base_entry "five_block_game"
      [FInt blk; FText " blocks"])
  else if 4 <=? blk then
    append four_block_games (base_entry "four_block_game"
      [FInt blk; FText " blocks"])
  else mret tt.

(* === THREE-POINTER MILESTONES === *)
Definition three_pointer_milestones : M unit :=
  (if 10 <=? fg3 then
     append ten_three_games (base_entry "ten_three_game"
       [FInt fg3; FText " three-pointers"])
   else if 8 <=? fg3 then
     append eight_three_games (base_entry "eight_three_game"
       [FInt fg3; FText " three-pointers"])
   else if 7 <=? fg3 then
     append seven_three_games (base_entry "seven_three_game"
       [FInt fg3; FText " three-pointers"])
   else if 6 <=? fg3 then
     append six_three_games (base_entry "six_three_game"
       [FInt fg3; FText " three-pointers"])
   else if 5 <=? fg3 then
     append five_three_games (base_entry "five_three_game"
       [FInt fg3; FText " three-pointers"])
   else mret tt);;
  b ← lift (is_perfect_from_three stats 4);
  when b (
    append perfect_from_three (base_entry "perfect_from_three"
      [FInt fg3; FText "/"; FInt fg3a; FText " from three (100%)"])).

(* === EFFICIENCY MILESTONES === *)
Definition efficiency_milestones : M unit :=
  b ← lift (is_hot_shooting stats (Str.literal "0.6") 10);
  when b (
    fg_pct ← lift (if 0 <? fga
                   then (r ← (#fg / #fga * #100)%py; num_round r 1)
                   else Ok (Int 0));
    append hot_shooting_games (base_entry "hot_shooting_game"
      [FInt fg; FText "/"; FInt fga; FText " FG ("; FNum fg_pct;
       FText "%)"]));;
  b ← lift (is_perfect_ft stats 5);
  when b (
    append perfect_ft_games (base_entry "perfect_ft_game"
      [FInt ft; FText "/"; FInt fta; FText " FT (100%)"]));;
  b ← lift (is_perfect_fg stats 5);
  when b (
    append perfect_fg_games (base_entry "perfect_fg_game"
      [FInt fg; FText "/"; FInt fga; FText " FG (100%)"]));;
  b ← lift (is_efficient_scoring stats (Str.literal "0.65") 15);
  when b (
    ts ← lift (calculate_true_shooting pts fga fta);
    ts_pct ← lift (match ts with
                   | Some t =>
                       if num_truthy t
                       then (r ← (Ok t * #100)%py; num_round r 1)
                       else Ok (Int 0)
                   | None => Ok (Int 0)
                   end);
    append efficient_scoring_games (base_entry "efficient_scoring_game"
      [FInt pts; FText " points on "; FNum ts_pct; FText "% TS"]));;
  game_score ← lift (calculate_game_score stats);
  when (num_ge game_score (Int 35)) (
    append high_game_score (base_entry "high_game_score"
      [FText "Game Score: "; FNum game_score])).

(* === COMBINED MILESTONES === *)
Definition combined_milestones : M unit :=
  (if (30 <=? pts) && ((10 <=? trb) || (10 <=? ast)) then
     append thirty_ten_games (base_entry "thirty_ten_game"
       [FInt pts; FText " pts, "; FInt trb; FText " reb, "; FInt ast;
        FText " ast"])
   else if (25 <=? pts) && ((10 <=? trb) || (10 <=? ast)) then
     append twenty_five_ten_games (base_entry "twenty_five_ten_game"
       [FInt pts; FText " pts, "; FInt trb; FText " reb, "; FInt ast;
        FText " ast"])
   else if (20 <=? pts) && ((10 <=? trb) || (10 <=? ast)) then
     append twenty_ten_games (base_entry "twenty_ten_game"
       [FInt pts; FText " pts, "; FInt trb; FText " reb, "; FInt ast;
        FText " ast"])
   else mret tt);;
  when ((20 <=? pts) && (10 <=? trb) && (5 <=? ast)) (
    append twenty_ten_five_games (base_entry "twenty_ten_five_game"
      [FInt pts; FText " pts, "; FInt trb; FText " reb, "; FInt ast;
       FText " ast"]));;
  when ((20 <=? pts) && (20 <=? trb)) (
    append twenty_twenty_games (base_entry "twenty_twenty_game"
      [FInt pts; FText " points, "; FInt trb; FText " rebounds"]));;
  when ((10 <=? pts) && (10 <=? ast) && (trb <? 10)) (
    append points_assists_double_double
      (base_entry "points_assists_double_double"
         [FInt pts; FText " pts, "; FInt ast; FText " ast"])).

(* === DEFENSIVE MILESTONES === *)
Definition defensive_milestones : M unit :=
  b ← lift (is_defensive_monster stats 7);
  when b (
    append defensive_monster_games (base_entry "defensive_monster_game"
      [FInt stl; FText " steals, "; FInt blk; FText " blocks"])).

(* === CLEAN GAMES === *)
Definition clean_games : M unit :=
  b ← lift (is_zero_turnover_game stats (Str.literal "20.0"));
  when b (
    minutes ← lift (format_0f mp);
    append zero_turnover_games (base_entry "zero_turnover_game"
      [FText "0 turnovers in "; minutes; FText " minutes"])).

(* === PLUS/MINUS MILESTONES === *)
Definition plus_minus_milestones : M unit :=
  (if 25 <=? plus_minus then
     append plus_25_games (base_entry "plus_25_game"
       [FText "+"; FInt plus_minus])
   else if 20 <=? plus_minus then
     append plus_20_games (base_entry "plus_20_game"
       [FText "+"; FInt plus_minus])
   else mret tt);;
  when (plus_minus <=? -25) (
    append minus_25_games (base_entry "minus_25_game" [FInt plus_minus])).

(** The checks, in the order of the source. *)
Definition check_milestones : M unit :=
  multi_category_achievements;;
  scoring_milestones;;
  rebounding_milestones;;
  assist_milestones;;
  steal_milestones;;
  block_milestones;;
  three_pointer_milestones;;
  efficiency_milestones;;
  combined_milestones;;
  defensive_milestones;;
  clean_games;;
  plus_minus_milestones.

End Blocks.

Definition _check_player_milestones (player : Player)
    (team opponent game_id date side : string) : M unit :=
  let name := get player "name" (PyStr "") in
  let player_id := get player "player_id" (PyStr "") in
  (* Extract stats *)
  pts ← lift (safe_int (get player "pts" (PyInt 0)) 0);
  trb ← lift (safe_int (get player "trb" (PyInt 0)) 0);
  ast ← lift (safe_int (get player "ast" (PyInt 0)) 0);
  stl ← lift (safe_int (get player "stl" (PyInt 0)) 0);
  blk ← lift (safe_int (get player "blk" (PyInt 0)) 0);
  fg3 ← lift (safe_int (get player "fg3" (PyInt 0)) 0);
  fg3a ← lift (safe_int (get player "fg3a" (PyInt 0)) 0);
  fg ← lift (safe_int (get player "fg" (PyInt 0)) 0);
  fga ← lift (safe_int (get player "fga" (PyInt 0)) 0);
  ft ← lift (safe_int (get player "ft" (PyInt 0)) 0);
  fta ← lift (safe_int (get player "fta" (PyInt 0)) 0);
  tov ← lift (safe_int (get player "tov" (PyInt 0)) 0);
  plus_minus ← lift (safe_int (get player "plus_minus" (PyInt 0)) 0);
  let mp := get player "mp" (PyInt 0) in
  mp ← lift (minutes_if_str mp);
  let stats :=
    mk_stats pts trb ast stl blk fg3 fg3a fg fga ft fta tov plus_minus mp in
  let base_entry :=
    mk_entry name player_id team opponent game_id date side stats in
  check_milestones stats base_entry
    pts trb ast stl blk fg3 fg3a fg fga ft fta plus_minus mp.

(** ** _process_game and process_games *)

(** A game record, reduced to the keys the engine reads; every key may be
    missing.  The game id, the date and the team names are strings, a
    roster is a list of player mappings. *)
Record Game : Type := {
  g_game_id : option string;
  g_basic_info : option (gmap string string);
  g_box_score : option (gmap string (gmap string (list Player)));
}.

(** Truth value of a list. *)
Definition list_truthy {A} (l : list A) : bool :=
  match l with [] => false | _ => true end.

Definition get_players_for_side
    (box_score : gmap string (gmap string (list Player))) (side : string)
    : list Player :=
  let side_data := get box_score side ∅ in
  let players := get side_data "players" [] in
  if negb (list_truthy players)
  then get side_data "basic" []
  else players.

Definition _process_game (game : Game) : M unit :=
  let game_id := default "" (g_game_id game) in
  let basic_info := default ∅ (g_basic_info game) in
  let date := get basic_info "date" (get basic_info "date_yyyymmdd" "") in
  let home_team := get basic_info "home_team" "" in
  let away_team := get basic_info "away_team" "" in
  let box_score := default ∅ (g_box_score game) in
  (* Process away team players *)
  for_each (get_players_for_side box_score "away") (fun player =>
    _check_player_milestones player away_team home_team game_id date "away");;
  (* Process home team players *)
  for_each (get_players_for_side box_score "home") (fun player =>
    _check_player_milestones player home_team away_team game_id date "home").

Definition process_games (games : list Game) : M MilestoneResults :=
  set_results new_MilestoneResults;;
  for_each games _process_game;;
  get_results.

(** ** Reading the results *)

(** [get_milestone_summary]: the count of every list-valued public
    attribute of [self.results]. *)
Definition get_milestone_summary (results : MilestoneResults)
  : gmap string Z :=
  fold_left
    (fun summary attr_name =>
       if negb (startswith "_" attr_name)
          && negb (bool_decide
                     (attr_name ∈ ["to_dict"; "get_milestone_count"]))
       then
         match getattr results attr_name with
         | AttrList value => <[attr_name := Z.of_nat (length value)]> summary
         | _ => summary
         end
       else summary)
    (dir results) ∅.

(** [entry.player.lower()]: only a string has the method. *)
Definition player_lower_of (entry : MilestoneEntry) : result string :=
  match player entry with
  | PyStr s => Ok (Str.lower_text s)
  | _ => Raise AttributeError
  end.

(** [get_player_milestones]: the entries of [player_name], compared in
    lower case, scanning the attributes in [dir] order. *)
Definition get_player_milestones (results : MilestoneResults)
    (player_name : string) : result (list MilestoneEntry) :=
  let player_lower := Str.lower_text player_name in
  fold_for (dir results)
    (fun player_milestones attr_name =>
       if negb (startswith "_" attr_name)
          && negb (bool_decide
                     (attr_name ∈ ["to_dict"; "get_milestone_count"]))
       then
         match getattr results attr_name with
         | AttrList value =>
             fold_for value
               (fun player_milestones entry =>
                  entry_lower ← player_lower_of entry;
                  if String.eqb entry_lower player_lower
                  then Ok (player_milestones ++ [entry])
                  else Ok player_milestones)
               player_milestones
         | _ => Ok player_milestones
         end
       else Ok player_milestones)
    [].

(** [MILESTONE_DESCRIPTIONS]: the display text of every category, in the
    order of the dict literal. *)
Definition MILESTONE_DESCRIPTIONS : list (string * string) :=
  [ ("quadruple_doubles", "Quadruple-Double (10+ in 4 categories)");
    ("triple_doubles", "Triple-Double (10+ in 3 categories)");
    ("double_doubles", "Double-Double (10+ in 2 categories)");
    ("near_triple_doubles", "Near Triple-Double (2 at 10+, 1 at 8-9)");
    ("near_double_doubles", "Near Double-Double (1 at 10+, 1 at 8-9)");
    ("five_by_fives", "5x5 Game (5+ in all 5 categories)");
    ("all_around_games", "All-Around Game (5+ in 5 or 8+ in 4 categories)");
    ("seventy_point_games", "70+ Point Games");
    ("sixty_point_games", "60+ Point Games");
    ("fifty_point_games", "50+ Point Games");
    ("forty_five_point_games", "45+ Point Games");
    ("forty_point_games", "40+ Point Games");
    ("thirty_five_point_games", "35+ Point Games");
    ("thirty_point_games", "30+ Point Games");
    ("twenty_five_point_games", "25+ Point Games");
    ("twenty_point_games", "20+ Point Games");
    ("twenty_five_rebound_games", "25+ Rebound Games");
    ("twenty_rebound_games", "20+ Rebound Games");
    ("eighteen_rebound_games", "18+ Rebound Games");
    ("fifteen_rebound_games", "15+ Rebound Games");
    ("twelve_rebound_games", "12+ Rebound Games");
    ("ten_rebound_games", "10+ Rebound Games");
    ("twenty_assist_games", "20+ Assist Games");
    ("fifteen_assist_games", "15+ Assist Games");
    ("twelve_assist_games", "12+ Assist Games");
    ("ten_assist_games", "10+ Assist Games");
    ("ten_steal_games", "10+ Steal Games");
    ("seven_steal_games", "7+ Steal Games");
    ("five_steal_games", "5+ Steal Games");
    ("four_steal_games", "4+ Steal Games");
    ("ten_block_games", "10+ Block Games");
    ("seven_block_games", "7+ Block Games");
    ("five_block_games", "5+ Block Games");
    ("four_block_games", "4+ Block Games");
    ("ten_three_games", "10+ Three-Pointer Games");
    ("eight_three_games", "8+ Three-Pointer Games");
    ("seven_three_games", "7+ Three-Pointer Games");
    ("six_three_games", "6+ Three-Pointer Games");
    ("five_three_games", "5+ Three-Pointer Games");
    ("perfect_from_three", "Perfect from Three (4+ attempts)");
    ("hot_shooting_games", "Hot Shooting (60%+ FG, 10+ attempts)");
    ("perfect_ft_games", "Perfect Free Throws (5+ attempts)");
    ("perfect_fg_games", "Perfect from Field (5+ attempts)");
    ("efficient_scoring_games", "Efficient Scoring (65%+ TS, 15+ pts)");
    ("high_game_score", "High Game Score (35+)");
    ("thirty_ten_games", "30-10 Games (30+ pts, 10+ reb/ast)");
    ("twenty_five_ten_games", "25-10 Games (25+ pts, 10+ reb/ast)");
    ("twenty_ten_games", "20-10 Games (20+ pts, 10+ reb/ast)");
    ("twenty_ten_five_games", "20-10-5 Games");
    ("twenty_twenty_games", "20-20 Games (20+ pts, 20+ reb)");
    ("points_assists_double_double", "Points-Assists Double-Double");
    ("defensive_monster_games", "Defensive Monster (7+ stl+blk)");
    ("zero_turnover_games", "Zero Turnover Games (20+ min)");
    ("plus_25_games", "+25 Plus/Minus Games");
    ("plus_20_games", "+20 Plus/Minus Games");
    ("minus_25_games", "-25 Plus/Minus Games") ].

End MilestoneEngine.

Import Helpers MilestoneEngine.

(* ===================================================================== *)
(** * nba_processor/website/generator.py *)
(* ===================================================================== *)

(** The [milestone_categories] table of [_generate_js_constants] in
    [nba_processor/website/generator.py]: the category keys behind each
    filter of the generated page. *)
Definition milestone_categories : list (string * list string) :=
  [ ("multi",
     [ "quadruple_doubles"; "triple_doubles"; "double_doubles";
       "near_triple_doubles"; "near_double_doubles"; "five_by_fives";
       "all_around_games" ]);
    ("scoring",
     [ "seventy_point_games"; "sixty_point_games"; "fifty_point_games";
       "forty_five_point_games"; "forty_point_games";
       "thirty_five_point_games"; "thirty_point_games";
       "twenty_five_point_games"; "twenty_point_games" ]);
    ("rebounding",
     [ "twenty_five_rebound_games"; "twenty_rebound_games";
       "eighteen_rebound_games"; "fifteen_rebound_games";
       "twelve_rebound_games"; "ten_rebound_games" ]);
    ("assists",
     [ "twenty_assist_games"; "fifteen_assist_games"; "twelve_assist_games";
       "ten_assist_games" ]);
    ("steals",
     [ "ten_steal_games"; "seven_steal_games"; "five_steal_games";
       "four_steal_games" ]);
    ("blocks",
     [ "ten_block_games"; "seven_block_games"; "five_block_games";
       "four_block_games" ]);
    ("threes",
     [ "ten_three_games"; "eight_three_games"; "seven_three_games";
       "six_three_games"; "five_three_games"; "perfect_from_three" ]);
    ("efficiency",
     [ "hot_shooting_games"; "perfect_ft_games"; "perfect_fg_games";
       "efficient_scoring_games"; "high_game_score" ]);
    ("combined",
     [ "thirty_ten_games"; "twenty_five_ten_games"; "twenty_ten_games";
       "twenty_ten_five_games"; "twenty_twenty_games";
       "points_assists_double_double" ]);
    ("defensive",
     [ "defensive_monster_games"; "zero_turnover_games" ]);
    ("plusminus",
     [ "plus_25_games"; "plus_20_games"; "minus_25_games" ]) ].

(* ===================================================================== *)
(** * Vocabulary of the statements *)
(* ===================================================================== *)

(** The outcome of a method started on fresh results, and the entries it
    leaves in category [c]. *)
Definition outcome {A} (m : M A) : result A := snd (m new_MilestoneResults).
Definition added {A} (m : M A) (c : category) : list MilestoneEntry :=
  fst (m new_MilestoneResults) c.

(** A method only appends: its outcome does not depend on the results it
    starts from, and every list is extended at its end. *)
Definition appends {A} (m : M A) : Prop :=
  forall r, snd (m r) = outcome m /\ forall c, fst (m r) c = r c ++ added m c.

(** A method leaves category [c] alone. *)
Definition skips {A} (c : category) (m : M A) : Prop :=
  forall r, fst (m r) c = r c.

(** How many values of a list satisfy a test. *)
Definition count_if (P : Z -> bool) (l : list Z) : Z :=
  fold_right (fun v n => (if P v then 1 else 0) + n) 0 l.

(** The locals of [_process_game]. *)
Definition game_id_of (game : Game) : string := default "" (g_game_id game).
Definition basic_info_of (game : Game) : gmap string string :=
  default ∅ (g_basic_info game).
Definition date_of (game : Game) : string :=
  get (basic_info_of game) "date" (get (basic_info_of game) "date_yyyymmdd" "").
Definition home_team_of (game : Game) : string :=
  get (basic_info_of game) "home_team" "".
Definition away_team_of (game : Game) : string :=
  get (basic_info_of game) "away_team" "".
Definition roster (game : Game) (side : string) : list Player :=
  get_players_for_side (default ∅ (g_box_score game)) side.

(** The entries one player yields in category [c], and those of a whole
    side and a whole game in processing order. *)
Definition away_player_entries (c : category) (game : Game) (player : Player)
    : list MilestoneEntry :=
  added (_check_player_milestones player (away_team_of game)
           (home_team_of game) (game_id_of game) (date_of game) "away") c.

Definition home_player_entries (c : category) (game : Game) (player : Player)
    : list MilestoneEntry :=
  added (_check_player_milestones player (home_team_of game)
           (away_team_of game) (game_id_of game) (date_of game) "home") c.

Definition game_entries (c : category) (game : Game) : list MilestoneEntry :=
  flat_map (away_player_entries c game) (roster game "away")
  ++ flat_map (home_player_entries c game) (roster game "home").

(** The categories of the first two blocks. *)
Definition multi_categories : list category :=
  [ quadruple_doubles; triple_doubles; double_doubles; near_triple_doubles;
    near_double_doubles; five_by_fives; all_around_games ].

Definition scoring_categories : list category :=
  [ seventy_point_games; sixty_point_games; fifty_point_games;
    forty_five_point_games; forty_point_games; thirty_five_point_games;
    thirty_point_games; twenty_five_point_games; twenty_point_games ].

Section AfterBlocks.

Variable stats : dict.
Variable base_entry : string -> fstring -> MilestoneEntry.
Variables pts trb ast stl blk fg3 fg3a fg fga ft fta plus_minus : Z.
Variable mp : pyval.

(** What follows the first block, and what follows the second. *)
Definition after_scoring : M unit :=
  rebounding_milestones base_entry trb;;
  assist_milestones base_entry ast;;
  steal_milestones base_entry stl;;
  block_milestones base_entry blk;;
  three_pointer_milestones stats base_entry fg3 fg3a;;
  efficiency_milestones stats base_entry pts fg fga ft fta;;
  combined_milestones base_entry pts trb ast;;
  defensive_milestones stats base_entry stl blk;;
  clean_games stats base_entry mp;;
  plus_minus_milestones base_entry plus_minus.

Definition after_multi : M unit :=
  scoring_milestones base_entry pts;; after_scoring.

End AfterBlocks.

(** The text listing the categories at 10 or more. *)
Definition double_digit_categories (pts trb ast stl blk : Z) : string :=
  join "/"
    ((if 10 <=? pts then ["pts"] else [])
     ++ (if 10 <=? trb then ["reb"] else [])
     ++ (if 10 <=? ast then ["ast"] else [])
     ++ (if 10 <=? stl then ["stl"] else [])
     ++ (if 10 <=? blk then ["blk"] else [])).

(** The scoring thresholds in descending order, each with its category and
    the [milestone_type] of its entries. *)
Definition scoring_ladder : list (Z * category * string) :=
  [ (70, seventy_point_games, "seventy_point_game");
    (60, sixty_point_games, "sixty_point_game");
    (50, fifty_point_games, "fifty_point_game");
    (45, forty_five_point_games, "forty_five_point_game");
    (40, forty_point_games, "forty_point_game");
    (35, thirty_five_point_games, "thirty_five_point_game");
    (30, thirty_point_games, "thirty_point_game");
    (25, twenty_five_point_games, "twenty_five_point_game");
    (20, twenty_point_games, "twenty_point_game") ].

(** The first rung of a descending ladder that [v] reaches: the highest
    threshold met. *)
Definition highest_met (ladder : list (Z * category * string)) (v : Z)
    : option (Z * category * string) :=
  List.find (fun '(t, _, _) => t <=? v) ladder.

(** The stat extraction of [_check_player_milestones] succeeds with these
    values. *)
Definition coerced (player : Player)
    (pts trb ast stl blk fg3 fg3a fg fga ft fta tov plus_minus : Z)
    (mp : pyval) : Prop :=
  safe_int (get player "pts" (PyInt 0)) 0 = Ok pts
  /\ safe_int (get player "trb" (PyInt 0)) 0 = Ok trb
  /\ safe_int (get player "ast" (PyInt 0)) 0 = Ok ast
  /\ safe_int (get player "stl" (PyInt 0)) 0 = Ok stl
  /\ safe_int (get player "blk" (PyInt 0)) 0 = Ok blk
  /\ safe_int (get player "fg3" (PyInt 0)) 0 = Ok fg3
  /\ safe_int (get player "fg3a" (PyInt 0)) 0 = Ok fg3a
  /\ safe_int (get player "fg" (PyInt 0)) 0 = Ok fg
  /\ safe_int (get player "fga" (PyInt 0)) 0 = Ok fga
  /\ safe_int (get player "ft" (PyInt 0)) 0 = Ok ft
  /\ safe_int (get player "fta" (PyInt 0)) 0 = Ok fta
  /\ safe_int (get player "tov" (PyInt 0)) 0 = Ok tov
  /\ safe_int (get player "plus_minus" (PyInt 0)) 0 = Ok plus_minus
  /\ minutes_if_str (get player "mp" (PyInt 0)) = Ok mp.

(** The [base_entry] of a player-game. *)
Definition base_entry_of (player : Player)
    (team opponent game_id date side : string) (stats : dict)
    : string -> fstring -> MilestoneEntry :=
  mk_entry (get player "name" (PyStr "")) (get player "player_id" (PyStr ""))
    team opponent game_id date side stats.

(** ** Reading the results *)

(** Categories in the order [dir] lists their names. *)
Definition fields_by_name : list category :=
  merge_sort (fun a b => Is_true (String.leb (field_name a) (field_name b)))
    fields.

(** Does the entry belong to [player_name], compared in lower case? *)
Definition is_player (player_name : string) (entry : MilestoneEntry) : bool :=
  match player entry with
  | PyStr s => String.eqb (Str.lower_text s) (Str.lower_text player_name)
  | _ => false
  end.

Definition has_name (entry : MilestoneEntry) : bool :=
  match player entry with PyStr _ => true | _ => false end.

(** The field an attribute name denotes, if any. *)
Definition field_of (attr_name : string) : option category :=
  List.find (fun c => String.eqb (field_name c) attr_name) fields.

(** Entries held by a results object, over all categories. *)
Definition total_entries (results : MilestoneResults) : Z :=
  foldr (fun c n => Z.of_nat (length (results c)) + n) 0 fields.

(** ** What a method stores, how much, and how it can end *)

(** A category's field name without its plural ending. *)
Definition singular (name : string) : string :=
  match rev (list_ascii_of_string name) with
  | "s"%char :: rest => string_of_list_ascii (rev rest)
  | _ => name
  end.

(** Whatever a method adds to a category satisfies [P]. *)
Definition stores {A} (P : category -> MilestoneEntry -> Prop) (m : M A)
    : Prop :=
  forall r c e, e ∈ fst (m r) c -> e ∈ r c \/ P c e.

(** The entry a player-game yields in category [c]: built from the
    player's name and id, the game's data, the coerced stats and the
    [milestone_type] of the category. *)
Definition recorded_for (player : Player)
    (team opponent game_id date side : string)
    (c : category) (e : MilestoneEntry) : Prop :=
  exists pts trb ast stl blk fg3 fg3a fg fga ft fta tov plus_minus mp detail,
    coerced player pts trb ast stl blk fg3 fg3a fg fga ft fta tov
      plus_minus mp
    /\ e = base_entry_of player team opponent game_id date side
             (mk_stats pts trb ast stl blk fg3 fg3a fg fga ft fta tov
                plus_minus mp)
             (singular (field_name c)) detail.

(** The keys of a player record that [_check_player_milestones] reads. *)
Definition read_keys : list string :=
  [ "name"; "player_id"; "pts"; "trb"; "ast"; "stl"; "blk"; "fg3"; "fg3a";
    "fg"; "fga"; "ft"; "fta"; "tov"; "plus_minus"; "mp" ].

(** The player records a batch goes through. *)
Definition player_games (games : list Game) : nat :=
  foldr (fun game n =>
           length (roster game "away") + length (roster game "home") + n)%nat
    0%nat games.

(** A method adds at most [n] entries to category [c]. *)
Definition adds_at_most {A} (n : nat) (c : category) (m : M A) : Prop :=
  forall r, (length (fst (m r) c) <= n + length (r c))%nat.

(** A computation raises nothing outside [E]. *)
Definition raises_only {A} (E : list exn) (x : result A) : Prop :=
  forall e, x = Raise e -> e ∈ E.

(** The exceptions the classification of a player can end with. *)
Definition classification_errors : list exn :=
  [OverflowError; ValueError; TypeError].

(** A method ends normally or with an exception of [E]. *)
Definition ends_only {A} (E : list exn) (m : M A) : Prop :=
  forall r, raises_only E (snd (m r)).

(** ** The blocks of the checks and their ladders *)

(** The categories of the other blocks. *)
Definition rebounding_categories : list category :=
  [ twenty_five_rebound_games; twenty_rebound_games; eighteen_rebound_games;
    fifteen_rebound_games; twelve_rebound_games; ten_rebound_games ].

Definition assist_categories : list category :=
  [ twenty_assist_games; fifteen_assist_games; twelve_assist_games;
    ten_assist_games ].

Definition steal_categories : list category :=
  [ ten_steal_games; seven_steal_games; five_steal_games; four_steal_games ].

Definition block_categories : list category :=
  [ ten_block_games; seven_block_games; five_block_games; four_block_games ].

Definition three_pointer_categories : list category :=
  [ ten_three_games; eight_three_games; seven_three_games; six_three_games;
    five_three_games; perfect_from_three ].

Definition efficiency_categories : list category :=
  [ hot_shooting_games; perfect_ft_games; perfect_fg_games;
    efficient_scoring_games; high_game_score ].

Definition combined_categories : list category :=
  [ thirty_ten_games; twenty_five_ten_games; twenty_ten_games;
    twenty_ten_five_games; twenty_twenty_games;
    points_assists_double_double ].

Definition plus_minus_categories : list category :=
  [ plus_25_games; plus_20_games; minus_25_games ].

(** The other threshold ladders, each in descending order. *)
Definition rebounding_ladder : list (Z * category * string) :=
  [ (25, twenty_five_rebound_games, "twenty_five_rebound_game");
    (20, twenty_rebound_games, "twenty_rebound_game");
    (18, eighteen_rebound_games, "eighteen_rebound_game");
    (15, fifteen_rebound_games, "fifteen_rebound_game");
    (12, twelve_rebound_games, "twelve_rebound_game");
    (10, ten_rebound_games, "ten_rebound_game") ].

Definition assist_ladder : list (Z * category * string) :=
  [ (20, twenty_assist_games, "twenty_assist_game");
    (15, fifteen_assist_games, "fifteen_assist_game");
    (12, twelve_assist_games, "twelve_assist_game");
    (10, ten_assist_games, "ten_assist_game") ].

Definition steal_ladder : list (Z * category * string) :=
  [ (10, ten_steal_games, "ten_steal_game");
    (7, seven_steal_games, "seven_steal_game");
    (5, five_steal_games, "five_steal_game");
    (4, four_steal_games, "four_steal_game") ].

Definition block_ladder : list (Z * category * string) :=
  [ (10, ten_block_games, "ten_block_game");
    (7, seven_block_games, "seven_block_game");
    (5, five_block_games, "five_block_game");
    (4, four_block_games, "four_block_game") ].

Definition three_pointer_ladder : list (Z * category * string) :=
  [ (10, ten_three_games, "ten_three_game");
    (8, eight_three_games, "eight_three_game");
    (7, seven_three_games, "seven_three_game");
    (6, six_three_games, "six_three_game");
    (5, five_three_games, "five_three_game") ].

(** Each ladder with the stat it reads and the text that follows the
    number in the detail. *)
Definition stat_ladders (trb ast stl blk fg3 : Z)
    : list (list (Z * category * string) * Z * string) :=
  [ (rebounding_ladder, trb, " rebounds");
    (assist_ladder, ast, " assists");
    (steal_ladder, stl, " steals");
    (block_ladder, blk, " blocks");
    (three_pointer_ladder, fg3, " three-pointers") ].

(** An [if]/[elif] chain over a ladder: the first rung that [v] reaches
    gets the entry. *)
Fixpoint climb (ladder : list (Z * category * string)) (v : Z)
    (suffix : string) (base_entry : string -> fstring -> MilestoneEntry)
    : M unit :=
  match ladder with
  | [] => mret tt
  | (t, c, milestone_type) :: rest =>
      if t <=? v
      then append c (base_entry milestone_type [FInt v; FText suffix])
      else climb rest v suffix base_entry
  end.

(** The thresholds of a ladder strictly decrease. *)
Fixpoint descending (ladder : list (Z * category * string)) : bool :=
  match ladder with
  | (t, _, _) :: (((t', _, _) :: _) as rest) => (t' <? t) && descending rest
  | _ => true
  end.

(** ** Shot counts *)

(** The integers of [lo, lo + n). *)
Definition range (lo : Z) (n : nat) : list Z :=
  (fun i => lo + Z.of_nat i) <$> seq 0 n.

(** The field-goal test of [is_hot_shooting], on two counts. *)
Definition hot_shooting_agrees (fg fga : Z) : bool :=
  match is_hot_shooting {[ "fg" := PyInt fg; "fga" := PyInt fga ]}
          (Str.literal "0.6") 10 with
  | Ok b => Bool.eqb b ((10 <=? fga) && (3 * fga <=? 5 * fg))
  | Raise _ => false
  end.

(* ===================================================================== *)
(** * Sample records *)
(* ===================================================================== *)

(** A quadruple-double line (20/15/12/10/5), with one field as text. *)
Definition sample_center : Player :=
  {[ "name" := PyStr "Sample Center"; "player_id" := PyStr "centesa01";
     "pts" := PyInt 20; "trb" := PyStr "15"; "ast" := PyInt 12;
     "stl" := PyInt 10; "blk" := PyInt 5; "tov" := PyInt 2;
     "mp" := PyInt 38 ]}.

(** A 45-point line. *)
Definition sample_scorer : Player :=
  {[ "name" := PyStr "Sample Scorer"; "player_id" := PyStr "scoresa01";
     "pts" := PyInt 45; "trb" := PyInt 4; "ast" := PyInt 3;
     "fg" := PyInt 16; "fga" := PyInt 29; "tov" := PyInt 4;
     "mp" := PyStr "41:30" ]}.

(** A near triple-double line (22/11/9). *)
Definition sample_guard : Player :=
  {[ "name" := PyStr "Sample Guard"; "player_id" := PyStr "guardsa01";
     "pts" := PyInt 22; "trb" := PyInt 11; "ast" := PyInt 9;
     "stl" := PyInt 1; "tov" := PyInt 3; "mp" := PyInt 36 ]}.

(** A 5x5 line (12/9/6/5/5). *)
Definition sample_forward : Player :=
  {[ "name" := PyStr "Sample Forward"; "player_id" := PyStr "forwasa01";
     "pts" := PyInt 12; "trb" := PyInt 9; "ast" := PyInt 6;
     "stl" := PyInt 5; "blk" := PyInt 5; "tov" := PyInt 1;
     "mp" := PyInt 33 ]}.

Definition sample_game_1 : Game :=
  {| g_game_id := Some "202401150LAL";
     g_basic_info := Some {[ "date" := "2024-01-15"; "home_team" := "LAL";
                             "away_team" := "BOS" ]};
     g_box_score := Some {[ "away" := {[ "players" := [sample_center;
                                                        sample_guard] ]};
                            "home" := {[ "basic" := [sample_scorer] ]} ]} |}.

Definition sample_game_2 : Game :=
  {| g_game_id := Some "202401170DEN";
     g_basic_info := Some {[ "date" := "2024-01-17"; "home_team" := "DEN";
                             "away_team" := "LAL" ]};
     g_box_score := Some {[ "away" := {[ "players" := [sample_forward] ]};
                            "home" := {[ "players" := [];
                                         "basic" := [sample_center] ]} ]} |}.

(* ===================================================================== *)
(** * What a method adds to the results *)
(* ===================================================================== *)

Section Laws.

Context {A B : Type}.
Implicit Types (m : M A) (k : A -> M B) (c : category).

Lemma appends_ret (a : A) : appends (mret a).
Proof. intros r; split; [done|]. intros c. cbn. by rewrite app_nil_r. Qed.

Lemma appends_lift (x : result A) : appends (lift x).
Proof. intros r; split; [done|]. intros c. cbn. by rewrite app_nil_r. Qed.

Lemma run_bind m k r :
  (m ≫= k) r =
    match m r with
    | (r', Ok a) => k a r'
    | (r', Raise e) => (r', Raise e)
    end.
Proof. reflexivity. Qed.

Lemma outcome_bind m k :
  (forall a, appends (k a)) ->
  outcome (m ≫= k) = outcome m ≫= fun a => outcome (k a).
Proof.
  intros Hk. unfold outcome. rewrite run_bind.
  destruct (m new_MilestoneResults) as [r1 [a|e]]; cbn; [|done].
  apply Hk.
Qed.

Lemma added_bind m k c :
  (forall a, appends (k a)) ->
  added (m ≫= k) c =
    added m c ++ match outcome m with
                 | Ok a => added (k a) c
                 | Raise _ => []
                 end.
Proof.
  intros Hk. unfold added, outcome. rewrite run_bind.
  destruct (m new_MilestoneResults) as [r1 [a|e]]; cbn.
  - apply Hk.
  - by rewrite app_nil_r.
Qed.

Lemma appends_bind m k :
  appends m -> (forall a, appends (k a)) -> appends (m ≫= k).
Proof.
  intros Hm Hk r. rewrite outcome_bind by done.
  destruct (Hm r) as [Ho Hc]. rewrite run_bind.
  split.
  - destruct (m r) as [r1 [a|e]]; cbn in Ho; rewrite <- Ho; cbn; [|done].
    apply Hk.
  - intros c. rewrite added_bind by done. specialize (Hc c).
    destruct (m r) as [r1 [a|e]]; cbn in *; rewrite <- Ho.
    + destruct (Hk a r1) as [_ ->]. by rewrite Hc, app_assoc.
    + by rewrite Hc, app_nil_r.
Qed.

Lemma skips_ret c (a : A) : skips c (mret a).
Proof. done. Qed.

Lemma skips_lift c (x : result A) : skips c (lift x).
Proof. done. Qed.

Lemma skips_bind c m k :
  skips c m -> (forall a, skips c (k a)) -> skips c (m ≫= k).
Proof.
  intros Hm Hk r. rewrite run_bind. specialize (Hm r).
  destruct (m r) as [r1 [a|e]]; cbn in *; [|done].
  by rewrite Hk.
Qed.

End Laws.

Lemma appends_append c e : appends (append c e).
Proof.
  intros r; split; [done|]. intros c'. unfold added, append; cbn.
  destruct (decide (c = c')) as [->|Hne].
  - by rewrite !fn_lookup_insert.
  - rewrite !fn_lookup_insert_ne by done. by rewrite app_nil_r.
Qed.

Lemma appends_when b body : appends body -> appends (when b body).
Proof. destruct b; [done|]. intros _. apply appends_ret. Qed.

Lemma appends_if {A} (b : bool) (m1 m2 : M A) :
  appends m1 -> appends m2 -> appends (if b then m1 else m2).
Proof. by destruct b. Qed.

Lemma appends_for_each {A} (xs : list A) body :
  (forall x, appends (body x)) -> appends (for_each xs body).
Proof.
  intros Hb. induction xs as [|x xs IH]; cbn [for_each].
  - apply appends_ret.
  - apply appends_bind; [apply Hb | intros _; apply IH].
Qed.

Lemma skips_append c c' e : c <> c' -> skips c (append c' e).
Proof. intros Hne r. unfold append; cbn. by rewrite fn_lookup_insert_ne. Qed.

Lemma skips_when c b body : skips c body -> skips c (when b body).
Proof. by destruct b. Qed.

Lemma skips_if {A} c (b : bool) (m1 m2 : M A) :
  skips c m1 -> skips c m2 -> skips c (if b then m1 else m2).
Proof. by destruct b. Qed.

Lemma added_skips {A} c (m : M A) : skips c m -> added m c = [].
Proof. intros H. apply H. Qed.

Lemma added_append c c' e :
  added (append c' e) c = if decide (c' = c) then [e] else [].
Proof.
  unfold added, append; cbn. destruct (decide (c' = c)) as [->|Hne].
  - by rewrite fn_lookup_insert.
  - by rewrite fn_lookup_insert_ne.
Qed.

(** The laws are applied mechanically, following the shape of the method. *)
Ltac appends_tac :=
  repeat first
    [ apply appends_ret | apply appends_lift | apply appends_append
    | apply appends_when | apply appends_if
    | apply appends_bind; [|intros ?] ].

Ltac skips_tac :=
  repeat first
    [ apply skips_ret | apply skips_lift
    | apply skips_append; discriminate
    | apply skips_when | apply skips_if
    | apply skips_bind; [|intros ?] ].

Section BlockLaws.

Variable stats : dict.
Variable base_entry : string -> fstring -> MilestoneEntry.
Variables pts trb ast stl blk fg3 fg3a fg fga ft fta plus_minus : Z.
Variable mp : pyval.

Lemma appends_multi_category_achievements :
  appends (multi_category_achievements stats base_entry pts trb ast stl blk).
Proof. unfold multi_category_achievements. appends_tac. Qed.

Lemma appends_check_milestones :
  appends (check_milestones stats base_entry
             pts trb ast stl blk fg3 fg3a fg fga ft fta plus_minus mp).
Proof.
  unfold check_milestones, multi_category_achievements, scoring_milestones,
    rebounding_milestones, assist_milestones, steal_milestones,
    block_milestones, three_pointer_milestones, efficiency_milestones,
    combined_milestones, defensive_milestones, clean_games,
    plus_minus_milestones.
  appends_tac.
Qed.

End BlockLaws.

Lemma appends_check_player_milestones player team opponent game_id date side :
  appends (_check_player_milestones player team opponent game_id date side).
Proof.
  unfold _check_player_milestones. cbn zeta.
  repeat (apply appends_bind; [apply appends_lift | intros ?]).
  apply appends_check_milestones.
Qed.

(* ===================================================================== *)
(** * Loops over rosters and games *)
(* ===================================================================== *)

Lemma for_each_nil {A} (body : A -> M unit) r : for_each [] body r = (r, Ok tt).
Proof. reflexivity. Qed.

Lemma outcome_for_each_cons {A} (x : A) xs body :
  (forall y, appends (body y)) ->
  outcome (for_each (x :: xs) body) = Ok tt ->
  outcome (body x) = Ok tt /\ outcome (for_each xs body) = Ok tt.
Proof.
  intros Hb. cbn [for_each].
  rewrite outcome_bind by (intros _; by apply appends_for_each).
  destruct (outcome (body x)) as [[]|e]; cbn; [done|discriminate].
Qed.

(** A loop that ends normally leaves, in each category, what its iterations
    add, in iteration order. *)
Lemma added_for_each {A} (xs : list A) body c :
  (forall x, appends (body x)) ->
  outcome (for_each xs body) = Ok tt ->
  added (for_each xs body) c = flat_map (fun x => added (body x) c) xs.
Proof.
  intros Hb. induction xs as [|x xs IH]; intros Hok; [done|].
  destruct (outcome_for_each_cons x xs body Hb Hok) as [Hx Hxs].
  cbn [for_each flat_map].
  rewrite added_bind by (intros _; by apply appends_for_each).
  by rewrite Hx, IH.
Qed.

Lemma appends_process_game game : appends (_process_game game).
Proof.
  unfold _process_game. cbn zeta.
  apply appends_bind; [|intros _];
    apply appends_for_each; intros player;
    apply appends_check_player_milestones.
Qed.

(** Two steps in sequence that end normally. *)
Lemma seq_ok (m1 m2 : M unit) :
  appends m2 ->
  outcome (m1;; m2) = Ok tt ->
  outcome m1 = Ok tt /\ outcome m2 = Ok tt
  /\ forall c, added (m1;; m2) c = added m1 c ++ added m2 c.
Proof.
  intros H2. rewrite outcome_bind by (intros _; exact H2).
  destruct (outcome m1) as [[]|e] eqn:H1; cbn; [|discriminate].
  intros Ho2. repeat split; [exact Ho2|].
  intros c. rewrite added_bind by (intros _; exact H2). by rewrite H1.
Qed.

Lemma added_process_game game c :
  outcome (_process_game game) = Ok tt ->
  added (_process_game game) c = game_entries c game.
Proof.
  unfold _process_game. cbn zeta. intros Hok.
  apply seq_ok in Hok as (Ha & Hh & ->);
    [|apply appends_for_each; intros ?; apply appends_check_player_milestones].
  unfold game_entries, away_player_entries, home_player_entries, roster,
    away_team_of, home_team_of, game_id_of, date_of, basic_info_of.
  f_equal; apply added_for_each; try assumption;
    intros ?; apply appends_check_player_milestones.
Qed.

Lemma run_process_games games r0 :
  process_games games r0 =
    (fst (for_each games _process_game new_MilestoneResults),
     match outcome (for_each games _process_game) with
     | Ok _ => Ok (fst (for_each games _process_game new_MilestoneResults))
     | Raise e => Raise e
     end).
Proof.
  unfold process_games, outcome. rewrite !run_bind.
  unfold set_results, get_results. rewrite run_bind.
  by destruct (for_each games _process_game new_MilestoneResults) as [r [[]|e]].
Qed.

(* ===================================================================== *)
(** * The helpers on a coerced stat record *)
(* ===================================================================== *)

Lemma count_if_bounds P l : 0 <= count_if P l <= Z.of_nat (length l).
Proof.
  induction l as [|v l IH]; [cbn; lia|].
  cbn [count_if fold_right length]. fold (count_if P l).
  rewrite Nat2Z.inj_succ. destruct (P v); lia.
Qed.

Lemma count_if_filter P l : Z.of_nat (length (List.filter P l)) = count_if P l.
Proof.
  induction l as [|v l IH]; [done|].
  cbn [List.filter count_if fold_right]. fold (count_if P l).
  destruct (P v); cbn [length]; lia.
Qed.

Section CoercedStats.

Variables pts trb ast stl blk fg3 fg3a fg fga ft fta tov plus_minus : Z.
Variable mp : pyval.

Let stats : dict :=
  mk_stats pts trb ast stl blk fg3 fg3a fg fga ft fta tov plus_minus mp.

(** The five base categories, in the fixed order pts, trb, ast, stl, blk. *)
Let five : list Z := [pts; trb; ast; stl; blk].

Lemma stats_pts : get stats "pts" (PyInt 0) = PyInt pts.
Proof. reflexivity. Qed.
Lemma stats_trb : get stats "trb" (PyInt 0) = PyInt trb.
Proof. reflexivity. Qed.
Lemma stats_ast : get stats "ast" (PyInt 0) = PyInt ast.
Proof. reflexivity. Qed.
Lemma stats_stl : get stats "stl" (PyInt 0) = PyInt stl.
Proof. reflexivity. Qed.
Lemma stats_blk : get stats "blk" (PyInt 0) = PyInt blk.
Proof. reflexivity. Qed.
Lemma stats_fg3 : get stats "fg3" (PyInt 0) = PyInt fg3.
Proof. reflexivity. Qed.
Lemma stats_fg3a : get stats "fg3a" (PyInt 0) = PyInt fg3a.
Proof. reflexivity. Qed.
Lemma stats_mp : get stats "mp" (PyInt 0) = mp.
Proof. reflexivity. Qed.

Lemma at_threshold_coerced (threshold : Z) :
  sum_1_for categories (fun cat =>
    v ← safe_int (get stats cat (PyInt 0)) 0; Ok (threshold <=? v))
  = Ok (count_if (Z.leb threshold) five).
Proof.
  unfold categories. cbn [sum_1_for].
  by rewrite stats_pts, stats_trb, stats_ast, stats_stl, stats_blk.
Qed.

Lemma near_coerced (threshold near_threshold : Z) :
  sum_1_for categories (fun cat =>
    v ← safe_int (get stats cat (PyInt 0)) 0;
    Ok ((near_threshold <=? v) && (v <? threshold)))
  = Ok (count_if (fun v => (near_threshold <=? v) && (v <? threshold)) five).
Proof.
  unfold categories. cbn [sum_1_for].
  by rewrite stats_pts, stats_trb, stats_ast, stats_stl, stats_blk.
Qed.

Lemma is_quadruple_double_coerced threshold :
  is_quadruple_double stats threshold
  = Ok (4 <=? count_if (Z.leb threshold) five).
Proof. unfold is_quadruple_double. by rewrite at_threshold_coerced. Qed.

Lemma is_triple_double_coerced threshold :
  is_triple_double stats threshold
  = Ok (3 <=? count_if (Z.leb threshold) five).
Proof. unfold is_triple_double. by rewrite at_threshold_coerced. Qed.

Lemma is_double_double_coerced threshold :
  is_double_double stats threshold
  = Ok (2 <=? count_if (Z.leb threshold) five).
Proof. unfold is_double_double. by rewrite at_threshold_coerced. Qed.

Lemma is_near_triple_double_coerced threshold near_threshold :
  is_near_triple_double stats threshold near_threshold
  = Ok (if 3 <=? count_if (Z.leb threshold) five then false
        else (count_if (Z.leb threshold) five =? 2)
             && (1 <=? count_if (fun v => (near_threshold <=? v)
                                          && (v <? threshold)) five)).
Proof.
  unfold is_near_triple_double.
  rewrite at_threshold_coerced, near_coerced. cbn.
  by destruct (3 <=? _).
Qed.

Lemma is_near_double_double_coerced threshold near_threshold :
  is_near_double_double stats threshold near_threshold
  = Ok (if 2 <=? count_if (Z.leb threshold) five then false
        else (count_if (Z.leb threshold) five =? 1)
             && (1 <=? count_if (fun v => (near_threshold <=? v)
                                          && (v <? threshold)) five)).
Proof.
  unfold is_near_double_double.
  rewrite at_threshold_coerced, near_coerced. cbn.
  by destruct (2 <=? _).
Qed.

Lemma is_five_by_five_coerced threshold :
  is_five_by_five stats threshold = Ok (forallb (Z.leb threshold) five).
Proof.
  unfold is_five_by_five, categories. cbn [all_for].
  rewrite stats_pts, stats_trb, stats_ast, stats_stl, stats_blk. cbn.
  by repeat (destruct (threshold <=? _); cbn; [|done]).
Qed.

Lemma is_all_around_game_coerced :
  is_all_around_game stats
  = Ok (forallb (Z.leb 5) five || (4 <=? count_if (Z.leb 8) five)).
Proof.
  unfold is_all_around_game, categories. cbn [mapM].
  rewrite stats_pts, stats_trb, stats_ast, stats_stl, stats_blk.
  cbn [safe_int mbind result_bind mret result_ret].
  rewrite count_if_filter. fold five.
  change (fun v : Z => 5 <=? v) with (Z.leb 5).
  change (fun v : Z => 8 <=? v) with (Z.leb 8).
  by destruct (forallb (Z.leb 5) five).
Qed.

Lemma get_double_double_categories_coerced threshold :
  get_double_double_categories stats threshold
  = Ok (join "/"
          ((if threshold <=? pts then ["pts"] else [])
           ++ (if threshold <=? trb then ["reb"] else [])
           ++ (if threshold <=? ast then ["ast"] else [])
           ++ (if threshold <=? stl then ["stl"] else [])
           ++ (if threshold <=? blk then ["blk"] else []))).
Proof.
  unfold get_double_double_categories. cbn [filter_for].
  rewrite stats_pts, stats_trb, stats_ast, stats_stl, stats_blk. cbn.
  by repeat (destruct (threshold <=? _)).
Qed.

End CoercedStats.

(* ===================================================================== *)
(** * The derived metrics at known values *)
(* ===================================================================== *)

Example game_score_21_2 :
  calculate_game_score
    {[ "pts" := PyInt 25; "fg" := PyInt 9; "fga" := PyInt 18;
       "ft" := PyInt 4; "fta" := PyInt 5; "orb" := PyInt 2; "drb" := PyInt 6;
       "stl" := PyInt 2; "ast" := PyInt 5; "blk" := PyInt 1; "pf" := PyInt 2;
       "tov" := PyInt 3 ]}
  = Ok (Str.literal "21.2").
Proof. vm_compute. reflexivity. Qed.

Example true_shooting_0_638 :
  calculate_true_shooting 30 20 8 = Ok (Some (Str.literal "0.638"))
  /\ calculate_true_shooting 0 0 0 = Ok None.
Proof. split; vm_compute; reflexivity. Qed.

Example parse_minutes_values :
  parse_minutes (PyStr "32:15") = Ok (Str.literal "32.25")
  /\ parse_minutes (PyStr "32:xx") = Ok (Str.literal "0.0")
  /\ parse_minutes (PyStr "27.5") = Ok (Str.literal "27.5")
  /\ parse_minutes (PyStr "DNP") = Ok (Str.literal "0.0")
  /\ parse_minutes (PyInt 30) = Ok (Str.literal "30.0")
  /\ parse_minutes PyNone = Ok (Str.literal "0.0").
Proof. repeat split; vm_compute; reflexivity. Qed.

Example zero_turnover_values :
  is_zero_turnover_game {[ "tov" := PyInt 0; "mp" := PyInt 30 ]}
    (Str.literal "20.0") = Ok true
  /\ is_zero_turnover_game {[ "tov" := PyInt 0; "mp" := PyStr "32:15" ]}
       (Str.literal "20.0") = Ok true
  /\ is_zero_turnover_game {[ "tov" := PyInt 0; "mp" := PyInt 15 ]}
       (Str.literal "20.0") = Ok false
  /\ is_zero_turnover_game {[ "tov" := PyInt 2; "mp" := PyInt 35 ]}
       (Str.literal "20.0") = Ok false
  /\ is_zero_turnover_game {[ "tov" := PyInt 2; "mp" := PyNone ]}
       (Str.literal "20.0") = Ok false
  /\ is_zero_turnover_game {[ "tov" := PyInt 0; "mp" := PyNone ]}
       (Str.literal "20.0") = Raise TypeError.
Proof. repeat split; vm_compute; reflexivity. Qed.

(* ===================================================================== *)
(** * The checks on a coerced stat record *)
(* ===================================================================== *)

Lemma lift_ok_bind {A B} (a : A) (k : A -> M B) : lift (Ok a) ≫= k = k a.
Proof. reflexivity. Qed.

Lemma added_when_append b c' e c :
  added (when b (append c' e)) c
  = if b && bool_decide (c' = c) then [e] else [].
Proof.
  destruct b; [|done]. cbn [when andb]. rewrite added_append.
  by destruct (decide (c' = c)) as [->|Hne];
    [rewrite bool_decide_eq_true_2|rewrite bool_decide_eq_false_2].
Qed.

Lemma outcome_when_append b c e : outcome (when b (append c e)) = Ok tt.
Proof. by destruct b. Qed.

Ltac unfold_blocks :=
  unfold check_milestones, multi_category_achievements, scoring_milestones,
    rebounding_milestones, assist_milestones, steal_milestones,
    block_milestones, three_pointer_milestones, efficiency_milestones,
    combined_milestones, defensive_milestones, clean_games,
    plus_minus_milestones.

(** Case analysis on every guard of a sequence of [when] steps. *)
Ltac destruct_whens :=
  repeat match goal with
    | |- context [when ?b _] =>
        lazymatch b with
        | true => fail
        | false => fail
        | _ => destruct b
        end
    end.

Section Checks.

Variable stats : dict.
Variable base_entry : string -> fstring -> MilestoneEntry.
Variables pts trb ast stl blk fg3 fg3a fg fga ft fta plus_minus : Z.
Variable mp : pyval.

#[local] Abbreviation rest_after_multi :=
  (after_multi stats base_entry
     pts trb ast stl blk fg3 fg3a fg fga ft fta plus_minus mp).
#[local] Abbreviation rest_after_scoring :=
  (after_scoring stats base_entry
     pts trb ast stl blk fg3 fg3a fg fga ft fta plus_minus mp).

Lemma check_milestones_split :
  check_milestones stats base_entry
    pts trb ast stl blk fg3 fg3a fg fga ft fta plus_minus mp
  = (multi_category_achievements stats base_entry pts trb ast stl blk;;
     rest_after_multi).
Proof. reflexivity. Qed.

Lemma appends_after_scoring : appends rest_after_scoring.
Proof. unfold after_scoring. unfold_blocks. appends_tac. Qed.

Lemma appends_after_multi : appends rest_after_multi.
Proof.
  unfold after_multi.
  apply appends_bind; [|intros _; apply appends_after_scoring].
  unfold_blocks. appends_tac.
Qed.

Lemma skips_after_multi c : c ∈ multi_categories -> skips c rest_after_multi.
Proof.
  intros Hc. unfold after_multi, after_scoring. unfold_blocks.
  repeat (apply elem_of_cons in Hc as [->|Hc]; [skips_tac|]).
  by apply elem_of_nil in Hc.
Qed.

Lemma skips_after_scoring c :
  c ∈ scoring_categories -> skips c rest_after_scoring.
Proof.
  intros Hc. unfold after_scoring. unfold_blocks.
  repeat (apply elem_of_cons in Hc as [->|Hc]; [skips_tac|]).
  by apply elem_of_nil in Hc.
Qed.

Lemma skips_multi c :
  c ∈ scoring_categories ->
  skips c (multi_category_achievements stats base_entry pts trb ast stl blk).
Proof.
  intros Hc. unfold_blocks.
  repeat (apply elem_of_cons in Hc as [->|Hc]; [skips_tac|]).
  by apply elem_of_nil in Hc.
Qed.

(** In its own categories the first block decides alone. *)
Lemma added_check_milestones_multi c :
  c ∈ multi_categories ->
  added (check_milestones stats base_entry
           pts trb ast stl blk fg3 fg3a fg fga ft fta plus_minus mp) c
  = added (multi_category_achievements stats base_entry pts trb ast stl blk) c.
Proof.
  intros Hc. rewrite check_milestones_split.
  rewrite added_bind by (intros _; apply appends_after_multi).
  rewrite (added_skips c rest_after_multi) by (by apply skips_after_multi).
  destruct (outcome _); apply app_nil_r.
Qed.

(** So does the scoring ladder, once the first block has ended normally. *)
Lemma added_check_milestones_scoring c :
  c ∈ scoring_categories ->
  outcome (multi_category_achievements stats base_entry pts trb ast stl blk)
    = Ok tt ->
  added (check_milestones stats base_entry
           pts trb ast stl blk fg3 fg3a fg fga ft fta plus_minus mp) c
  = added (scoring_milestones base_entry pts) c.
Proof.
  intros Hc Hok. rewrite check_milestones_split.
  rewrite added_bind by (intros _; apply appends_after_multi).
  rewrite Hok, added_skips by (by apply skips_multi).
  unfold after_multi.
  rewrite added_bind by (intros _; apply appends_after_scoring).
  rewrite (added_skips c rest_after_scoring) by (by apply skips_after_scoring).
  destruct (outcome (scoring_milestones _ _)); apply app_nil_r.
Qed.

End Checks.

Section CoercedChecks.

Variables pts trb ast stl blk fg3 fg3a fg fga ft fta tov plus_minus : Z.
Variable mp : pyval.
Variable base_entry : string -> fstring -> MilestoneEntry.

Let stats : dict :=
  mk_stats pts trb ast stl blk fg3 fg3a fg fga ft fta tov plus_minus mp.
Let five : list Z := [pts; trb; ast; stl; blk].
Let multi : M unit :=
  multi_category_achievements stats base_entry pts trb ast stl blk.
Let double_digits : string := double_digit_categories pts trb ast stl blk.

(** On coerced stats no helper of the first block raises: the block is a
    sequence of guarded appends. *)
Lemma multi_coerced :
  multi =
    (when (4 <=? count_if (Z.leb 10) five)
       (append quadruple_doubles (base_entry "quadruple_double"
          [FText "Quadruple-double ("; FText double_digits;
           FText ")"]));;
     when (3 <=? count_if (Z.leb 10) five)
       (append triple_doubles (base_entry "triple_double"
          [FText "Triple-double ("; FText double_digits;
           FText ")"]));;
     when (2 <=? count_if (Z.leb 10) five)
       (append double_doubles (base_entry "double_double"
          [FText "Double-double ("; FText double_digits;
           FText ")"]));;
     when (if 3 <=? count_if (Z.leb 10) five then false
           else (count_if (Z.leb 10) five =? 2)
                && (1 <=? count_if (fun v => (8 <=? v) && (v <? 10)) five))
       (append near_triple_doubles (base_entry "near_triple_double"
          [FText "Near triple-double ("; FInt pts; FText "/"; FInt trb;
           FText "/"; FInt ast; FText ")"]));;
     when (if 2 <=? count_if (Z.leb 10) five then false
           else (count_if (Z.leb 10) five =? 1)
                && (1 <=? count_if (fun v => (8 <=? v) && (v <? 10)) five))
       (append near_double_doubles (base_entry "near_double_double"
          [FText "Near double-double"]));;
     when (forallb (Z.leb 5) five)
       (append five_by_fives (base_entry "five_by_five"
          [FText "5x5 ("; FInt pts; FText "/"; FInt trb; FText "/";
           FInt ast; FText "/"; FInt stl; FText "/"; FInt blk; FText ")"]));;
     when (forallb (Z.leb 5) five || (4 <=? count_if (Z.leb 8) five))
       (append all_around_games (base_entry "all_around_game"
          [FText "All-around ("; FInt pts; FText "/"; FInt trb; FText "/";
           FInt ast; FText "/"; FInt stl; FText "/"; FInt blk; FText ")"]))).
Proof.
  subst multi stats five double_digits. unfold multi_category_achievements.
  rewrite is_quadruple_double_coerced, is_triple_double_coerced,
    is_double_double_coerced, is_near_triple_double_coerced,
    is_near_double_double_coerced, is_five_by_five_coerced,
    is_all_around_game_coerced, get_double_double_categories_coerced.
  fold (double_digit_categories pts trb ast stl blk).
  by rewrite !lift_ok_bind.
Qed.

Lemma outcome_multi_coerced : outcome multi = Ok tt.
Proof. rewrite multi_coerced. by destruct_whens. Qed.

Lemma added_multi_quadruple_doubles :
  added multi quadruple_doubles =
    if 4 <=? count_if (Z.leb 10) five
    then [base_entry "quadruple_double"
            [FText "Quadruple-double ("; FText double_digits;
             FText ")"]]
    else [].
Proof. rewrite multi_coerced. by destruct_whens. Qed.

Lemma added_multi_triple_doubles :
  added multi triple_doubles =
    if 3 <=? count_if (Z.leb 10) five
    then [base_entry "triple_double"
            [FText "Triple-double ("; FText double_digits;
             FText ")"]]
    else [].
Proof. rewrite multi_coerced. by destruct_whens. Qed.

Lemma added_multi_double_doubles :
  added multi double_doubles =
    if 2 <=? count_if (Z.leb 10) five
    then [base_entry "double_double"
            [FText "Double-double ("; FText double_digits;
             FText ")"]]
    else [].
Proof. rewrite multi_coerced. by destruct_whens. Qed.

Lemma added_multi_near_triple_doubles :
  added multi near_triple_doubles =
    if (if 3 <=? count_if (Z.leb 10) five then false
        else (count_if (Z.leb 10) five =? 2)
             && (1 <=? count_if (fun v => (8 <=? v) && (v <? 10)) five))
    then [base_entry "near_triple_double"
            [FText "Near triple-double ("; FInt pts; FText "/"; FInt trb;
             FText "/"; FInt ast; FText ")"]]
    else [].
Proof. rewrite multi_coerced. by destruct_whens. Qed.

Lemma added_multi_five_by_fives :
  added multi five_by_fives =
    if forallb (Z.leb 5) five
    then [base_entry "five_by_five"
            [FText "5x5 ("; FInt pts; FText "/"; FInt trb; FText "/";
             FInt ast; FText "/"; FInt stl; FText "/"; FInt blk; FText ")"]]
    else [].
Proof. rewrite multi_coerced. by destruct_whens. Qed.

Lemma added_multi_all_around_games :
  added multi all_around_games =
    if forallb (Z.leb 5) five || (4 <=? count_if (Z.leb 8) five)
    then [base_entry "all_around_game"
            [FText "All-around ("; FInt pts; FText "/"; FInt trb; FText "/";
             FInt ast; FText "/"; FInt stl; FText "/"; FInt blk; FText ")"]]
    else [].
Proof. rewrite multi_coerced. by destruct_whens. Qed.

End CoercedChecks.
Lemma added_scoring_milestones base_entry pts c :
  c ∈ scoring_categories ->
  added (scoring_milestones base_entry pts) c =
    match highest_met scoring_ladder pts with
    | Some (_, c', milestone_type) =>
        if bool_decide (c' = c)
        then [base_entry milestone_type [FInt pts; FText " points"]]
        else []
    | None => []
    end.
Proof.
  intros Hc. unfold scoring_milestones, highest_met, scoring_ladder.
  cbn [List.find].
  repeat (match goal with
          | |- context [?t <=? pts] => destruct (t <=? pts); cbv iota
          end).
  all: repeat (apply elem_of_cons in Hc as [->|Hc]; [reflexivity|]).
  all: by apply elem_of_nil in Hc.
Qed.

(* ===================================================================== *)
(** * One player-game *)
(* ===================================================================== *)

Section PlayerGame.

Variable player : Player.
Variables team opponent game_id date side : string.
Variables pts trb ast stl blk fg3 fg3a fg fga ft fta tov plus_minus : Z.
Variable mp : pyval.

Let stats : dict :=
  mk_stats pts trb ast stl blk fg3 fg3a fg fga ft fta tov plus_minus mp.
Let base_entry : string -> fstring -> MilestoneEntry :=
  base_entry_of player team opponent game_id date side stats.

Hypothesis Hcoerced :
  coerced player pts trb ast stl blk fg3 fg3a fg fga ft fta tov plus_minus mp.

Lemma check_player_coerced :
  _check_player_milestones player team opponent game_id date side
  = check_milestones stats base_entry
      pts trb ast stl blk fg3 fg3a fg fga ft fta plus_minus mp.
Proof.
  destruct Hcoerced as
    (H1 & H2 & H3 & H4 & H5 & H6 & H7 & H8 & H9 & H10 & H11 & H12 & H13 & H14).
  unfold _check_player_milestones. cbn zeta.
  by rewrite H1, H2, H3, H4, H5, H6, H7, H8, H9, H10, H11, H12, H13, H14.
Qed.

(** What the player-game leaves in a category of the first block, and in
    a scoring category. *)
Lemma check_player_multi r c :
  c ∈ multi_categories ->
  fst (_check_player_milestones player team opponent game_id date side r) c
  = r c ++ added (multi_category_achievements stats base_entry
                    pts trb ast stl blk) c.
Proof.
  intros Hc.
  destruct (appends_check_player_milestones player team opponent game_id
              date side r) as [_ ->].
  by rewrite check_player_coerced, added_check_milestones_multi.
Qed.

Lemma check_player_scoring r c :
  c ∈ scoring_categories ->
  fst (_check_player_milestones player team opponent game_id date side r) c
  = r c ++ added (scoring_milestones base_entry pts) c.
Proof.
  intros Hc.
  destruct (appends_check_player_milestones player team opponent game_id
              date side r) as [_ ->].
  rewrite check_player_coerced, added_check_milestones_scoring; [done..|].
  apply outcome_multi_coerced.
Qed.

End PlayerGame.

(* ===================================================================== *)
(** * Multi-category achievements and the scoring ladder *)
(* ===================================================================== *)

Ltac solve_elem := repeat constructor.

(** C1: a player-game whose coerced stats have at least 4 of pts, trb, ast,
    stl and blk at 10 or more gets exactly one new entry in each of
    [quadruple_doubles], [triple_doubles] and [double_doubles]. *)
Theorem C1_quadruple_double_recorded_in_three_lists
    (player : Player) (team opponent game_id date side : string)
    (r : MilestoneResults)
    (pts trb ast stl blk fg3 fg3a fg fga ft fta tov plus_minus : Z)
    (mp : pyval) :
  coerced player pts trb ast stl blk fg3 fg3a fg fga ft fta tov plus_minus mp ->
  4 <= count_if (Z.leb 10) [pts; trb; ast; stl; blk] ->
  let stats :=
    mk_stats pts trb ast stl blk fg3 fg3a fg fga ft fta tov plus_minus mp in
  let base_entry :=
    base_entry_of player team opponent game_id date side stats in
  let r' :=
    fst (_check_player_milestones player team opponent game_id date side r) in
  exists categories,
    get_double_double_categories stats 10 = Ok categories
    /\ r' quadruple_doubles
       = r quadruple_doubles
         ++ [base_entry "quadruple_double"
               [FText "Quadruple-double ("; FText categories; FText ")"]]
    /\ r' triple_doubles
       = r triple_doubles
         ++ [base_entry "triple_double"
               [FText "Triple-double ("; FText categories; FText ")"]]
    /\ r' double_doubles
       = r double_doubles
         ++ [base_entry "double_double"
               [FText "Double-double ("; FText categories; FText ")"]].
Proof.
  intros Hco Hn. cbn zeta.
  exists (double_digit_categories pts trb ast stl blk).
  split; [apply get_double_double_categories_coerced|].
  rewrite !(check_player_multi _ _ _ _ _ _ _ _ _ _ _ _ _ _ _ _ _ _ _ _ Hco)
    by solve_elem.
  rewrite added_multi_quadruple_doubles, added_multi_triple_doubles,
    added_multi_double_doubles.
  destruct (Z.leb_spec 4 (count_if (Z.leb 10) [pts; trb; ast; stl; blk]));
    [|lia].
  destruct (Z.leb_spec 3 (count_if (Z.leb 10) [pts; trb; ast; stl; blk]));
    [|lia].
  destruct (Z.leb_spec 2 (count_if (Z.leb 10) [pts; trb; ast; stl; blk]));
    [|lia].
  done.
Qed.

(** C2: in the scoring family only the highest threshold met by [pts] gets
    an entry, exactly one; every other scoring list is left as it was.  In
    particular 45 <= pts < 50 gives one entry in [forty_five_point_games]
    and none in the other eight lists. *)
Theorem C2_scoring_ladder_exclusive
    (player : Player) (team opponent game_id date side : string)
    (r : MilestoneResults)
    (pts trb ast stl blk fg3 fg3a fg fga ft fta tov plus_minus : Z)
    (mp : pyval) :
  coerced player pts trb ast stl blk fg3 fg3a fg fga ft fta tov plus_minus mp ->
  let stats :=
    mk_stats pts trb ast stl blk fg3 fg3a fg fga ft fta tov plus_minus mp in
  let base_entry :=
    base_entry_of player team opponent game_id date side stats in
  let r' :=
    fst (_check_player_milestones player team opponent game_id date side r) in
  (forall t c milestone_type,
     highest_met scoring_ladder pts = Some (t, c, milestone_type) ->
     (t <= pts
      /\ forall t' c' m',
           (t', c', m') ∈ scoring_ladder -> t' <= pts -> t' <= t)
     /\ r' c = r c ++ [base_entry milestone_type [FInt pts; FText " points"]]
     /\ forall c', c' ∈ scoring_categories -> c' <> c -> r' c' = r c')
  /\ (highest_met scoring_ladder pts = None ->
      pts < 20 /\ forall c', c' ∈ scoring_categories -> r' c' = r c')
  /\ (45 <= pts < 50 ->
      r' forty_five_point_games
      = r forty_five_point_games
        ++ [base_entry "forty_five_point_game" [FInt pts; FText " points"]]
      /\ r' forty_point_games = r forty_point_games
      /\ r' thirty_five_point_games = r thirty_five_point_games
      /\ r' thirty_point_games = r thirty_point_games
      /\ r' twenty_five_point_games = r twenty_five_point_games
      /\ r' twenty_point_games = r twenty_point_games
      /\ r' fifty_point_games = r fifty_point_games
      /\ r' sixty_point_games = r sixty_point_games
      /\ r' seventy_point_games = r seventy_point_games).
Proof.
  intros Hco. cbn zeta.
  assert (Hrun : forall c, c ∈ scoring_categories ->
            fst (_check_player_milestones player team opponent game_id date
                   side r) c
            = r c ++ match highest_met scoring_ladder pts with
                     | Some (_, c', milestone_type) =>
                         if bool_decide (c' = c)
                         then [base_entry_of player team opponent game_id date
                                 side
                                 (mk_stats pts trb ast stl blk fg3 fg3a fg fga
                                    ft fta tov plus_minus mp)
                                 milestone_type [FInt pts; FText " points"]]
                         else []
                     | None => []
                     end).
  { intros c Hc.
    rewrite (check_player_scoring _ _ _ _ _ _ _ _ _ _ _ _ _ _ _ _ _ _ _ _ Hco)
      by done.
    by rewrite added_scoring_milestones. }
  split; [|split].
  - intros t c milestone_type Hmet.
    assert (Hin : (t, c, milestone_type) ∈ scoring_ladder /\ t <= pts).
    { unfold highest_met in Hmet. apply find_some in Hmet as [Hin Ht].
      split; [by apply list_elem_of_In | lia]. }
    destruct Hin as [Hin Ht].
    assert (Hc : c ∈ scoring_categories).
    { unfold scoring_ladder in Hin.
      repeat (apply elem_of_cons in Hin as [[= _ -> _]|Hin]; [solve_elem|]).
      by apply elem_of_nil in Hin. }
    split; [split; [done|]|split].
    + intros t' c' m' Hin' Ht'. revert Hmet.
      unfold highest_met, scoring_ladder in *. cbn [List.find].
      repeat (apply elem_of_cons in Hin' as [[= -> _ _]|Hin'];
              [repeat (match goal with
                       | |- context [?u <=? pts] =>
                           destruct (Z.leb_spec u pts); cbv iota
                       end);
               intros [= <- _ _]; lia|]).
      by apply elem_of_nil in Hin'.
    + rewrite Hrun, Hmet by done. by rewrite bool_decide_eq_true_2.
    + intros c' Hc' Hne. rewrite Hrun, Hmet by done.
      rewrite bool_decide_eq_false_2 by done. apply app_nil_r.
  - intros Hnone. split.
    + revert Hnone. unfold highest_met, scoring_ladder. cbn [List.find].
      repeat (match goal with
              | |- context [?u <=? pts] =>
                  destruct (Z.leb_spec u pts); cbv iota; [discriminate|]
              end).
      lia.
    + intros c' Hc'. rewrite Hrun, Hnone by done. apply app_nil_r.
  - intros Hpts.
    assert (Hmet :
    highest_met scoring_ladder pts
    = Some (45, forty_five_point_games, "forty_five_point_game")).
    { unfold highest_met, scoring_ladder. cbn [List.find].
      destruct (Z.leb_spec 70 pts); [lia|].
      destruct (Z.leb_spec 60 pts); [lia|].
      destruct (Z.leb_spec 50 pts); [lia|].
      destruct (Z.leb_spec 45 pts); [done|lia]. }
    rewrite !Hrun, Hmet by solve_elem.
    rewrite bool_decide_eq_true_2 by done.
    rewrite !bool_decide_eq_false_2 by discriminate.
    by rewrite !app_nil_r.
Qed.

Lemma forallb_leb t l :
  forallb (Z.leb t) l = bool_decide (Forall (fun v => t <= v) l).
Proof.
  induction l as [|a l IH]; [done|]. cbn [forallb]. rewrite IH.
  destruct (Z.leb_spec t a) as [Hle|Hlt]; cbn [andb].
  - apply bool_decide_ext. rewrite Forall_cons. tauto.
  - symmetry. apply bool_decide_eq_false_2. rewrite Forall_cons. lia.
Qed.

(** C4: on a coerced stat record [is_near_triple_double] is true exactly when
    2 of the five categories are at 10 or more and at least one is 8 or 9;
    with 3 or more at 10 it is false.  The engine appends to
    [near_triple_doubles] under the same condition. *)
Theorem C4_near_triple_double_guard
    (player : Player) (team opponent game_id date side : string)
    (r : MilestoneResults)
    (pts trb ast stl blk fg3 fg3a fg fga ft fta tov plus_minus : Z)
    (mp : pyval) :
  let stats :=
    mk_stats pts trb ast stl blk fg3 fg3a fg fga ft fta tov plus_minus mp in
  let base_entry :=
    base_entry_of player team opponent game_id date side stats in
  let five := [pts; trb; ast; stl; blk] in
  let at_threshold := count_if (Z.leb 10) five in
  let near := count_if (fun v => (8 <=? v) && (v <? 10)) five in
  is_near_triple_double stats 10 8
    = Ok (bool_decide (at_threshold = 2 /\ 1 <= near))
  /\ (3 <= at_threshold -> is_near_triple_double stats 10 8 = Ok false)
  /\ (coerced player
        pts trb ast stl blk fg3 fg3a fg fga ft fta tov plus_minus mp ->
      fst (_check_player_milestones player team opponent game_id date side r)
        near_triple_doubles
      = r near_triple_doubles
        ++ (if bool_decide (at_threshold = 2 /\ 1 <= near)
            then [base_entry "near_triple_double"
                    [FText "Near triple-double ("; FInt pts; FText "/";
                     FInt trb; FText "/"; FInt ast; FText ")"]]
            else [])).
Proof.
  cbn zeta.
  set (n := count_if (Z.leb 10) [pts; trb; ast; stl; blk]).
  set (m := count_if (fun v => (8 <=? v) && (v <? 10))
              [pts; trb; ast; stl; blk]).
  assert (Hb : (if 3 <=? n then false else (n =? 2) && (1 <=? m))
               = bool_decide (n = 2 /\ 1 <= m)).
  { clearbody n m.
    destruct (Z.leb_spec 3 n), (Z.eqb_spec n 2), (Z.leb_spec 1 m);
      cbn; case_bool_decide; try done; exfalso; lia. }
  split; [|split].
  - rewrite is_near_triple_double_coerced. fold n m. by rewrite Hb.
  - intros Hn. rewrite is_near_triple_double_coerced. fold n m.
    by destruct (Z.leb_spec 3 n); [|lia].
  - intros Hco.
    rewrite (check_player_multi _ _ _ _ _ _ _ _ _ _ _ _ _ _ _ _ _ _ _ _ Hco)
      by solve_elem.
    rewrite added_multi_near_triple_doubles. fold n m. by rewrite Hb.
Qed.

(** C10: on a coerced stat record [is_all_around_game] is true exactly when
    all five categories are at 5 or more, or at least 4 are at 8 or more;
    a player-game that is a 5x5 gets an entry in [five_by_fives] and one in
    [all_around_games]. *)
Theorem C10_all_around_rule
    (player : Player) (team opponent game_id date side : string)
    (r : MilestoneResults)
    (pts trb ast stl blk fg3 fg3a fg fga ft fta tov plus_minus : Z)
    (mp : pyval) :
  let stats :=
    mk_stats pts trb ast stl blk fg3 fg3a fg fga ft fta tov plus_minus mp in
  let base_entry :=
    base_entry_of player team opponent game_id date side stats in
  let five := [pts; trb; ast; stl; blk] in
  let r' :=
    fst (_check_player_milestones player team opponent game_id date side r) in
  is_all_around_game stats
    = Ok (bool_decide (Forall (fun v => 5 <= v) five
                       \/ 4 <= count_if (Z.leb 8) five))
  /\ is_five_by_five stats 5 = Ok (bool_decide (Forall (fun v => 5 <= v) five))
  /\ (coerced player
        pts trb ast stl blk fg3 fg3a fg fga ft fta tov plus_minus mp ->
      is_five_by_five stats 5 = Ok true ->
      r' five_by_fives
      = r five_by_fives
        ++ [base_entry "five_by_five"
              [FText "5x5 ("; FInt pts; FText "/"; FInt trb; FText "/";
               FInt ast; FText "/"; FInt stl; FText "/"; FInt blk; FText ")"]]
      /\ r' all_around_games
         = r all_around_games
           ++ [base_entry "all_around_game"
                 [FText "All-around ("; FInt pts; FText "/"; FInt trb;
                  FText "/"; FInt ast; FText "/"; FInt stl; FText "/";
                  FInt blk; FText ")"]]).
Proof.
  cbn zeta. rewrite is_all_around_game_coerced, is_five_by_five_coerced.
  rewrite !forallb_leb.
  split; [|split].
  - f_equal. set (n := count_if _ _). clearbody n.
    destruct (decide (Forall (fun v => 5 <= v) [pts; trb; ast; stl; blk]))
      as [HF|HF].
    + rewrite (bool_decide_eq_true_2 _ HF). symmetry.
      apply bool_decide_eq_true_2. by left.
    + rewrite (bool_decide_eq_false_2 _ HF). cbn [orb]. symmetry.
      destruct (Z.leb_spec 4 n).
      * apply bool_decide_eq_true_2. by right.
      * apply bool_decide_eq_false_2. intros [?|?]; [done|lia].
  - done.
  - intros Hco [= H5].
    rewrite !(check_player_multi _ _ _ _ _ _ _ _ _ _ _ _ _ _ _ _ _ _ _ _ Hco)
      by solve_elem.
    rewrite added_multi_five_by_fives, added_multi_all_around_games.
    by rewrite !forallb_leb, H5.
Qed.

Lemma to_Z_finite s m e :
  Float64.to_Z (S754_finite s m e)
  = Ok (if 0 <=? e then cond_Zopp s (Zpos m) * 2 ^ e
        else Z.quot (cond_Zopp s (Zpos m)) (2 ^ (- e))).
Proof.
  unfold Float64.to_Z. f_equal. destruct (Z.leb_spec 0 e).
  - destruct s; cbn [cond_Zopp]; lia.
  - assert (0 < 2 ^ (- e)) by (apply Z.pow_pos_nonneg; lia).
    destruct s; cbn [cond_Zopp].
    + rewrite Z.quot_opp_l by lia. by rewrite Z.quot_div_nonneg by lia.
    + by rewrite Z.quot_div_nonneg by lia.
Qed.

(** What [safe_int] does where it returns: ints pass through, [None] and
    other types give the default, a finite float is truncated toward zero,
    a string is read as a float first, and a string that is no number gives
    the default. *)
Lemma safe_int_returns :
  (forall z d, safe_int (PyInt z) d = Ok z)
  /\ (forall d, safe_int PyNone d = Ok d)
  /\ (forall d, safe_int PyOther d = Ok d)
  /\ (forall s m e d,
        safe_int (PyFloat (S754_finite s m e)) d
        = Ok (if 0 <=? e then cond_Zopp s (Zpos m) * 2 ^ e
              else Z.quot (cond_Zopp s (Zpos m)) (2 ^ (- e))))
  /\ (forall s d, safe_int (PyFloat (S754_zero s)) d = Ok 0)
  /\ (forall s f z d,
        Str.to_float (Str.strip s) = Ok f -> Float64.to_Z f = Ok z ->
        safe_int (PyStr s) d = Ok z)
  /\ (forall s d,
        Str.to_float (Str.strip s) = Raise ValueError ->
        safe_int (PyStr s) d = Ok d)
  /\ safe_int (PyStr "12.0") 0 = Ok 12
  /\ safe_int (PyStr "42") 0 = Ok 42
  /\ safe_int (PyStr "not a number") 0 = Ok 0
  /\ safe_int (PyFloat (Float64.of_decimal false 427 (-1))) 0 = Ok 42
  /\ safe_int (PyFloat (Float64.of_decimal true 427 (-1))) 0 = Ok (-42).
Proof.
  repeat split; try done.
  - intros s m e d. apply to_Z_finite.
  - intros s f z d Hf Hz. unfold safe_int. rewrite Hf.
    cbn [mbind result_bind]. by rewrite Hz.
  - intros s d Hf. unfold safe_int. by rewrite Hf.
Qed.

(** C6: [safe_int] raises on an infinite float, on a NaN float and on a
    string that reads as an infinite float. *)
Theorem C6_safe_int_raises :
  safe_int (PyFloat (S754_infinity false)) 0 = Raise OverflowError
  /\ safe_int (PyFloat S754_nan) 0 = Raise ValueError
  /\ safe_int (PyStr "inf") 0 = Raise OverflowError
  /\ safe_int (PyStr "1e999") 0 = Raise OverflowError
  /\ safe_int (PyStr "nan") 0 = Ok 0.
Proof. repeat split; vm_compute; reflexivity. Qed.

(** C3: classifying a player whose [mp] is [None] raises [TypeError]; so
    does, with [OverflowError], a player whose [pts] is the string "inf". *)
Theorem C3_classification_raises
    (team opponent game_id date side : string) (r : MilestoneResults) :
  snd (_check_player_milestones
         {[ "name" := PyStr "Reserve"; "mp" := PyNone ]}
         team opponent game_id date side r)
  = Raise TypeError
  /\ snd (_check_player_milestones
            {[ "name" := PyStr "Reserve"; "pts" := PyStr "inf";
               "mp" := PyStr "12:00" ]}
            team opponent game_id date side r)
     = Raise OverflowError.
Proof.
  split.
  - destruct (appends_check_player_milestones
                {[ "name" := PyStr "Reserve"; "mp" := PyNone ]}
                team opponent game_id date side r) as [-> _].
    vm_compute. reflexivity.
  - destruct (appends_check_player_milestones
                {[ "name" := PyStr "Reserve"; "pts" := PyStr "inf";
                   "mp" := PyStr "12:00" ]}
                team opponent game_id date side r) as [-> _].
    vm_compute. reflexivity.
Qed.

(* ===================================================================== *)
(** * Processing order, rosters, serialization, entry dates *)
(* ===================================================================== *)

(** Whatever its outcome, a loop leaves in each category a prefix of what
    its iterations add, in iteration order. *)
Lemma added_for_each_prefix {A} (xs : list A) body c :
  (forall x, appends (body x)) ->
  added (for_each xs body) c
  `prefix_of` flat_map (fun x => added (body x) c) xs.
Proof.
  intros Hb. induction xs as [|x xs IH]; [done|].
  cbn [for_each flat_map].
  rewrite added_bind by (intros _; by apply appends_for_each).
  apply prefix_app. destruct (outcome (body x)); [done|apply prefix_nil].
Qed.

Lemma added_process_game_prefix game c :
  added (_process_game game) c `prefix_of` game_entries c game.
Proof.
  unfold _process_game. cbn zeta.
  rewrite added_bind
    by (intros _; apply appends_for_each; intros ?;
        apply appends_check_player_milestones).
  unfold game_entries, away_player_entries, home_player_entries, roster,
    away_team_of, home_team_of, game_id_of, date_of, basic_info_of.
  destruct (outcome _) as [[]|e] eqn:Hok.
  - rewrite (added_for_each _ _ c) at 1;
      [|intros ?; apply appends_check_player_milestones|done].
    apply prefix_app, added_for_each_prefix.
    intros ?; apply appends_check_player_milestones.
  - rewrite app_nil_r. etrans; [|by apply prefix_app_r].
    apply added_for_each_prefix.
    intros ?; apply appends_check_player_milestones.
Qed.

Lemma added_games_prefix games c :
  added (for_each games _process_game) c
  `prefix_of` flat_map (game_entries c) games.
Proof.
  induction games as [|g gs IH]; [done|].
  cbn [for_each flat_map].
  rewrite added_bind
    by (intros _; apply appends_for_each; intros ?; apply appends_process_game).
  destruct (outcome (_process_game g)) as [[]|e] eqn:Hok.
  - rewrite added_process_game by done. by apply prefix_app.
  - rewrite app_nil_r. etrans; [apply added_process_game_prefix|].
    by apply prefix_app_r.
Qed.

(** C5: games are visited in the given order, in each game the away roster
    before the home roster, each roster in list order: every category list
    of the results is made of the players' entries in that order.  (If a
    player raises, the lists stop there: they are a prefix.) *)
Theorem C5_processing_order (games : list Game) (r0 : MilestoneResults) :
  let r := fst (process_games games r0) in
  (forall c, r c `prefix_of` flat_map (game_entries c) games)
  /\ (is_ok (snd (process_games games r0)) = true ->
      snd (process_games games r0) = Ok r
      /\ forall c, r c = flat_map (game_entries c) games).
Proof.
  rewrite run_process_games. cbn [fst snd]. split.
  - intros c. apply added_games_prefix.
  - destruct (outcome (for_each games _process_game)) as [[]|e] eqn:Hok;
      [|discriminate].
    intros _. split; [done|]. intros c.
    change (added (for_each games _process_game) c
            = flat_map (game_entries c) games).
    rewrite added_for_each by (done || apply appends_process_game).
    clear r0. induction games as [|g gs IH]; [done|].
    apply outcome_for_each_cons in Hok as [Hg Hgs];
      [|apply appends_process_game].
    cbn [flat_map]. by rewrite added_process_game, IH.
Qed.

(** C7: a side's roster is its [players] list when that is present and not
    empty, otherwise its [basic] list; when both keys are missing, or the
    side's section is missing, the roster is empty and the loop over it
    leaves the results as they are and ends normally. *)
Theorem C7_roster_resolution
    (box_score : gmap string (gmap string (list Player))) (side : string) :
  let side_data := get box_score side ∅ in
  (forall players, side_data !! "players" = Some players -> players <> [] ->
     get_players_for_side box_score side = players)
  /\ (side_data !! "players" = None \/ side_data !! "players" = Some [] ->
      get_players_for_side box_score side = get side_data "basic" [])
  /\ (side_data !! "players" = None -> side_data !! "basic" = None ->
      get_players_for_side box_score side = []
      /\ forall body r,
           for_each (get_players_for_side box_score side) body r = (r, Ok tt))
  /\ (box_score !! side = None ->
      get_players_for_side box_score side = []
      /\ forall body r,
           for_each (get_players_for_side box_score side) body r = (r, Ok tt)).
Proof.
  cbn zeta. unfold get_players_for_side, get.
  repeat split.
  - intros players -> Hne. cbn. by destruct players.
  - by intros [-> | ->].
  - by rewrite H, H0.
  - by rewrite H, H0.
  - by rewrite H.
  - by rewrite H.
Qed.
(** C8: [to_dict] on fresh results maps each of the 56 category names, and
    nothing else, to an empty list. *)
Theorem C8_to_dict_fresh :
  (forall c, to_dict new_MilestoneResults !! field_name c = Some [])
  /\ dom (to_dict new_MilestoneResults) = list_to_set (field_name <$> fields)
  /\ (forall c, c ∈ fields)
  /\ NoDup (field_name <$> fields)
  /\ length fields = 56%nat.
Proof.
  assert (Hall : forall c, c ∈ fields).
  { intros c. apply list_elem_of_In. destruct c; cbv; tauto. }
  split; [|split; [|split; [|split]]].
  - intros c.
    assert (H : forallb
                  (fun c =>
                     match to_dict new_MilestoneResults !! field_name c with
                     | Some [] => true
                     | _ => false
                     end) fields = true)
      by (vm_compute; reflexivity).
    rewrite forallb_forall in H.
    specialize (H c (proj1 (list_elem_of_In _ _) (Hall c))).
    by destruct (to_dict new_MilestoneResults !! field_name c) as [[|]|].
  - apply (bool_decide_unpack _). vm_compute. exact I.
  - exact Hall.
  - apply (bool_decide_unpack _). vm_compute. exact I.
  - reflexivity.
Qed.
Lemma post_init_derives (self : MilestoneEntry) :
  date_yyyymmdd self = "" ->
  (8 <= String.length (game_id self))%nat ->
  __post_init__ self =
    {| milestone_type := milestone_type self; player := player self;
       player_id := player_id self; team := team self;
       opponent := opponent self; game_id := game_id self;
       date := date self; side := side self; stats := stats self;
       detail := detail self;
       date_yyyymmdd := substring 0 8 (game_id self) |}.
Proof.
  intros Hd Hlen. unfold __post_init__. rewrite Hd.
  assert (Ht : str_truthy (game_id self) = true)
    by (destruct (game_id self); [cbn in Hlen; lia | done]).
  rewrite Ht. apply Nat.leb_le in Hlen. by rewrite Hlen.
Qed.

Lemma post_init_keeps (self : MilestoneEntry) :
  date_yyyymmdd self <> "" -> __post_init__ self = self.
Proof.
  intros Hd. unfold __post_init__, str_truthy.
  destruct (String.eqb_spec (date_yyyymmdd self) ""); [done|reflexivity].
Qed.

(** C9: an entry built without [date_yyyymmdd] from a [game_id] of 8 or
    more characters has the first 8 of them as [date_yyyymmdd]; running
    [__post_init__] again changes nothing, and [to_dict] copies the field. *)
Theorem C9_date_from_game_id
    (milestone_type : string) (player player_id : pyval)
    (team opponent game_id date side : string) (stats : dict)
    (detail : fstring) :
  (8 <= String.length game_id)%nat ->
  let e := new_MilestoneEntry milestone_type player player_id team opponent
             game_id date side stats detail "" in
  date_yyyymmdd e = substring 0 8 game_id
  /\ __post_init__ e = e
  /\ d_date_yyyymmdd (entry_dict e) = substring 0 8 game_id.
Proof.
  intros Hlen. cbn zeta. unfold new_MilestoneEntry.
  rewrite post_init_derives by done.
  cbn [date_yyyymmdd MilestoneEngine.game_id entry_dict d_date_yyyymmdd].
  split; [done|]. split; [|done].
  apply post_init_keeps. cbn [date_yyyymmdd].
  destruct game_id; [cbn in Hlen; lia | done].
Qed.

(* ===================================================================== *)
(** * The theorems at the sample records *)
(* ===================================================================== *)

Lemma C1_witness :
  coerced sample_center 20 15 12 10 5 0 0 0 0 0 0 2 0 (PyInt 38)
  /\ 4 <= count_if (Z.leb 10) [20; 15; 12; 10; 5]
  /\ exists categories,
       get_double_double_categories
         (mk_stats 20 15 12 10 5 0 0 0 0 0 0 2 0 (PyInt 38)) 10 = Ok categories
       /\ length (fst (_check_player_milestones sample_center "BOS" "LAL"
                         "202401150LAL" "2024-01-15" "away"
                         new_MilestoneResults) quadruple_doubles) = 1%nat
       /\ length (fst (_check_player_milestones sample_center "BOS" "LAL"
                         "202401150LAL" "2024-01-15" "away"
                         new_MilestoneResults) triple_doubles) = 1%nat
       /\ length (fst (_check_player_milestones sample_center "BOS" "LAL"
                         "202401150LAL" "2024-01-15" "away"
                         new_MilestoneResults) double_doubles) = 1%nat.
Proof.
  assert (Hco : coerced sample_center 20 15 12 10 5 0 0 0 0 0 0 2 0 (PyInt 38))
    by (repeat split; vm_compute; reflexivity).
  assert (Hn : 4 <= count_if (Z.leb 10) [20; 15; 12; 10; 5])
    by (vm_compute; discriminate).
  split; [exact Hco|]. split; [exact Hn|].
  destruct (C1_quadruple_double_recorded_in_three_lists sample_center
              "BOS" "LAL" "202401150LAL" "2024-01-15" "away"
              new_MilestoneResults 20 15 12 10 5 0 0 0 0 0 0 2 0 (PyInt 38)
              Hco Hn) as (categories & Hc & Hq & Ht & Hd).
  exists categories. split; [exact Hc|].
  rewrite Hq, Ht, Hd. repeat split; reflexivity.
Defined.

Lemma C2_witness :
  coerced sample_scorer 45 4 3 0 0 0 0 16 29 0 0 4 0
    (PyFloat (Float64.of_decimal false 415 (-1)))
  /\ 45 <= 45 < 50
  /\ length (fst (_check_player_milestones sample_scorer "LAL" "BOS"
                    "202401150LAL" "2024-01-15" "home" new_MilestoneResults)
               forty_five_point_games) = 1%nat
  /\ fst (_check_player_milestones sample_scorer "LAL" "BOS"
            "202401150LAL" "2024-01-15" "home" new_MilestoneResults)
       forty_point_games = [].
Proof.
  assert (Hco : coerced sample_scorer 45 4 3 0 0 0 0 16 29 0 0 4 0
                  (PyFloat (Float64.of_decimal false 415 (-1))))
    by (repeat split; vm_compute; reflexivity).
  assert (Hpts : 45 <= 45 < 50) by lia.
  split; [exact Hco|]. split; [exact Hpts|].
  destruct (C2_scoring_ladder_exclusive sample_scorer "LAL" "BOS"
              "202401150LAL" "2024-01-15" "home" new_MilestoneResults
              45 4 3 0 0 0 0 16 29 0 0 4 0
              (PyFloat (Float64.of_decimal false 415 (-1))) Hco)
    as (_ & _ & H45).
  destruct (H45 Hpts) as (Hq & H40 & _).
  rewrite Hq, H40. split; reflexivity.
Defined.

Lemma C4_witness :
  coerced sample_guard 22 11 9 1 0 0 0 0 0 0 0 3 0 (PyInt 36)
  /\ is_near_triple_double
       (mk_stats 22 11 9 1 0 0 0 0 0 0 0 3 0 (PyInt 36)) 10 8 = Ok true
  /\ length (fst (_check_player_milestones sample_guard "BOS" "LAL"
                    "202401150LAL" "2024-01-15" "away" new_MilestoneResults)
               near_triple_doubles) = 1%nat.
Proof.
  assert (Hco : coerced sample_guard 22 11 9 1 0 0 0 0 0 0 0 3 0 (PyInt 36))
    by (repeat split; vm_compute; reflexivity).
  split; [exact Hco|].
  destruct (C4_near_triple_double_guard sample_guard "BOS" "LAL"
              "202401150LAL" "2024-01-15" "away" new_MilestoneResults
              22 11 9 1 0 0 0 0 0 0 0 3 0 (PyInt 36)) as (Hrule & _ & Hrun).
  split; [exact Hrule|]. rewrite (Hrun Hco). reflexivity.
Defined.

Lemma C5_witness :
  is_ok (snd (process_games [sample_game_1; sample_game_2]
                new_MilestoneResults)) = true
  /\ (fun e => (player e, game_id e, side e))
     <$> fst (process_games [sample_game_1; sample_game_2]
                new_MilestoneResults) double_doubles
     = [ (PyStr "Sample Center", "202401150LAL", "away");
         (PyStr "Sample Guard", "202401150LAL", "away");
         (PyStr "Sample Center", "202401170DEN", "home") ]
  /\ forall c,
       fst (process_games [sample_game_1; sample_game_2]
              new_MilestoneResults) c
       = flat_map (game_entries c) [sample_game_1; sample_game_2].
Proof.
  assert (Hok : is_ok (snd (process_games [sample_game_1; sample_game_2]
                              new_MilestoneResults)) = true)
    by (vm_compute; reflexivity).
  split; [exact Hok|]. split; [vm_compute; reflexivity|].
  destruct (C5_processing_order [sample_game_1; sample_game_2]
              new_MilestoneResults) as (_ & Hord).
  exact (proj2 (Hord Hok)).
Defined.

Lemma C7_witness :
  get_players_for_side (default ∅ (g_box_score sample_game_2)) "home"
    = [sample_center]
  /\ get_players_for_side (default ∅ (g_box_score sample_game_1)) "away"
     = [sample_center; sample_guard]
  /\ get_players_for_side ∅ "home" = [].
Proof.
  destruct (C7_roster_resolution
              (default ∅ (g_box_score sample_game_2)) "home")
    as (_ & Hbasic & _).
  destruct (C7_roster_resolution
              (default ∅ (g_box_score sample_game_1)) "away")
    as (Hplayers & _).
  destruct (C7_roster_resolution ∅ "home") as (_ & _ & _ & Hmissing).
  split; [|split].
  - rewrite Hbasic; [reflexivity | right; reflexivity].
  - apply Hplayers; [reflexivity | discriminate].
  - apply Hmissing. reflexivity.
Defined.

Lemma C9_witness :
  (8 <= String.length "202401150LAL")%nat
  /\ date_yyyymmdd
       (new_MilestoneEntry "triple_double" (PyStr "Sample Center")
          (PyStr "centesa01") "BOS" "LAL" "202401150LAL" "2024-01-15" "away"
          ∅ [] "")
     = "20240115".
Proof.
  assert (Hlen : (8 <= String.length "202401150LAL")%nat) by (cbn; lia).
  split; [exact Hlen|].
  destruct (C9_date_from_game_id "triple_double" (PyStr "Sample Center")
              (PyStr "centesa01") "BOS" "LAL" "202401150LAL" "2024-01-15"
              "away" ∅ [] Hlen) as (Hdate & _).
  rewrite Hdate. reflexivity.
Defined.

Lemma C10_witness :
  coerced sample_forward 12 9 6 5 5 0 0 0 0 0 0 1 0 (PyInt 33)
  /\ is_five_by_five (mk_stats 12 9 6 5 5 0 0 0 0 0 0 1 0 (PyInt 33)) 5
     = Ok true
  /\ length (fst (_check_player_milestones sample_forward "LAL" "DEN"
                    "202401170DEN" "2024-01-17" "away" new_MilestoneResults)
               five_by_fives) = 1%nat
  /\ length (fst (_check_player_milestones sample_forward "LAL" "DEN"
                    "202401170DEN" "2024-01-17" "away" new_MilestoneResults)
               all_around_games) = 1%nat.
Proof.
  assert (Hco : coerced sample_forward 12 9 6 5 5 0 0 0 0 0 0 1 0 (PyInt 33))
    by (repeat split; vm_compute; reflexivity).
  assert (H5 : is_five_by_five
                 (mk_stats 12 9 6 5 5 0 0 0 0 0 0 1 0 (PyInt 33)) 5 = Ok true)
    by (vm_compute; reflexivity).
  split; [exact Hco|]. split; [exact H5|].
  destruct (C10_all_around_rule sample_forward "LAL" "DEN" "202401170DEN"
              "2024-01-17" "away" new_MilestoneResults
              12 9 6 5 5 0 0 0 0 0 0 1 0 (PyInt 33)) as (_ & _ & Hrun).
  destruct (Hrun Hco H5) as [Hf Ha]. rewrite Hf, Ha. split; reflexivity.
Defined.

(* ===================================================================== *)
(** * Reading the results: serialization, counts, one player *)
(* ===================================================================== *)

Lemma field_of_name attr_name c :
  field_of attr_name = Some c -> field_name c = attr_name.
Proof.
  intros H. apply find_some in H as [_ H]. by apply String.eqb_eq.
Qed.

Section Attributes.
Context {A : Type} (results : MilestoneResults).
Variable cond : string -> bool.
Hypothesis cond_fields : forall c, cond (field_name c) = true.

Lemma fold_attributes (body : A -> string -> list MilestoneEntry -> A)
    names acc :
  fold_left
    (fun acc attr_name =>
       if cond attr_name
       then match getattr results attr_name with
            | AttrList value => body acc attr_name value
            | _ => acc
            end
       else acc) names acc
  = fold_left (fun acc c => body acc (field_name c) (results c))
      (omap field_of names) acc.
Proof.
  revert acc. induction names as [|n names IH]; intros acc; [done|].
  cbn [fold_left omap list_omap]. rewrite IH. clear IH.
  unfold getattr. fold (field_of n).
  destruct (field_of n) as [c|] eqn:E.
  - apply field_of_name in E as <-. by rewrite cond_fields.
  - f_equal. destruct (cond n); [|done]. by destruct (bool_decide _).
Qed.

Lemma fold_for_attributes
    (body : A -> string -> list MilestoneEntry -> result A) names acc :
  fold_for names
    (fun acc attr_name =>
       if cond attr_name
       then match getattr results attr_name with
            | AttrList value => body acc attr_name value
            | _ => Ok acc
            end
       else Ok acc) acc
  = fold_for (omap field_of names)
      (fun acc c => body acc (field_name c) (results c)) acc.
Proof.
  revert acc. induction names as [|n names IH]; intros acc; [done|].
  cbn [fold_for omap list_omap].
  unfold getattr. fold (field_of n).
  destruct (field_of n) as [c|] eqn:E.
  - apply field_of_name in E as <-. rewrite cond_fields.
    cbn [fold_for]. destruct (body _ _ _); cbn; [apply IH | done].
  - rewrite <- IH. destruct (cond n); [|done]. by destruct (bool_decide _).
Qed.

End Attributes.

Lemma dir_fields results : omap field_of (dir results) = fields_by_name.
Proof. vm_compute. reflexivity. Qed.

Lemma fields_by_name_perm : fields_by_name ≡ₚ fields.
Proof. apply merge_sort_Permutation. Qed.

Lemma elem_of_fields c : c ∈ fields.
Proof. destruct c; unfold fields; solve_elem. Qed.

Lemma elem_of_fields_by_name c : c ∈ fields_by_name.
Proof. rewrite fields_by_name_perm. apply elem_of_fields. Qed.

Lemma NoDup_field_names : NoDup (field_name <$> fields_by_name).
Proof. apply (bool_decide_unpack _). vm_compute. exact I. Qed.

Section FoldInsert.
Context {V : Type} (value : category -> V).

Lemma lookup_fold_insert_ne l (m : gmap string V) k :
  k ∉ field_name <$> l ->
  fold_left (fun acc c => <[field_name c := value c]> acc) l m !! k = m !! k.
Proof.
  revert m. induction l as [|c l IH]; intros m H; [done|].
  cbn [fold_left]. rewrite fmap_cons in H.
  apply not_elem_of_cons in H as [H1 H2].
  rewrite IH by done. by apply lookup_insert_ne.
Qed.

Lemma lookup_fold_insert l (m : gmap string V) c :
  NoDup (field_name <$> l) -> c ∈ l ->
  fold_left (fun acc c => <[field_name c := value c]> acc) l m
    !! field_name c = Some (value c).
Proof.
  revert m. induction l as [|c' l IH]; intros m Hnd Hin.
  - by apply elem_of_nil in Hin.
  - cbn [fold_left]. rewrite fmap_cons in Hnd.
    apply NoDup_cons in Hnd as [Hc' Hnd].
    apply elem_of_cons in Hin as [->|Hin].
    + rewrite lookup_fold_insert_ne by done. apply lookup_insert_eq.
    + by apply IH.
Qed.

End FoldInsert.

Lemma public_field (c : category) :
  negb (startswith "_" (field_name c))
  && negb (bool_decide (field_name c ∈ ["to_dict"; "get_milestone_count"]))
  = true.
Proof. by destruct c. Qed.

Lemma to_dict_public_field (c : category) :
  negb (startswith "_" (field_name c))
  && negb (String.eqb (field_name c) "to_dict") = true.
Proof. by destruct c. Qed.

Lemma to_dict_fold results :
  to_dict results
  = fold_left
      (fun acc c => <[field_name c := entry_dict <$> results c]> acc)
      fields_by_name ∅.
Proof.
  unfold to_dict.
  rewrite (fold_attributes results _ to_dict_public_field
             (fun acc n v => <[n := entry_dict <$> v]> acc)).
  by rewrite dir_fields.
Qed.

Lemma not_field_name name l :
  l ≡ₚ fields ->
  name ∉ field_name <$> fields -> name ∉ field_name <$> l.
Proof. intros Hp H. by rewrite Hp. Qed.

(** X1. [to_dict] of any results object has one key per category field,
    named as the field, whose value lists the category's entries in order,
    each as its plain record; no other key is present. *)
Theorem to_dict_categories (results : MilestoneResults) :
  (forall c, to_dict results !! field_name c
             = Some (entry_dict <$> results c))
  /\ (forall name, name ∉ field_name <$> fields ->
                   to_dict results !! name = None).
Proof.
  rewrite to_dict_fold. split.
  - intros c. apply (lookup_fold_insert (fun c => entry_dict <$> results c)).
    + apply NoDup_field_names.
    + apply elem_of_fields_by_name.
  - intros name H.
    rewrite (lookup_fold_insert_ne (fun c => entry_dict <$> results c)).
    + done.
    + by apply not_field_name; [apply fields_by_name_perm|].
Qed.

Lemma get_milestone_summary_fold results :
  get_milestone_summary results
  = fold_left
      (fun acc c => <[field_name c := Z.of_nat (length (results c))]> acc)
      fields_by_name ∅.
Proof.
  unfold get_milestone_summary.
  rewrite (fold_attributes results _ public_field
             (fun acc n v => <[n := Z.of_nat (length v)]> acc)).
  by rewrite dir_fields.
Qed.

(** X2. [get_milestone_summary] maps every category field name to the
    number of entries of that category, and has no other key. *)
Theorem get_milestone_summary_counts (results : MilestoneResults) :
  (forall c, get_milestone_summary results !! field_name c
             = Some (Z.of_nat (length (results c))))
  /\ (forall name, name ∉ field_name <$> fields ->
                   get_milestone_summary results !! name = None).
Proof.
  rewrite get_milestone_summary_fold. split.
  - intros c.
    apply (lookup_fold_insert (fun c => Z.of_nat (length (results c)))).
    + apply NoDup_field_names.
    + apply elem_of_fields_by_name.
  - intros name H.
    rewrite (lookup_fold_insert_ne
               (fun c => Z.of_nat (length (results c)))).
    + done.
    + by apply not_field_name; [apply fields_by_name_perm|].
Qed.

Lemma fold_left_add (f : category -> Z) l acc :
  fold_left (fun acc c => acc + f c) l acc
  = acc + foldr (fun c n => f c + n) 0 l.
Proof.
  revert acc. induction l as [|c l IH]; intros acc; cbn [fold_left foldr].
  - lia.
  - rewrite IH. lia.
Qed.

Lemma foldr_add_perm (f : category -> Z) l k :
  l ≡ₚ k ->
  foldr (fun c n => f c + n) 0 l = foldr (fun c n => f c + n) 0 k.
Proof.
  induction 1; cbn [foldr]; lia.
Qed.

(** X3. [get_milestone_count] is the total number of entries over all
    category fields. *)
Theorem get_milestone_count_total (results : MilestoneResults) :
  get_milestone_count results = total_entries results.
Proof.
  unfold get_milestone_count, total_entries.
  rewrite (fold_attributes results _ public_field
             (fun acc n v => acc + Z.of_nat (length v))).
  rewrite dir_fields, fold_left_add.
  rewrite (foldr_add_perm _ _ _ fields_by_name_perm). lia.
Qed.

Lemma fold_for_cons {A B} (body : B -> A -> result B) x xs acc :
  fold_for (x :: xs) body acc = body acc x ≫= fold_for xs body.
Proof. reflexivity. Qed.

Lemma player_step player_name acc e :
  (entry_lower ← player_lower_of e;
   if String.eqb entry_lower (Str.lower_text player_name)
   then Ok (acc ++ [e]) else Ok acc)
  = if has_name e
    then Ok (acc ++ List.filter (is_player player_name) [e])
    else Raise AttributeError.
Proof.
  unfold player_lower_of, has_name, is_player. cbn.
  destruct (player e) as [| | |s|]; cbn; try done.
  destruct (String.eqb (Str.lower_text s) _); [done|]. by rewrite app_nil_r.
Qed.

Lemma fold_for_entries player_name value acc :
  fold_for value
    (fun player_milestones entry =>
       entry_lower ← player_lower_of entry;
       if String.eqb entry_lower (Str.lower_text player_name)
       then Ok (player_milestones ++ [entry])
       else Ok player_milestones) acc
  = if forallb has_name value
    then Ok (acc ++ List.filter (is_player player_name) value)
    else Raise AttributeError.
Proof.
  revert acc. induction value as [|e value IH]; intros acc.
  - cbn. by rewrite app_nil_r.
  - rewrite fold_for_cons. cbv beta. rewrite player_step.
    change (e :: value) with ([e] ++ value).
    rewrite List.filter_app. cbn [forallb app].
    destruct (has_name e); [|done]. cbn [result_bind mbind andb].
    change (Ok ?x ≫= ?f) with (f x).
    rewrite IH. destruct (forallb has_name value); [|done].
    by rewrite <- app_assoc.
Qed.

Lemma fold_for_categories (results : MilestoneResults) player_name l acc :
  fold_for l
    (fun player_milestones c =>
       fold_for (results c)
         (fun player_milestones entry =>
            entry_lower ← player_lower_of entry;
            if String.eqb entry_lower (Str.lower_text player_name)
            then Ok (player_milestones ++ [entry])
            else Ok player_milestones) player_milestones) acc
  = if forallb (fun c => forallb has_name (results c)) l
    then Ok (acc ++ flat_map
                      (fun c => List.filter (is_player player_name)
                                  (results c)) l)
    else Raise AttributeError.
Proof.
  revert acc. induction l as [|c l IH]; intros acc.
  - cbn. by rewrite app_nil_r.
  - rewrite fold_for_cons. cbv beta. rewrite fold_for_entries.
    cbn [forallb flat_map].
    destruct (forallb has_name (results c)); [|done]. cbn.
    rewrite IH. destruct (forallb _ l); [|done]. by rewrite app_assoc.
Qed.

Lemma forallb_perm {A} (f : A -> bool) l k :
  l ≡ₚ k -> forallb f l = forallb f k.
Proof.
  induction 1; cbn; try congruence.
  by destruct (f x), (f y).
Qed.

Lemma lower_text_char_idemp c :
  Str.lower_text_char (Str.lower_text_char c) = Str.lower_text_char c.
Proof.
  destruct c as [[] [] [] [] [] [] [] []]; reflexivity.
Qed.

Lemma lower_text_idemp s : Str.lower_text (Str.lower_text s) = Str.lower_text s.
Proof.
  unfold Str.lower_text. rewrite list_ascii_of_string_of_list_ascii.
  f_equal. rewrite <- list_fmap_compose.
  apply list_fmap_ext. intros _ c _. apply lower_text_char_idemp.
Qed.

Lemma get_player_milestones_eq results player_name :
  get_player_milestones results player_name
  = if forallb (fun c => forallb has_name (results c)) fields
    then Ok (flat_map
               (fun c => List.filter (is_player player_name) (results c))
               fields_by_name)
    else Raise AttributeError.
Proof.
  unfold get_player_milestones. cbv zeta.
  rewrite (fold_for_attributes results _ public_field
             (fun acc _ value =>
                fold_for value
                  (fun player_milestones entry =>
                     entry_lower ← player_lower_of entry;
                     if String.eqb entry_lower (Str.lower_text player_name)
                     then Ok (player_milestones ++ [entry])
                     else Ok player_milestones) acc)).
  rewrite dir_fields, fold_for_categories.
  by rewrite (forallb_perm _ _ _ fields_by_name_perm).
Qed.

(** X4. [get_player_milestones] either returns the player's entries or
    raises [AttributeError]: it raises exactly when some stored entry has
    a player that is not a string; otherwise the result lists, category by
    category in alphabetical order of the field names and in insertion
    order within a category, the entries whose player equals the queried
    name in lower case.  The letter case of the query does not matter. *)
Theorem get_player_milestones_result
    (results : MilestoneResults) (player_name : string) :
  get_player_milestones results player_name
  = (if forallb (fun c => forallb has_name (results c)) fields
     then Ok (flat_map
                (fun c => List.filter (is_player player_name) (results c))
                fields_by_name)
     else Raise AttributeError)
  /\ get_player_milestones results (Str.lower_text player_name)
     = get_player_milestones results player_name.
Proof.
  split; [apply get_player_milestones_eq|].
  unfold get_player_milestones. by rewrite lower_text_idemp.
Qed.

Lemma to_dict_key results name :
  is_Some (to_dict results !! name) <-> name ∈ field_name <$> fields.
Proof.
  rewrite to_dict_fold.
  destruct (decide (name ∈ field_name <$> fields)) as [Hin|Hout].
  - split; [done|]. intros _.
    apply list_elem_of_fmap in Hin as (c & -> & _).
    rewrite (lookup_fold_insert (fun c => entry_dict <$> results c));
      [done | apply NoDup_field_names | apply elem_of_fields_by_name].
  - split; [|done].
    rewrite (lookup_fold_insert_ne (fun c => entry_dict <$> results c))
      by (by apply not_field_name; [apply fields_by_name_perm|]).
    rewrite lookup_empty. by intros [? ?].
Qed.

Lemma get_milestone_summary_key results name :
  is_Some (get_milestone_summary results !! name)
  <-> name ∈ field_name <$> fields.
Proof.
  rewrite get_milestone_summary_fold.
  destruct (decide (name ∈ field_name <$> fields)) as [Hin|Hout].
  - split; [done|]. intros _.
    apply list_elem_of_fmap in Hin as (c & -> & _).
    rewrite (lookup_fold_insert (fun c => Z.of_nat (length (results c))));
      [done | apply NoDup_field_names | apply elem_of_fields_by_name].
  - split; [|done].
    rewrite (lookup_fold_insert_ne (fun c => Z.of_nat (length (results c))))
      by (by apply not_field_name; [apply fields_by_name_perm|]).
    rewrite lookup_empty. by intros [? ?].
Qed.

(** X5. The two tables that name the categories agree with the results
    object: the keys of [MILESTONE_DESCRIPTIONS] and the keys listed by the
    page's [milestone_categories], group after group, are the category
    fields in declaration order, so a key of [to_dict] or of
    [get_milestone_summary] always has a description and belongs to
    exactly one filter group. *)
Theorem category_tables_complete (results : MilestoneResults) (name : string) :
  MILESTONE_DESCRIPTIONS.*1 = field_name <$> fields
  /\ concat milestone_categories.*2 = field_name <$> fields
  /\ NoDup (concat milestone_categories.*2)
  /\ (is_Some (to_dict results !! name)
      <-> name ∈ MILESTONE_DESCRIPTIONS.*1)
  /\ (is_Some (get_milestone_summary results !! name)
      <-> exists group names,
            (group, names) ∈ milestone_categories /\ name ∈ names).
Proof.
  assert (H1 : MILESTONE_DESCRIPTIONS.*1 = field_name <$> fields)
    by reflexivity.
  assert (H2 : concat milestone_categories.*2 = field_name <$> fields)
    by reflexivity.
  split; [exact H1|]. split; [exact H2|]. split; [|split].
  - rewrite H2. apply (bool_decide_unpack _). vm_compute. exact I.
  - by rewrite H1, to_dict_key.
  - rewrite get_milestone_summary_key, <- H2.
    rewrite list_elem_of_In, in_concat. split.
    + intros (names & Hg & Hname).
      apply list_elem_of_In, list_elem_of_fmap in Hg
        as ([group names'] & -> & Hg).
      exists group, names'. split; [exact Hg|]. by apply list_elem_of_In.
    + intros (group & names & Hg & Hname).
      exists names. split; [|by apply list_elem_of_In].
      apply list_elem_of_In, list_elem_of_fmap. by exists (group, names).
Qed.

(* ===================================================================== *)
(** * Where an entry comes from *)
(* ===================================================================== *)

Section StoresLaws.

Context {A B : Type} (P : category -> MilestoneEntry -> Prop).

Lemma stores_ret (a : A) : stores P (mret a : M A).
Proof. intros r c e H. by left. Qed.

Lemma stores_lift (x : result A) : stores P (lift x).
Proof. intros r c e H. by left. Qed.

Lemma stores_bind (m : M A) (k : A -> M B) :
  stores P m -> (forall a, stores P (k a)) -> stores P (m ≫= k).
Proof.
  intros Hm Hk r c e. rewrite run_bind. specialize (Hm r c e).
  destruct (m r) as [r1 [a|x]]; cbn in *; [|exact Hm].
  intros H. apply Hk in H as [H|H]; [by apply Hm | by right].
Qed.

Lemma stores_lift_bind (x : result A) (k : A -> M B) :
  (forall a, x = Ok a -> stores P (k a)) -> stores P (lift x ≫= k).
Proof.
  intros Hk r c e. rewrite run_bind. unfold lift.
  destruct x as [a|x]; cbn; [|by left]. by apply Hk.
Qed.

End StoresLaws.

Lemma stores_append P c e : P c e -> stores P (append c e).
Proof.
  intros HP r c' e'. unfold append; cbn.
  destruct (decide (c = c')) as [<-|Hne].
  - rewrite fn_lookup_insert. intros H.
    apply elem_of_app in H as [H|H]; [by left|].
    apply list_elem_of_singleton in H as ->. by right.
  - rewrite fn_lookup_insert_ne by done. by left.
Qed.

Lemma stores_when P b body : stores P body -> stores P (when b body).
Proof. destruct b; [done|]. intros _. apply stores_ret. Qed.

Lemma stores_if {A} P (b : bool) (m1 m2 : M A) :
  stores P m1 -> stores P m2 -> stores P (if b then m1 else m2).
Proof. by destruct b. Qed.

Lemma stores_mono {A} (P Q : category -> MilestoneEntry -> Prop) (m : M A) :
  (forall c e, P c e -> Q c e) -> stores P m -> stores Q m.
Proof.
  intros HPQ Hm r c e H. apply Hm in H as [H|H]; [by left|].
  right. by apply HPQ.
Qed.

Lemma stores_for_each {A} (P : A -> category -> MilestoneEntry -> Prop)
    (xs : list A) body :
  (forall x, x ∈ xs -> stores (P x) (body x)) ->
  stores (fun c e => exists x, x ∈ xs /\ P x c e) (for_each xs body).
Proof.
  induction xs as [|x xs IH]; intros Hb; cbn [for_each].
  - apply stores_ret.
  - apply stores_bind.
    + apply (stores_mono (P x)); [|apply Hb; by left].
      intros c e H. exists x. split; [by left|done].
    + intros _. eapply stores_mono; [|apply IH].
      * intros c e (y & Hy & H). exists y. split; [by right|done].
      * intros y Hy. apply Hb. by right.
Qed.

Lemma stores_added {A} P (m : M A) c e : stores P m -> e ∈ added m c -> P c e.
Proof.
  intros Hm H. apply Hm in H as [H|H]; [|done].
  by apply elem_of_nil in H.
Qed.

Ltac stores_tac :=
  repeat first
    [ apply stores_ret | apply stores_lift
    | apply stores_append; eexists; reflexivity
    | apply stores_when | apply stores_if
    | apply stores_bind; [|intros ?] ].

Lemma stores_check_milestones stats base_entry
    pts trb ast stl blk fg3 fg3a fg fga ft fta plus_minus mp :
  stores (fun c e => exists detail,
            e = base_entry (singular (field_name c)) detail)
    (check_milestones stats base_entry
       pts trb ast stl blk fg3 fg3a fg fga ft fta plus_minus mp).
Proof. unfold_blocks. stores_tac. Qed.

Lemma stores_check_player_milestones player team opponent game_id date side :
  stores (recorded_for player team opponent game_id date side)
    (_check_player_milestones player team opponent game_id date side).
Proof.
  unfold _check_player_milestones. cbn zeta.
  do 14 (apply stores_lift_bind; intros ? ?).
  eapply stores_mono; [|apply stores_check_milestones].
  intros c e [detail ->]. unfold recorded_for, coerced, base_entry_of.
  by repeat eexists.
Qed.

Lemma stores_process_game game :
  stores (fun c e =>
            (exists player, player ∈ roster game "away"
               /\ recorded_for player (away_team_of game) (home_team_of game)
                    (game_id_of game) (date_of game) "away" c e)
            \/ (exists player, player ∈ roster game "home"
                  /\ recorded_for player (home_team_of game)
                       (away_team_of game) (game_id_of game) (date_of game)
                       "home" c e))
    (_process_game game).
Proof.
  unfold _process_game. cbn zeta.
  apply stores_bind; [|intros _].
  - eapply stores_mono;
      [|apply (stores_for_each
                 (fun player => recorded_for player (away_team_of game)
                    (home_team_of game) (game_id_of game) (date_of game)
                    "away"));
        intros player _; apply stores_check_player_milestones].
    intros c e H. by left.
  - eapply stores_mono;
      [|apply (stores_for_each
                 (fun player => recorded_for player (home_team_of game)
                    (away_team_of game) (game_id_of game) (date_of game)
                    "home"));
        intros player _; apply stores_check_player_milestones].
    intros c e H. by right.
Qed.

Lemma base_entry_of_fields player team opponent game_id date side stats
    milestone_type detail :
  let e := base_entry_of player team opponent game_id date side stats
             milestone_type detail in
  MilestoneEngine.milestone_type e = milestone_type
  /\ MilestoneEngine.player e = get player "name" (PyStr "")
  /\ MilestoneEngine.player_id e = get player "player_id" (PyStr "")
  /\ MilestoneEngine.team e = team
  /\ MilestoneEngine.opponent e = opponent
  /\ MilestoneEngine.game_id e = game_id
  /\ MilestoneEngine.date e = date
  /\ MilestoneEngine.side e = side
  /\ MilestoneEngine.stats e = stats
  /\ MilestoneEngine.detail e = detail.
Proof.
  unfold base_entry_of, mk_entry, new_MilestoneEntry, __post_init__.
  by destruct (_ && _).
Qed.

Lemma process_games_recorded games r0 c e :
  e ∈ fst (process_games games r0) c ->
  exists game player,
    game ∈ games
    /\ ((player ∈ roster game "away"
         /\ recorded_for player (away_team_of game) (home_team_of game)
              (game_id_of game) (date_of game) "away" c e)
        \/ (player ∈ roster game "home"
            /\ recorded_for player (home_team_of game) (away_team_of game)
                 (game_id_of game) (date_of game) "home" c e)).
Proof.
  rewrite run_process_games. cbn [fst]. intros Hin.
  apply (stores_added _ _ _ _
           (stores_for_each _ games _process_game
              (fun game _ => stores_process_game game))) in Hin
    as (game & Hgame & [(p & Hp & H)|(p & Hp & H)]);
    exists game, p; split; auto.
Qed.

(** X6. Every entry of the results [process_games] leaves (the results it
    returns when it ends normally) comes from a player of a roster of one
    of the games: it is the entry built from that player's name and id, the
    game's id and date, the player's team as [team] and the other team as
    [opponent], the side and the coerced stats of the player; its
    [milestone_type] is the name of its category without the plural
    ending. *)
Theorem process_games_provenance
    (games : list Game) (r0 : MilestoneResults)
    (c : category) (e : MilestoneEntry) :
  e ∈ fst (process_games games r0) c ->
  milestone_type e = singular (field_name c)
  /\ (side e = "away" \/ side e = "home")
  /\ exists game player,
       game ∈ games
       /\ ((player ∈ roster game "away"
            /\ recorded_for player (away_team_of game) (home_team_of game)
                 (game_id_of game) (date_of game) "away" c e)
           \/ (player ∈ roster game "home"
               /\ recorded_for player (home_team_of game)
                    (away_team_of game) (game_id_of game) (date_of game)
                    "home" c e)).
Proof.
  intros Hin.
  destruct (process_games_recorded games r0 c e Hin)
    as (game & p & Hgame & Hrec).
  assert (milestone_type e = singular (field_name c)
          /\ (side e = "away" \/ side e = "home")) as [Ht Hs].
  { destruct Hrec as [[_ Hrec]|[_ Hrec]];
      destruct Hrec as (pts & trb & ast & stl & blk & fg3 & fg3a & fg & fga
                        & ft & fta & tov & plus_minus & mp & detail & _ & ->);
      match goal with
      | |- context [base_entry_of ?p ?t ?o ?g ?d ?s ?st ?mt ?dt] =>
          destruct (base_entry_of_fields p t o g d s st mt dt)
            as (-> & _ & _ & _ & _ & _ & _ & -> & _)
      end; auto. }
  split; [exact Ht|]. split; [exact Hs|]. by exists game, p.
Qed.


(* ===================================================================== *)
(** * One entry at most *)
(* ===================================================================== *)

Section AtMostOneLaws.

Context {A B : Type}.

Lemma adds_at_most_one_skips c (m : M A) : skips c m -> adds_at_most 1 c m.
Proof. intros H r. rewrite H. lia. Qed.

Lemma adds_at_most_one_bind_l c (m : M A) (k : A -> M B) :
  adds_at_most 1 c m -> (forall a, skips c (k a)) ->
  adds_at_most 1 c (m ≫= k).
Proof.
  intros Hm Hk r. rewrite run_bind. specialize (Hm r).
  destruct (m r) as [r1 [a|x]]; cbn in *; [|done]. by rewrite Hk.
Qed.

Lemma adds_at_most_one_bind_r c (m : M A) (k : A -> M B) :
  skips c m -> (forall a, adds_at_most 1 c (k a)) ->
  adds_at_most 1 c (m ≫= k).
Proof.
  intros Hm Hk r. rewrite run_bind. specialize (Hm r).
  destruct (m r) as [r1 [a|x]]; cbn in *.
  - rewrite <- Hm. apply Hk.
  - rewrite Hm. lia.
Qed.

End AtMostOneLaws.

Lemma adds_at_most_one_append c c' e : adds_at_most 1 c (append c' e).
Proof.
  intros r. unfold append; cbn. destruct (decide (c' = c)) as [->|Hne].
  - rewrite fn_lookup_insert, length_app. cbn. lia.
  - rewrite fn_lookup_insert_ne by done. lia.
Qed.

Lemma adds_at_most_one_when c b body :
  adds_at_most 1 c body -> adds_at_most 1 c (when b body).
Proof. destruct b; [done|]. intros _ r. cbn. lia. Qed.

Lemma adds_at_most_one_if {A} c (b : bool) (m1 m2 : M A) :
  adds_at_most 1 c m1 -> adds_at_most 1 c m2 ->
  adds_at_most 1 c (if b then m1 else m2).
Proof. by destruct b. Qed.

(** A block leaves alone every category that is not one of its own. *)
Ltac skips_outside H :=
  repeat first
    [ apply skips_ret | apply skips_lift
    | apply skips_append; intros ->; apply H; solve_elem
    | apply skips_when | apply skips_if
    | apply skips_bind; [|intros ?] ].

Section BlockFootprints.

Variable stats : dict.
Variable base_entry : string -> fstring -> MilestoneEntry.
Variables pts trb ast stl blk fg3 fg3a fg fga ft fta plus_minus : Z.
Variable mp : pyval.
Variable c : category.

Lemma multi_category_achievements_footprint :
  c ∉ multi_categories ->
  skips c (multi_category_achievements stats base_entry pts trb ast stl blk).
Proof. intros H. unfold_blocks. skips_outside H. Qed.

Lemma scoring_milestones_footprint :
  c ∉ scoring_categories -> skips c (scoring_milestones base_entry pts).
Proof. intros H. unfold_blocks. skips_outside H. Qed.

Lemma rebounding_milestones_footprint :
  c ∉ rebounding_categories -> skips c (rebounding_milestones base_entry trb).
Proof. intros H. unfold_blocks. skips_outside H. Qed.

Lemma assist_milestones_footprint :
  c ∉ assist_categories -> skips c (assist_milestones base_entry ast).
Proof. intros H. unfold_blocks. skips_outside H. Qed.

Lemma steal_milestones_footprint :
  c ∉ steal_categories -> skips c (steal_milestones base_entry stl).
Proof. intros H. unfold_blocks. skips_outside H. Qed.

Lemma block_milestones_footprint :
  c ∉ block_categories -> skips c (block_milestones base_entry blk).
Proof. intros H. unfold_blocks. skips_outside H. Qed.

Lemma three_pointer_milestones_footprint :
  c ∉ three_pointer_categories ->
  skips c (three_pointer_milestones stats base_entry fg3 fg3a).
Proof. intros H. unfold_blocks. skips_outside H. Qed.

Lemma efficiency_milestones_footprint :
  c ∉ efficiency_categories ->
  skips c (efficiency_milestones stats base_entry pts fg fga ft fta).
Proof. intros H. unfold_blocks. skips_outside H. Qed.

Lemma combined_milestones_footprint :
  c ∉ combined_categories ->
  skips c (combined_milestones base_entry pts trb ast).
Proof. intros H. unfold_blocks. skips_outside H. Qed.

Lemma defensive_milestones_footprint :
  c ∉ [defensive_monster_games] ->
  skips c (defensive_milestones stats base_entry stl blk).
Proof. intros H. unfold_blocks. skips_outside H. Qed.

Lemma clean_games_footprint :
  c ∉ [zero_turnover_games] -> skips c (clean_games stats base_entry mp).
Proof. intros H. unfold_blocks. skips_outside H. Qed.

Lemma plus_minus_milestones_footprint :
  c ∉ plus_minus_categories ->
  skips c (plus_minus_milestones base_entry plus_minus).
Proof. intros H. unfold_blocks. skips_outside H. Qed.

End BlockFootprints.

Ltac not_listed := apply (bool_decide_unpack _); vm_compute; exact I.

Ltac skips_block :=
  lazymatch goal with
  | |- skips _ (multi_category_achievements _ _ _ _ _ _ _) =>
      apply multi_category_achievements_footprint
  | |- skips _ (scoring_milestones _ _) => apply scoring_milestones_footprint
  | |- skips _ (rebounding_milestones _ _) =>
      apply rebounding_milestones_footprint
  | |- skips _ (assist_milestones _ _) => apply assist_milestones_footprint
  | |- skips _ (steal_milestones _ _) => apply steal_milestones_footprint
  | |- skips _ (block_milestones _ _) => apply block_milestones_footprint
  | |- skips _ (three_pointer_milestones _ _ _ _) =>
      apply three_pointer_milestones_footprint
  | |- skips _ (efficiency_milestones _ _ _ _ _ _ _) =>
      apply efficiency_milestones_footprint
  | |- skips _ (combined_milestones _ _ _ _) =>
      apply combined_milestones_footprint
  | |- skips _ (defensive_milestones _ _ _ _) =>
      apply defensive_milestones_footprint
  | |- skips _ (clean_games _ _ _) => apply clean_games_footprint
  | |- skips _ (plus_minus_milestones _ _) =>
      apply plus_minus_milestones_footprint
  end; not_listed.

Ltac skips_blocks :=
  solve [repeat first [skips_block | apply skips_bind; [|intros ?]]].

(** Within a block, a step that may touch [c] is followed only by steps
    that skip it. *)
Ltac at_most_one_tac :=
  first
    [ apply adds_at_most_one_append
    | apply adds_at_most_one_bind_r;
        [solve [skips_tac] | intros ?; at_most_one_tac]
    | apply adds_at_most_one_bind_l;
        [at_most_one_tac | intros ?; solve [skips_tac]]
    | apply adds_at_most_one_when; at_most_one_tac
    | apply adds_at_most_one_if; at_most_one_tac
    | apply adds_at_most_one_skips; solve [skips_tac] ].

Ltac at_most_one_blocks :=
  first
    [ apply adds_at_most_one_bind_r;
        [skips_block | intros ?; at_most_one_blocks]
    | apply adds_at_most_one_bind_l;
        [unfold_blocks; at_most_one_tac | intros ?; skips_blocks]
    | unfold_blocks; at_most_one_tac ].

Lemma adds_at_most_one_check_milestones c stats base_entry
    pts trb ast stl blk fg3 fg3a fg fga ft fta plus_minus mp :
  adds_at_most 1 c
    (check_milestones stats base_entry
       pts trb ast stl blk fg3 fg3a fg fga ft fta plus_minus mp).
Proof. unfold check_milestones. destruct c; at_most_one_blocks. Qed.

Lemma adds_at_most_ret {A} c (a : A) : adds_at_most 0 c (mret a : M A).
Proof. intros r. cbn. lia. Qed.

Lemma adds_at_most_bind {A B} n1 n2 c (m : M A) (k : A -> M B) :
  adds_at_most n1 c m -> (forall a, adds_at_most n2 c (k a)) ->
  adds_at_most (n1 + n2) c (m ≫= k).
Proof.
  intros Hm Hk r. rewrite run_bind. specialize (Hm r).
  destruct (m r) as [r1 [a|x]]; cbn in *.
  - specialize (Hk a r1). lia.
  - lia.
Qed.

Lemma adds_at_most_for_each {A} n c (xs : list A) body :
  (forall x, adds_at_most n c (body x)) ->
  adds_at_most (length xs * n) c (for_each xs body).
Proof.
  intros Hb. induction xs as [|x xs IH]; cbn [for_each length Nat.mul].
  - apply adds_at_most_ret.
  - apply adds_at_most_bind; [apply Hb | intros _; apply IH].
Qed.

Lemma adds_at_most_one_check_player_milestones
    c player team opponent game_id date side :
  adds_at_most 1 c
    (_check_player_milestones player team opponent game_id date side).
Proof.
  unfold _check_player_milestones. cbn zeta.
  do 14 (apply adds_at_most_one_bind_r; [apply skips_lift | intros ?]).
  apply adds_at_most_one_check_milestones.
Qed.

Lemma adds_at_most_process_game c game :
  adds_at_most (length (roster game "away") + length (roster game "home")) c
    (_process_game game).
Proof.
  unfold _process_game. cbn zeta.
  rewrite <- (Nat.mul_1_r (length (roster game "away"))),
          <- (Nat.mul_1_r (length (roster game "home"))).
  apply adds_at_most_bind; [|intros _];
    apply adds_at_most_for_each; intros player;
    apply adds_at_most_one_check_player_milestones.
Qed.

Lemma adds_at_most_games c games :
  adds_at_most (player_games games) c (for_each games _process_game).
Proof.
  induction games as [|game games IH]; cbn [for_each player_games foldr].
  - apply adds_at_most_ret.
  - apply adds_at_most_bind; [apply adds_at_most_process_game|].
    intros _. apply IH.
Qed.

(** X8. A player-game adds at most one entry to any category, whatever the
    record holds and however the classification ends; hence no category of
    a batch holds more entries than the batch has player records. *)
Theorem at_most_one_entry_per_category
    (player : Player) (team opponent game_id date side : string)
    (games : list Game) (r : MilestoneResults) (c : category) :
  (length (fst (_check_player_milestones player team opponent game_id date
                  side r) c) <= 1 + length (r c))%nat
  /\ (length (fst (process_games games r) c) <= player_games games)%nat.
Proof.
  split; [apply adds_at_most_one_check_player_milestones|].
  rewrite run_process_games. cbn [fst].
  pose proof (adds_at_most_games c games new_MilestoneResults) as H.
  cbn in H. lia.
Qed.

Lemma get_insert_ne {V} (d : gmap string V) k k' v dflt :
  k <> k' -> get (<[k := v]> d) k' dflt = get d k' dflt.
Proof. intros H. unfold get. by rewrite lookup_insert_ne. Qed.

Lemma get_delete_ne {V} (d : gmap string V) k k' dflt :
  k <> k' -> get (delete k d) k' dflt = get d k' dflt.
Proof. intros H. unfold get. by rewrite lookup_delete_ne. Qed.

(** X9. Only sixteen keys of a player record matter: setting or removing
    any other key changes nothing in what [_check_player_milestones] does.
    Offensive and defensive rebounds and personal fouls are among the keys
    that are not read, and the [stats] dict the engine builds has none of
    them: the Game Score it computes takes them as 0. *)
Theorem unread_keys_ignored
    (player : Player) (k : string) (v : pyval)
    (team opponent game_id date side : string)
    (pts trb ast stl blk fg3 fg3a fg fga ft fta tov plus_minus : Z)
    (mp : pyval) :
  k ∉ read_keys ->
  _check_player_milestones (<[k := v]> player) team opponent game_id date side
  = _check_player_milestones player team opponent game_id date side
  /\ _check_player_milestones (delete k player) team opponent game_id date
       side
     = _check_player_milestones player team opponent game_id date side
  /\ Forall (fun k' => (k' ∉ read_keys)
                       /\ get (mk_stats pts trb ast stl blk fg3 fg3a fg fga ft
                                 fta tov plus_minus mp) k' (PyInt 0)
                          = PyInt 0)
       ["orb"; "drb"; "pf"].
Proof.
  intros Hk.
  assert (forall k', k' ∈ read_keys -> k <> k') as Hne
    by (intros k' Hk' ->; done).
  unfold _check_player_milestones.
  split; [|split].
  - rewrite !get_insert_ne by (apply Hne; unfold read_keys; solve_elem).
    reflexivity.
  - rewrite !get_delete_ne by (apply Hne; unfold read_keys; solve_elem).
    reflexivity.
  - repeat apply Forall_cons_2; [..|apply Forall_nil_2];
      (split; [apply (bool_decide_unpack _); vm_compute; exact I
              |reflexivity]).
Qed.

(* ===================================================================== *)
(** * The exceptions of the classification *)
(* ===================================================================== *)

Lemma raises_only_ok {A} E (a : A) : raises_only E (Ok a).
Proof. intros e H. discriminate. Qed.

Lemma raises_only_raise {A} E (e : exn) :
  e ∈ E -> raises_only E (@Raise A e).
Proof. intros He e' [= <-]. exact He. Qed.

Section RaisesLaws.

Context {A B : Type} (E : list exn).

Lemma raises_only_bind (x : result A) (k : A -> result B) :
  raises_only E x -> (forall a, x = Ok a -> raises_only E (k a)) ->
  raises_only E (x ≫= k).
Proof.
  intros Hx Hk. destruct x as [a|e]; cbn.
  - by apply Hk.
  - intros e' [= <-]. by apply Hx.
Qed.

Lemma raises_only_fmap (f : A -> B) (x : result A) :
  raises_only E x -> raises_only E (f <$> x).
Proof.
  intros Hx. destruct x as [a|e]; cbn.
  - apply raises_only_ok.
  - intros e' [= <-]. by apply Hx.
Qed.

Lemma raises_only_try (body handler : result A) caught :
  raises_only (caught ++ E) body -> raises_only E handler ->
  raises_only E (try_except body caught handler).
Proof.
  intros Hb Hh. unfold try_except. destruct body as [a|e].
  - apply raises_only_ok.
  - destruct (bool_decide (e ∈ caught)) eqn:Hc; [exact Hh|].
    apply bool_decide_eq_false in Hc. intros e' [= <-].
    specialize (Hb e eq_refl). apply elem_of_app in Hb as [Hb|Hb]; done.
Qed.

Lemma raises_only_if (b : bool) (x y : result A) :
  raises_only E x -> raises_only E y -> raises_only E (if b then x else y).
Proof. by destruct b. Qed.

End RaisesLaws.

Lemma raises_only_mono {A} (E E' : list exn) (x : result A) :
  E ⊆ E' -> raises_only E x -> raises_only E' x.
Proof. intros Hsub Hx e He. apply Hsub. by apply Hx. Qed.

Lemma float_of_int_raises z : raises_only [OverflowError] (float_of_int z).
Proof.
  unfold float_of_int. destruct (Float64.is_infinite _).
  - apply raises_only_raise. solve_elem.
  - apply raises_only_ok.
Qed.

Lemma to_float_raises a : raises_only [OverflowError] (to_float a).
Proof.
  destruct a; [apply float_of_int_raises | apply raises_only_ok].
Qed.

Section Arithmetic.

Variable E : list exn.
Hypothesis overflow : OverflowError ∈ E.

Lemma to_float_raises_in a : raises_only E (to_float a).
Proof.
  eapply raises_only_mono; [|apply to_float_raises].
  intros e He. apply list_elem_of_singleton in He as ->. exact overflow.
Qed.

Lemma float_op_raises (op : float -> float -> float) a b :
  raises_only E (x ← to_float a; y ← to_float b; Ok (Float (op x y))).
Proof.
  apply raises_only_bind; [apply to_float_raises_in|]. intros x _.
  apply raises_only_bind; [apply to_float_raises_in|]. intros y _.
  apply raises_only_ok.
Qed.

Lemma num_add_raises a b : raises_only E (num_add a b).
Proof.
  destruct a, b; try apply float_op_raises. apply raises_only_ok.
Qed.

Lemma num_sub_raises a b : raises_only E (num_sub a b).
Proof.
  destruct a, b; try apply float_op_raises. apply raises_only_ok.
Qed.

Lemma num_mul_raises a b : raises_only E (num_mul a b).
Proof.
  destruct a, b; try apply float_op_raises. apply raises_only_ok.
Qed.

(** A division raises [ZeroDivisionError] only for a zero divisor: an int
    divided by a nonzero int, or anything divided by a nonzero float. *)
Lemma num_truediv_ints_raises x y :
  y <> 0 -> raises_only E (num_truediv (Int x) (Int y)).
Proof.
  intros Hy. cbn. destruct (Z.eqb_spec y 0) as [|_]; [done|].
  destruct (Float64.is_infinite _).
  - by apply raises_only_raise.
  - apply raises_only_ok.
Qed.

Lemma num_truediv_float_raises a f :
  Float64.is_zero f = false -> raises_only E (num_truediv a (Float f)).
Proof.
  intros Hf.
  assert (raises_only E
            (x ← to_float a; y ← to_float (Float f);
             if Float64.is_zero y then Raise ZeroDivisionError
             else Ok (Float (Float64.div x y)))) as H.
  { apply raises_only_bind; [apply to_float_raises_in|]. intros x _.
    cbn. rewrite Hf. apply raises_only_ok. }
  by destruct a.
Qed.

Lemma lift2_raises op a b :
  raises_only E a -> raises_only E b ->
  (forall x y, a = Ok x -> b = Ok y -> raises_only E (op x y)) ->
  raises_only E (lift2 op a b).
Proof.
  intros Ha Hb Hop. unfold lift2.
  apply raises_only_bind; [exact Ha|]. intros x Hx.
  apply raises_only_bind; [exact Hb|]. intros y Hy.
  by apply Hop.
Qed.

Lemma round_raises f n : raises_only E (Float64.round f n).
Proof.
  unfold Float64.round. destruct f; try apply raises_only_ok.
  cbv zeta. destruct (Float64.is_infinite _).
  - by apply raises_only_raise.
  - apply raises_only_ok.
Qed.

Lemma num_round_raises a n : raises_only E (num_round a n).
Proof.
  destruct a; [apply raises_only_ok|]. apply raises_only_fmap, round_raises.
Qed.

End Arithmetic.

Lemma str_to_float_raises s : raises_only [ValueError] (Str.to_float s).
Proof.
  unfold Str.to_float.
  destruct (Str.drop_underscores _ _);
    [|apply raises_only_raise; solve_elem].
  destruct (Str.take_sign _) as [sg body].
  destruct (Str.parse_number _ _); [apply raises_only_ok|].
  destruct (Str.parse_inf_nan _ _); [apply raises_only_ok|].
  apply raises_only_raise; solve_elem.
Qed.

Lemma str_to_int_raises s : raises_only [ValueError] (Str.to_int s).
Proof.
  unfold Str.to_int.
  destruct (Str.drop_underscores _ _);
    [|apply raises_only_raise; solve_elem].
  destruct (Str.take_sign _) as [sg body].
  destruct (Str.take_digits _) as [ds r].
  destruct (bool_decide _); [apply raises_only_ok|].
  apply raises_only_raise; solve_elem.
Qed.

Lemma to_Z_raises f :
  raises_only [OverflowError; ValueError] (Float64.to_Z f).
Proof.
  destruct f; cbn; try apply raises_only_ok;
    apply raises_only_raise; solve_elem.
Qed.

Lemma safe_int_raises value default :
  raises_only [OverflowError; ValueError] (safe_int value default).
Proof.
  destruct value as [|z|f|s|]; cbn [safe_int]; try apply raises_only_ok.
  - apply to_Z_raises.
  - apply raises_only_try; [|apply raises_only_ok].
    apply raises_only_bind.
    + eapply raises_only_mono; [|apply str_to_float_raises].
      intros e He. apply list_elem_of_singleton in He as ->. solve_elem.
    + intros f _. eapply raises_only_mono; [|apply to_Z_raises].
      intros e He. do 2 right. exact He.
Qed.

Lemma literal_is_float s : exists f, Str.literal s = Float f.
Proof. unfold Str.literal. destruct (Str.to_float s); eauto. Qed.

Lemma sixty_nonzero :
  exists f, Str.literal "60.0" = Float f /\ Float64.is_zero f = false.
Proof. eexists. split; vm_compute; reflexivity. Qed.

Section HelperErrors.

Variable E : list exn.
Hypothesis overflow : OverflowError ∈ E.
Hypothesis value : ValueError ∈ E.
Hypothesis type : TypeError ∈ E.

Lemma safe_int_raises_in v d : raises_only E (safe_int v d).
Proof.
  eapply raises_only_mono; [|apply safe_int_raises].
  intros e He. repeat (apply elem_of_cons in He as [->|He]; [done|]).
  by apply elem_of_nil in He.
Qed.

Lemma sum_1_for_raises {A} (xs : list A) cond :
  (forall x, raises_only E (cond x)) -> raises_only E (sum_1_for xs cond).
Proof.
  intros Hc. induction xs as [|x xs IH]; cbn [sum_1_for].
  - apply raises_only_ok.
  - apply raises_only_bind; [apply Hc|]. intros b _.
    apply raises_only_bind; [apply IH|]. intros n _. apply raises_only_ok.
Qed.

Lemma all_for_raises {A} (xs : list A) cond :
  (forall x, raises_only E (cond x)) -> raises_only E (all_for xs cond).
Proof.
  intros Hc. induction xs as [|x xs IH]; cbn [all_for].
  - apply raises_only_ok.
  - apply raises_only_bind; [apply Hc|]. intros b _.
    destruct b; [apply IH | apply raises_only_ok].
Qed.

Lemma filter_for_raises {A} (xs : list A) cond :
  (forall x, raises_only E (cond x)) -> raises_only E (filter_for xs cond).
Proof.
  intros Hc. induction xs as [|x xs IH]; cbn [filter_for].
  - apply raises_only_ok.
  - apply raises_only_bind; [apply Hc|]. intros b _.
    apply raises_only_bind; [apply IH|]. intros n _. apply raises_only_ok.
Qed.

Lemma mapM_raises {A B} (f : A -> result B) (xs : list A) :
  (forall x, raises_only E (f x)) -> raises_only E (mapM f xs).
Proof.
  intros Hf. induction xs as [|x xs IH]; cbn [mapM].
  - apply raises_only_ok.
  - apply raises_only_bind; [apply Hf|]. intros b _.
    apply raises_only_bind; [apply IH|]. intros n _. apply raises_only_ok.
Qed.

Lemma at_least_raises stats (test : Z -> bool) cat :
  raises_only E (v ← safe_int (get stats cat (PyInt 0)) 0; Ok (test v)).
Proof.
  apply raises_only_bind; [apply safe_int_raises_in|]. intros v _.
  apply raises_only_ok.
Qed.

Ltac raises_tac :=
  repeat first
    [ apply raises_only_ok
    | apply safe_int_raises_in
    | apply at_least_raises
    | apply sum_1_for_raises; intros ?
    | apply all_for_raises; intros ?
    | apply filter_for_raises; intros ?
    | apply mapM_raises; intros ?
    | apply num_add_raises; assumption
    | apply num_sub_raises; assumption
    | apply num_mul_raises; assumption
    | apply num_round_raises; assumption
    | apply raises_only_raise; assumption
    | apply raises_only_fmap
    | apply lift2_raises; [| |intros ? ? ? ?]
    | apply raises_only_bind; [|intros ? ?] ].

Lemma is_quadruple_double_raises stats t :
  raises_only E (is_quadruple_double stats t).
Proof. unfold is_quadruple_double. raises_tac. Qed.

Lemma is_triple_double_raises stats t :
  raises_only E (is_triple_double stats t).
Proof. unfold is_triple_double. raises_tac. Qed.

Lemma is_double_double_raises stats t :
  raises_only E (is_double_double stats t).
Proof. unfold is_double_double. raises_tac. Qed.

Lemma is_near_triple_double_raises stats t n :
  raises_only E (is_near_triple_double stats t n).
Proof.
  unfold is_near_triple_double. raises_tac. apply raises_only_if; raises_tac.
Qed.

Lemma is_near_double_double_raises stats t n :
  raises_only E (is_near_double_double stats t n).
Proof.
  unfold is_near_double_double. raises_tac. apply raises_only_if; raises_tac.
Qed.

Lemma is_five_by_five_raises stats t : raises_only E (is_five_by_five stats t).
Proof. unfold is_five_by_five. raises_tac. Qed.

Lemma is_all_around_game_raises stats :
  raises_only E (is_all_around_game stats).
Proof.
  unfold is_all_around_game. raises_tac. apply raises_only_if; raises_tac.
Qed.

Lemma get_double_double_categories_raises stats t :
  raises_only E (get_double_double_categories stats t).
Proof. unfold get_double_double_categories. raises_tac. Qed.

Lemma is_perfect_from_three_raises stats n :
  raises_only E (is_perfect_from_three stats n).
Proof. unfold is_perfect_from_three. raises_tac. Qed.

Lemma is_perfect_ft_raises stats n : raises_only E (is_perfect_ft stats n).
Proof. unfold is_perfect_ft. raises_tac. Qed.

Lemma is_perfect_fg_raises stats n : raises_only E (is_perfect_fg stats n).
Proof. unfold is_perfect_fg. raises_tac. Qed.

Lemma is_defensive_monster_raises stats n :
  raises_only E (is_defensive_monster stats n).
Proof. unfold is_defensive_monster. raises_tac. Qed.

(** [fg / fga] behind the guard [fga > 0]. *)
Lemma guarded_ratio_raises fg fga :
  raises_only E (if 0 <? fga then #fg / #fga else #0)%py.
Proof.
  destruct (Z.ltb_spec 0 fga); raises_tac.
  match goal with H : Ok _ = Ok _ |- _ => injection H as <- end.
  match goal with H : Ok _ = Ok _ |- _ => injection H as <- end.
  apply num_truediv_ints_raises; [assumption|lia].
Qed.

Lemma is_hot_shooting_raises stats threshold n :
  raises_only E (is_hot_shooting stats threshold n).
Proof.
  unfold is_hot_shooting.
  do 2 (apply raises_only_bind; [apply safe_int_raises_in | intros ? _]).
  apply raises_only_if; [apply raises_only_ok|].
  apply raises_only_bind; [apply guarded_ratio_raises|].
  intros fg_pct _. apply raises_only_ok.
Qed.

Lemma calculate_game_score_raises stats :
  raises_only E (calculate_game_score stats).
Proof. unfold calculate_game_score, Str.lit. raises_tac. Qed.

(** The denominator of the true shooting percentage is a float; the
    division is skipped when it is zero. *)
Lemma calculate_true_shooting_raises pts fga fta :
  raises_only E (calculate_true_shooting pts fga fta).
Proof.
  unfold calculate_true_shooting, Str.lit.
  destruct (literal_is_float "0.44") as [k ->].
  apply raises_only_bind; [raises_tac|]. intros d Hd.
  assert (exists f, d = Float f) as [f ->].
  { revert Hd. unfold lift2. cbn.
    destruct (float_of_int fta); cbn; [|discriminate].
    destruct (float_of_int fga); cbn; [|discriminate].
    intros [= <-]. eauto. }
  destruct (num_eq (Float f) (Int 0)) eqn:Hz; [apply raises_only_ok|].
  raises_tac.
  match goal with H : Ok (Float f) = Ok _ |- _ => injection H as <- end.
  apply num_truediv_float_raises; [assumption|].
  destruct f; try reflexivity. discriminate Hz.
Qed.

Lemma is_efficient_scoring_raises stats threshold n :
  raises_only E (is_efficient_scoring stats threshold n).
Proof.
  unfold is_efficient_scoring.
  do 3 (apply raises_only_bind; [apply safe_int_raises_in | intros ? _]).
  apply raises_only_if; [apply raises_only_ok|].
  apply raises_only_bind; [apply calculate_true_shooting_raises|].
  intros ts _. apply raises_only_ok.
Qed.

Lemma parse_minutes_raises mp : raises_only E (parse_minutes mp).
Proof.
  unfold parse_minutes, Str.lit. destruct mp as [|z|f|s|]; raises_tac.
  - eapply raises_only_mono; [|apply float_of_int_raises].
    intros e He. by apply list_elem_of_singleton in He as ->.
  - destruct (Str.contains ":" s).
    + apply raises_only_try; [|apply raises_only_ok].
      assert (forall t, raises_only ([ValueError] ++ E) (Str.to_int t)) as Hint.
      { intros t. eapply raises_only_mono; [|apply str_to_int_raises].
        intros e He. apply list_elem_of_singleton in He as ->. by left. }
      apply raises_only_bind; [apply Hint|]. intros minutes _.
      apply raises_only_bind.
      { apply raises_only_if; [apply Hint | apply raises_only_ok]. }
      intros seconds _.
      destruct sixty_nonzero as (f & -> & Hf).
      apply lift2_raises; [apply raises_only_ok| |].
      * apply lift2_raises; [apply raises_only_ok..|].
        intros x y [= <-] [= <-].
        apply num_truediv_float_raises; [by right | exact Hf].
      * intros x y _ _. apply num_add_raises. by right.
    + apply raises_only_try; [|apply raises_only_ok].
      apply raises_only_fmap.
      eapply raises_only_mono; [|apply str_to_float_raises].
      intros e He. apply list_elem_of_singleton in He as ->. by left.
Qed.

Lemma minutes_if_str_raises mp : raises_only E (minutes_if_str mp).
Proof.
  unfold minutes_if_str. destruct (isinstance_str mp).
  - apply raises_only_fmap, parse_minutes_raises.
  - apply raises_only_ok.
Qed.

Lemma py_ge_raises v b : raises_only E (py_ge v b).
Proof. destruct v; raises_tac. Qed.

Lemma is_zero_turnover_game_raises stats min_minutes :
  raises_only E (is_zero_turnover_game stats min_minutes).
Proof.
  unfold is_zero_turnover_game.
  apply raises_only_bind; [apply safe_int_raises_in | intros ? _].
  apply raises_only_bind; [apply minutes_if_str_raises | intros ? _].
  apply raises_only_if; [apply py_ge_raises | apply raises_only_ok].
Qed.

Lemma format_0f_raises v : raises_only E (format_0f v).
Proof.
  destruct v; cbn; raises_tac.
  eapply raises_only_mono; [|apply float_of_int_raises].
  intros e He. by apply list_elem_of_singleton in He as ->.
Qed.

End HelperErrors.

Section EndsLaws.

Context {A B : Type} (E : list exn).

Lemma ends_only_ret (a : A) : ends_only E (mret a : M A).
Proof. intros r. apply raises_only_ok. Qed.

Lemma ends_only_lift (x : result A) : raises_only E x -> ends_only E (lift x).
Proof. intros Hx r. exact Hx. Qed.

Lemma ends_only_bind (m : M A) (k : A -> M B) :
  ends_only E m -> (forall a, ends_only E (k a)) -> ends_only E (m ≫= k).
Proof.
  intros Hm Hk r. rewrite run_bind. specialize (Hm r).
  destruct (m r) as [r1 [a|e]]; cbn in *.
  - apply Hk.
  - intros e' [= <-]. by apply Hm.
Qed.

End EndsLaws.

Lemma ends_only_append E c e : ends_only E (append c e).
Proof. intros r. apply raises_only_ok. Qed.

Lemma ends_only_when E b body : ends_only E body -> ends_only E (when b body).
Proof. destruct b; [done|]. intros _. apply ends_only_ret. Qed.

Lemma ends_only_if {A} E (b : bool) (m1 m2 : M A) :
  ends_only E m1 -> ends_only E m2 -> ends_only E (if b then m1 else m2).
Proof. by destruct b. Qed.

Lemma ends_only_for_each {A} E (xs : list A) body :
  (forall x, ends_only E (body x)) -> ends_only E (for_each xs body).
Proof.
  intros Hb. induction xs as [|x xs IH]; cbn [for_each].
  - apply ends_only_ret.
  - apply ends_only_bind; [apply Hb | intros _; apply IH].
Qed.

Lemma overflow_listed : OverflowError ∈ classification_errors.
Proof. solve_elem. Qed.
Lemma value_listed : ValueError ∈ classification_errors.
Proof. solve_elem. Qed.
Lemma type_listed : TypeError ∈ classification_errors.
Proof. solve_elem. Qed.

(** The field-goal percentage of the detail text, behind [fga > 0]. *)
Lemma fg_pct_raises fg fga :
  raises_only classification_errors
    (if 0 <? fga
     then (r ← (#fg / #fga * #100)%py; num_round r 1)
     else Ok (Int 0)).
Proof.
  destruct (Z.ltb_spec 0 fga); [|apply raises_only_ok].
  apply raises_only_bind.
  - apply lift2_raises; [|apply raises_only_ok|].
    + apply lift2_raises; [apply raises_only_ok..|].
      intros x y [= <-] [= <-].
      apply num_truediv_ints_raises; [apply overflow_listed | lia].
    + intros x y _ _. apply num_mul_raises, overflow_listed.
  - intros r _. apply num_round_raises, overflow_listed.
Qed.

Lemma ts_pct_raises (ts : option num) :
  raises_only classification_errors
    (match ts with
     | Some t =>
         if num_truthy t
         then (r ← (Ok t * #100)%py; num_round r 1)
         else Ok (Int 0)
     | None => Ok (Int 0)
     end).
Proof.
  destruct ts as [t|]; [|apply raises_only_ok].
  destruct (num_truthy t); [|apply raises_only_ok].
  apply raises_only_bind.
  - apply lift2_raises; [apply raises_only_ok..|].
    intros x y _ _. apply num_mul_raises, overflow_listed.
  - intros r _. apply num_round_raises, overflow_listed.
Qed.

Ltac helper_raises :=
  first
    [ apply fg_pct_raises | apply ts_pct_raises
    | (first
         [ apply safe_int_raises_in | apply minutes_if_str_raises
         | apply is_quadruple_double_raises | apply is_triple_double_raises
         | apply is_double_double_raises | apply is_near_triple_double_raises
         | apply is_near_double_double_raises | apply is_five_by_five_raises
         | apply is_all_around_game_raises
         | apply get_double_double_categories_raises
         | apply is_perfect_from_three_raises | apply is_hot_shooting_raises
         | apply is_perfect_ft_raises | apply is_perfect_fg_raises
         | apply is_efficient_scoring_raises
         | apply calculate_true_shooting_raises
         | apply calculate_game_score_raises
         | apply is_defensive_monster_raises
         | apply is_zero_turnover_game_raises | apply format_0f_raises ]);
      first [apply overflow_listed | apply value_listed | apply type_listed] ].

Ltac ends_tac :=
  repeat first
    [ apply ends_only_ret | apply ends_only_append
    | apply ends_only_lift; helper_raises
    | apply ends_only_when | apply ends_only_if
    | apply ends_only_bind; [|intros ?] ].

Lemma ends_only_check_milestones stats base_entry
    pts trb ast stl blk fg3 fg3a fg fga ft fta plus_minus mp :
  ends_only classification_errors
    (check_milestones stats base_entry
       pts trb ast stl blk fg3 fg3a fg fga ft fta plus_minus mp).
Proof. unfold_blocks. ends_tac. Qed.

Lemma ends_only_check_player_milestones
    player team opponent game_id date side :
  ends_only classification_errors
    (_check_player_milestones player team opponent game_id date side).
Proof.
  unfold _check_player_milestones. cbn zeta.
  do 14 (apply ends_only_bind;
           [apply ends_only_lift; helper_raises | intros ?]).
  apply ends_only_check_milestones.
Qed.

Lemma ends_only_process_game game :
  ends_only classification_errors (_process_game game).
Proof.
  unfold _process_game. cbn zeta.
  apply ends_only_bind; [|intros _];
    apply ends_only_for_each; intros player;
    apply ends_only_check_player_milestones.
Qed.

(** X10. Classifying a player ends normally or with [OverflowError],
    [ValueError] or [TypeError], and so does a whole batch: every division
    of the engine and of the helpers it calls is guarded, so no
    [ZeroDivisionError] can come out.  Each of the three exceptions does
    occur for some player record. *)
Theorem classification_exceptions
    (player : Player) (team opponent game_id date side : string)
    (games : list Game) (r : MilestoneResults) :
  raises_only classification_errors
    (snd (_check_player_milestones player team opponent game_id date side r))
  /\ raises_only classification_errors (snd (process_games games r))
  /\ Forall
       (fun e => exists p : Player,
          snd (_check_player_milestones p team opponent game_id date side r)
          = Raise e)
       classification_errors.
Proof.
  split; [apply ends_only_check_player_milestones|].
  split.
  - rewrite run_process_games. cbn [snd].
    pose proof (ends_only_for_each classification_errors games _process_game
                  ends_only_process_game new_MilestoneResults) as H.
    unfold outcome. destruct (snd _) as [[]|e]; [apply raises_only_ok|].
    intros e' [= <-]. by apply H.
  - repeat apply Forall_cons_2; [| | |apply Forall_nil_2].
    + exists {[ "pts" := PyFloat Float64.inf ]}. reflexivity.
    + exists {[ "pts" := PyFloat Float64.nan ]}. reflexivity.
    + exists {[ "mp" := PyNone ]}.
      destruct (appends_check_player_milestones {[ "mp" := PyNone ]}
                  team opponent game_id date side r) as [-> _].
      vm_compute. reflexivity.
Qed.

(* ===================================================================== *)
(** * The other ladders *)
(* ===================================================================== *)

Section BlockAppends.

Variable stats : dict.
Variable base_entry : string -> fstring -> MilestoneEntry.
Variables pts trb ast stl blk fg3 fg3a fg fga ft fta plus_minus : Z.
Variable mp : pyval.

Lemma appends_scoring_milestones : appends (scoring_milestones base_entry pts).
Proof. unfold_blocks. appends_tac. Qed.

Lemma appends_rebounding_milestones :
  appends (rebounding_milestones base_entry trb).
Proof. unfold_blocks. appends_tac. Qed.

Lemma appends_assist_milestones : appends (assist_milestones base_entry ast).
Proof. unfold_blocks. appends_tac. Qed.

Lemma appends_steal_milestones : appends (steal_milestones base_entry stl).
Proof. unfold_blocks. appends_tac. Qed.

Lemma appends_block_milestones : appends (block_milestones base_entry blk).
Proof. unfold_blocks. appends_tac. Qed.

Lemma appends_three_pointer_milestones :
  appends (three_pointer_milestones stats base_entry fg3 fg3a).
Proof. unfold_blocks. appends_tac. Qed.

Lemma appends_efficiency_milestones :
  appends (efficiency_milestones stats base_entry pts fg fga ft fta).
Proof. unfold_blocks. appends_tac. Qed.

Lemma appends_combined_milestones :
  appends (combined_milestones base_entry pts trb ast).
Proof. unfold_blocks. appends_tac. Qed.

Lemma appends_defensive_milestones :
  appends (defensive_milestones stats base_entry stl blk).
Proof. unfold_blocks. appends_tac. Qed.

Lemma appends_clean_games : appends (clean_games stats base_entry mp).
Proof. unfold_blocks. appends_tac. Qed.

Lemma appends_plus_minus_milestones :
  appends (plus_minus_milestones base_entry plus_minus).
Proof. unfold_blocks. appends_tac. Qed.

End BlockAppends.

Ltac appends_block :=
  lazymatch goal with
  | |- appends (multi_category_achievements _ _ _ _ _ _ _) =>
      apply appends_multi_category_achievements
  | |- appends (scoring_milestones _ _) => apply appends_scoring_milestones
  | |- appends (rebounding_milestones _ _) =>
      apply appends_rebounding_milestones
  | |- appends (assist_milestones _ _) => apply appends_assist_milestones
  | |- appends (steal_milestones _ _) => apply appends_steal_milestones
  | |- appends (block_milestones _ _) => apply appends_block_milestones
  | |- appends (three_pointer_milestones _ _ _ _) =>
      apply appends_three_pointer_milestones
  | |- appends (efficiency_milestones _ _ _ _ _ _ _) =>
      apply appends_efficiency_milestones
  | |- appends (combined_milestones _ _ _ _) =>
      apply appends_combined_milestones
  | |- appends (defensive_milestones _ _ _ _) =>
      apply appends_defensive_milestones
  | |- appends (clean_games _ _ _) => apply appends_clean_games
  | |- appends (plus_minus_milestones _ _) =>
      apply appends_plus_minus_milestones
  end.

Ltac appends_blocks :=
  solve [repeat first [appends_block | apply appends_bind; [|intros ?]]].

Lemma outcome_climb ladder v suffix base_entry :
  outcome (climb ladder v suffix base_entry) = Ok tt.
Proof.
  induction ladder as [|[[t c] m] rest IH]; cbn [climb]; [done|].
  by destruct (t <=? v).
Qed.

Lemma added_climb ladder v suffix base_entry c :
  added (climb ladder v suffix base_entry) c
  = match highest_met ladder v with
    | Some (_, c', milestone_type) =>
        if bool_decide (c' = c)
        then [base_entry milestone_type [FInt v; FText suffix]]
        else []
    | None => []
    end.
Proof.
  unfold highest_met.
  induction ladder as [|[[t c'] m] rest IH]; cbn [climb List.find]; [done|].
  destruct (t <=? v); [|exact IH].
  rewrite added_append.
  by destruct (decide (c' = c)) as [->|Hne];
    [rewrite bool_decide_eq_true_2|rewrite bool_decide_eq_false_2].
Qed.

Lemma appends_climb ladder v suffix base_entry :
  appends (climb ladder v suffix base_entry).
Proof.
  induction ladder as [|[[t c] m] rest IH]; cbn [climb].
  - apply appends_ret.
  - apply appends_if; [apply appends_append | exact IH].
Qed.

(** On a descending ladder the first rung met is the highest one met. *)
Lemma highest_met_descending ladder v t c m :
  descending ladder = true ->
  highest_met ladder v = Some (t, c, m) ->
  (t, c, m) ∈ ladder /\ t <= v
  /\ forall t' c' m', (t', c', m') ∈ ladder -> t' <= v -> t' <= t.
Proof.
  unfold highest_met.
  induction ladder as [|[[t0 c0] m0] rest IH]; [done|].
  intros Hd. cbn [List.find].
  assert (Hrest : descending rest = true /\
            forall t' c' m', (t', c', m') ∈ rest -> t' < t0).
  { clear IH. revert t0 c0 m0 Hd.
    induction rest as [|[[t1 c1] m1] rest IH]; intros t0 c0 m0 Hd.
    - split; [done|]. intros ??? H. by apply elem_of_nil in H.
    - cbn [descending] in Hd. apply andb_prop in Hd as [Hlt Hd].
      apply Z.ltb_lt in Hlt. split; [exact Hd|].
      intros t' c' m' H. apply elem_of_cons in H as [[= -> -> ->]|H]; [lia|].
      destruct (IH t1 c1 m1 Hd) as [_ Hlow].
      specialize (Hlow _ _ _ H). lia. }
  destruct Hrest as [Hd' Hlow].
  destruct (Z.leb_spec t0 v) as [Hle|Hgt].
  - intros [= -> -> ->]. split; [by left|]. split; [exact Hle|].
    intros t' c' m' H _. apply elem_of_cons in H as [[= -> -> ->]|H]; [lia|].
    specialize (Hlow _ _ _ H). lia.
  - intros Hfind. destruct (IH Hd' Hfind) as (Hin & Hle & Hmax).
    split; [by right|]. split; [exact Hle|].
    intros t' c' m' H Ht'. apply elem_of_cons in H as [[= -> -> ->]|H]; [lia|].
    by apply (Hmax _ c' m').
Qed.

Lemma added_seq_l (m1 m2 : M unit) c :
  appends m2 -> skips c m2 -> added (m1;; m2) c = added m1 c.
Proof.
  intros Ha Hs. rewrite added_bind by (intros _; exact Ha).
  rewrite (added_skips c m2 Hs). destruct (outcome m1); apply app_nil_r.
Qed.

Lemma added_seq_r (m1 m2 : M unit) c :
  appends m2 -> skips c m1 -> outcome m1 = Ok tt ->
  added (m1;; m2) c = added m2 c.
Proof.
  intros Ha Hs Ho. rewrite added_bind by (intros _; exact Ha).
  by rewrite (added_skips c m1 Hs), Ho.
Qed.

(** One case for each category of a list. *)
Ltac each_listed Hc tac :=
  repeat (apply elem_of_cons in Hc as [->|Hc]; [tac|]);
  by apply elem_of_nil in Hc.

Section Ladders.

Variables pts trb ast stl blk fg3 fg3a fg fga ft fta tov plus_minus : Z.
Variable mp : pyval.
Variable base_entry : string -> fstring -> MilestoneEntry.

Let stats : dict :=
  mk_stats pts trb ast stl blk fg3 fg3a fg fga ft fta tov plus_minus mp.
Let check : M unit :=
  check_milestones stats base_entry
    pts trb ast stl blk fg3 fg3a fg fga ft fta plus_minus mp.

Lemma outcome_scoring_milestones :
  outcome (scoring_milestones base_entry pts) = Ok tt.
Proof. apply (outcome_climb scoring_ladder pts " points"). Qed.

Lemma outcome_rebounding_milestones :
  outcome (rebounding_milestones base_entry trb) = Ok tt.
Proof. apply (outcome_climb rebounding_ladder trb " rebounds"). Qed.

Lemma outcome_assist_milestones :
  outcome (assist_milestones base_entry ast) = Ok tt.
Proof. apply (outcome_climb assist_ladder ast " assists"). Qed.

Lemma outcome_steal_milestones :
  outcome (steal_milestones base_entry stl) = Ok tt.
Proof. apply (outcome_climb steal_ladder stl " steals"). Qed.

Lemma outcome_block_milestones :
  outcome (block_milestones base_entry blk) = Ok tt.
Proof. apply (outcome_climb block_ladder blk " blocks"). Qed.

Lemma three_pointer_milestones_climb :
  three_pointer_milestones stats base_entry fg3 fg3a
  = (climb three_pointer_ladder fg3 " three-pointers" base_entry;;
     when ((4 <=? fg3a) && (fg3 =? fg3a))
       (append perfect_from_three (base_entry "perfect_from_three"
          [FInt fg3; FText "/"; FInt fg3a; FText " from three (100%)"]))).
Proof. reflexivity. Qed.

Lemma outcome_three_pointer_milestones :
  outcome (three_pointer_milestones stats base_entry fg3 fg3a) = Ok tt.
Proof.
  rewrite three_pointer_milestones_climb.
  rewrite outcome_bind by (intros _; appends_tac).
  rewrite outcome_climb. cbn. apply outcome_when_append.
Qed.

(** Pass the blocks that skip [c] and end normally, then drop what follows
    the block of [c]. *)
Ltac pass_blocks :=
  repeat (rewrite added_seq_r;
            [|appends_blocks|skips_block
             |first [ apply outcome_multi_coerced
                    | apply outcome_scoring_milestones
                    | apply outcome_rebounding_milestones
                    | apply outcome_assist_milestones
                    | apply outcome_steal_milestones
                    | apply outcome_block_milestones ]]);
  rewrite added_seq_l; [|appends_blocks|skips_blocks].

Lemma added_check_rebounding c :
  c ∈ rebounding_categories ->
  added check c = added (climb rebounding_ladder trb " rebounds" base_entry) c.
Proof.
  intros Hc. subst check. unfold check_milestones.
  each_listed Hc ltac:(pass_blocks; reflexivity).
Qed.

Lemma added_check_assist c :
  c ∈ assist_categories ->
  added check c = added (climb assist_ladder ast " assists" base_entry) c.
Proof.
  intros Hc. subst check. unfold check_milestones.
  each_listed Hc ltac:(pass_blocks; reflexivity).
Qed.

Lemma added_check_steal c :
  c ∈ steal_categories ->
  added check c = added (climb steal_ladder stl " steals" base_entry) c.
Proof.
  intros Hc. subst check. unfold check_milestones.
  each_listed Hc ltac:(pass_blocks; reflexivity).
Qed.

Lemma added_check_block c :
  c ∈ block_categories ->
  added check c = added (climb block_ladder blk " blocks" base_entry) c.
Proof.
  intros Hc. subst check. unfold check_milestones.
  each_listed Hc ltac:(pass_blocks; reflexivity).
Qed.

Lemma added_check_three_pointer c :
  c ∈ three_pointer_categories ->
  added check c
  = added (three_pointer_milestones stats base_entry fg3 fg3a) c.
Proof.
  intros Hc. subst check. unfold check_milestones.
  each_listed Hc ltac:(pass_blocks; reflexivity).
Qed.

Lemma added_three_pointer_ladder c :
  c ∈ three_pointer_ladder.*1.*2 ->
  added (three_pointer_milestones stats base_entry fg3 fg3a) c
  = added (climb three_pointer_ladder fg3 " three-pointers" base_entry) c.
Proof.
  intros Hc. rewrite three_pointer_milestones_climb. cbn in Hc.
  each_listed Hc ltac:(
    apply added_seq_l; [appends_tac | apply skips_when, skips_append; done]).
Qed.

Lemma added_check_ladder ladder v suffix c :
  (ladder, v, suffix) ∈ stat_ladders trb ast stl blk fg3 ->
  c ∈ ladder.*1.*2 ->
  added check c = added (climb ladder v suffix base_entry) c.
Proof.
  intros Hl Hc. unfold stat_ladders in Hl.
  repeat (apply elem_of_cons in Hl as [[= -> -> ->]|Hl]).
  - by apply added_check_rebounding.
  - by apply added_check_assist.
  - by apply added_check_steal.
  - by apply added_check_block.
  - rewrite added_check_three_pointer.
    + by apply added_three_pointer_ladder.
    + cbn in Hc. unfold three_pointer_categories.
      repeat (apply elem_of_cons in Hc as [->|Hc]; [solve_elem|]).
      by apply elem_of_nil in Hc.
  - by apply elem_of_nil in Hl.
Qed.

End Ladders.

(** X11. Rebounds, assists, steals, blocks and three-pointers made each
    have a ladder of thresholds like the one of points: for a player-game
    whose stats are coerced, the category of the highest threshold the
    stat reaches gets exactly one new entry, whose detail gives the stat,
    and every other category of the ladder is left as it was. *)
Theorem stat_ladders_exclusive
    (player : Player) (team opponent game_id date side : string)
    (r : MilestoneResults)
    (pts trb ast stl blk fg3 fg3a fg fga ft fta tov plus_minus : Z)
    (mp : pyval)
    (ladder : list (Z * category * string)) (v : Z) (suffix : string)
    (c : category) :
  coerced player pts trb ast stl blk fg3 fg3a fg fga ft fta tov plus_minus mp ->
  (ladder, v, suffix) ∈ stat_ladders trb ast stl blk fg3 ->
  c ∈ ladder.*1.*2 ->
  let stats :=
    mk_stats pts trb ast stl blk fg3 fg3a fg fga ft fta tov plus_minus mp in
  let base_entry :=
    base_entry_of player team opponent game_id date side stats in
  fst (_check_player_milestones player team opponent game_id date side r) c
  = r c ++ match highest_met ladder v with
           | Some (_, c', milestone_type) =>
               if bool_decide (c' = c)
               then [base_entry milestone_type [FInt v; FText suffix]]
               else []
           | None => []
           end
  /\ forall t c' milestone_type,
       highest_met ladder v = Some (t, c', milestone_type) ->
       t <= v
       /\ forall t' c'' m', (t', c'', m') ∈ ladder -> t' <= v -> t' <= t.
Proof.
  intros Hco Hl Hc. cbn zeta. split.
  - destruct (appends_check_player_milestones player team opponent game_id
                date side r) as [_ ->].
    f_equal.
    rewrite (check_player_coerced _ _ _ _ _ _ _ _ _ _ _ _ _ _ _ _ _ _ _ _ Hco).
    rewrite <- added_climb. by apply added_check_ladder.
  - intros t c' m Hmet.
    assert (descending ladder = true) as Hd.
    { unfold stat_ladders in Hl.
      repeat (apply elem_of_cons in Hl as [[= -> -> ->]|Hl]; [reflexivity|]).
      by apply elem_of_nil in Hl. }
    destruct (highest_met_descending _ _ _ _ _ Hd Hmet) as (_ & Hle & Hmax).
    split; [exact Hle | exact Hmax].
Qed.

Section NearDoubleDouble.

Variables pts trb ast stl blk fg3 fg3a fg fga ft fta tov plus_minus : Z.
Variable mp : pyval.
Variable base_entry : string -> fstring -> MilestoneEntry.

Let stats : dict :=
  mk_stats pts trb ast stl blk fg3 fg3a fg fga ft fta tov plus_minus mp.
Let five : list Z := [pts; trb; ast; stl; blk].

Lemma added_multi_near_double_doubles_entry :
  added (multi_category_achievements stats base_entry pts trb ast stl blk)
    near_double_doubles =
    if (if 2 <=? count_if (Z.leb 10) five then false
        else (count_if (Z.leb 10) five =? 1)
             && (1 <=? count_if (fun v => (8 <=? v) && (v <? 10)) five))
    then [base_entry "near_double_double" [FText "Near double-double"]]
    else [].
Proof. subst stats five. rewrite multi_coerced. by destruct_whens. Qed.

End NearDoubleDouble.

(** X12. On a coerced stat record [is_near_double_double] is true exactly
    when one of the five categories is at 10 or more and at least one is 8
    or 9; with two or more at 10 (a double-double) it is false.  The engine
    appends to [near_double_doubles] under the same condition. *)
Theorem near_double_double_rule
    (player : Player) (team opponent game_id date side : string)
    (r : MilestoneResults)
    (pts trb ast stl blk fg3 fg3a fg fga ft fta tov plus_minus : Z)
    (mp : pyval) :
  coerced player pts trb ast stl blk fg3 fg3a fg fga ft fta tov plus_minus mp ->
  let stats :=
    mk_stats pts trb ast stl blk fg3 fg3a fg fga ft fta tov plus_minus mp in
  let base_entry :=
    base_entry_of player team opponent game_id date side stats in
  let five := [pts; trb; ast; stl; blk] in
  let at_threshold := count_if (Z.leb 10) five in
  let near := count_if (fun v => (8 <=? v) && (v <? 10)) five in
  is_near_double_double stats 10 8
    = Ok (bool_decide (at_threshold = 1 /\ 1 <= near))
  /\ (is_near_double_double stats 10 8 = Ok true ->
      is_double_double stats 10 = Ok false)
  /\ fst (_check_player_milestones player team opponent game_id date side r)
       near_double_doubles
     = r near_double_doubles
       ++ (if bool_decide (at_threshold = 1 /\ 1 <= near)
           then [base_entry "near_double_double" [FText "Near double-double"]]
           else []).
Proof.
  intros Hco. cbn zeta.
  set (n := count_if (Z.leb 10) [pts; trb; ast; stl; blk]).
  set (m := count_if (fun v => (8 <=? v) && (v <? 10))
              [pts; trb; ast; stl; blk]).
  assert (Hb : (if 2 <=? n then false else (n =? 1) && (1 <=? m))
               = bool_decide (n = 1 /\ 1 <= m)).
  { clearbody n m.
    destruct (Z.leb_spec 2 n), (Z.eqb_spec n 1), (Z.leb_spec 1 m);
      cbn; case_bool_decide; try done; exfalso; lia. }
  split; [|split].
  - rewrite is_near_double_double_coerced. fold n m. by rewrite Hb.
  - rewrite is_near_double_double_coerced, is_double_double_coerced.
    fold n m. by destruct (2 <=? n).
  - rewrite (check_player_multi _ _ _ _ _ _ _ _ _ _ _ _ _ _ _ _ _ _ _ _ Hco)
      by solve_elem.
    rewrite added_multi_near_double_doubles_entry. fold n m. by rewrite Hb.
Qed.

(* ===================================================================== *)
(** * Categories that go together *)
(* ===================================================================== *)

Lemma added_seq_skips (m1 m2 : M unit) c :
  appends m2 -> skips c m1 ->
  added (m1;; m2) c
  = match outcome m1 with Ok _ => added m2 c | Raise _ => [] end.
Proof.
  intros Ha Hs. rewrite added_bind by (intros _; exact Ha).
  by rewrite (added_skips c m1 Hs).
Qed.

Lemma added_lift_raise {A B} e (k : A -> M B) c :
  added (lift (Raise e) ≫= k) c = [].
Proof. reflexivity. Qed.

(** Either the stat extraction succeeds or the player-game adds nothing. *)
Lemma check_player_cases player team opponent game_id date side :
  (exists pts trb ast stl blk fg3 fg3a fg fga ft fta tov plus_minus mp,
     coerced player pts trb ast stl blk fg3 fg3a fg fga ft fta tov
       plus_minus mp)
  \/ forall c,
       added (_check_player_milestones player team opponent game_id date
                side) c = [].
Proof.
  unfold coerced, _check_player_milestones. cbn zeta.
  destruct (safe_int (get player "pts" _) 0); [|by right].
  destruct (safe_int (get player "trb" _) 0); [|by right].
  destruct (safe_int (get player "ast" _) 0); [|by right].
  destruct (safe_int (get player "stl" _) 0); [|by right].
  destruct (safe_int (get player "blk" _) 0); [|by right].
  destruct (safe_int (get player "fg3" _) 0); [|by right].
  destruct (safe_int (get player "fg3a" _) 0); [|by right].
  destruct (safe_int (get player "fg" _) 0); [|by right].
  destruct (safe_int (get player "fga" _) 0); [|by right].
  destruct (safe_int (get player "ft" _) 0); [|by right].
  destruct (safe_int (get player "fta" _) 0); [|by right].
  destruct (safe_int (get player "tov" _) 0); [|by right].
  destruct (safe_int (get player "plus_minus" _) 0); [|by right].
  destruct (minutes_if_str _); [|by right].
  left. by repeat eexists.
Qed.

(** The shape of the combined block, whatever its conditions are. *)
Lemma added_chain_whens (b1 b2 b3 b4 b5 b6 : bool)
    (e1 e2 e3 e4 e5 e6 : MilestoneEntry) :
  let m : M unit :=
    (if b1 then append thirty_ten_games e1
     else if b2 then append twenty_five_ten_games e2
     else if b3 then append twenty_ten_games e3
     else mret tt);;
    when b4 (append twenty_ten_five_games e4);;
    when b5 (append twenty_twenty_games e5);;
    when b6 (append points_assists_double_double e6) in
  outcome m = Ok tt
  /\ added m thirty_ten_games = (if b1 then [e1] else [])
  /\ added m twenty_five_ten_games = (if negb b1 && b2 then [e2] else [])
  /\ added m twenty_ten_games
     = (if negb b1 && negb b2 && b3 then [e3] else [])
  /\ added m twenty_ten_five_games = (if b4 then [e4] else [])
  /\ added m twenty_twenty_games = (if b5 then [e5] else [])
  /\ added m points_assists_double_double = (if b6 then [e6] else []).
Proof. by destruct b1, b2, b3, b4, b5, b6. Qed.

Lemma nonempty_if {A} (b : bool) (x : A) :
  (if b then [x] else []) <> [] <-> b = true.
Proof. by destruct b. Qed.

Lemma outcome_combined_milestones base_entry pts trb ast :
  outcome (combined_milestones base_entry pts trb ast) = Ok tt.
Proof. apply added_chain_whens. Qed.

Lemma combined_conditions base_entry pts trb ast :
  let m := combined_milestones base_entry pts trb ast in
  (added m thirty_ten_games <> [] <-> 30 <= pts /\ (10 <= trb \/ 10 <= ast))
  /\ (added m twenty_five_ten_games <> []
      <-> 25 <= pts < 30 /\ (10 <= trb \/ 10 <= ast))
  /\ (added m twenty_ten_games <> []
      <-> 20 <= pts < 25 /\ (10 <= trb \/ 10 <= ast))
  /\ (added m twenty_ten_five_games <> []
      <-> 20 <= pts /\ 10 <= trb /\ 5 <= ast)
  /\ (added m twenty_twenty_games <> [] <-> 20 <= pts /\ 20 <= trb)
  /\ (added m points_assists_double_double <> []
      <-> 10 <= pts /\ 10 <= ast /\ trb < 10).
Proof.
  unfold combined_milestones.
  lazymatch goal with
  | |- context [((if ?b1 then append _ ?e1
                  else if ?b2 then append _ ?e2
                  else if ?b3 then append _ ?e3 else _);;
                 when ?b4 (append _ ?e4);;
                 when ?b5 (append _ ?e5);;
                 when ?b6 (append _ ?e6))] =>
      destruct (added_chain_whens b1 b2 b3 b4 b5 b6 e1 e2 e3 e4 e5 e6)
        as (_ & -> & -> & -> & -> & -> & ->)
  end.
  cbv zeta. rewrite !nonempty_if.
  rewrite ?andb_true_iff, ?orb_true_iff, ?negb_true_iff, ?andb_false_iff,
    ?Z.leb_le, ?Z.ltb_lt, ?Z.leb_gt.
  lia.
Qed.

Section Related.

Variables pts trb ast stl blk fg3 fg3a fg fga ft fta tov plus_minus : Z.
Variable mp : pyval.
Variable base_entry : string -> fstring -> MilestoneEntry.

Let stats : dict :=
  mk_stats pts trb ast stl blk fg3 fg3a fg fga ft fta tov plus_minus mp.
Let check : M unit :=
  check_milestones stats base_entry
    pts trb ast stl blk fg3 fg3a fg fga ft fta plus_minus mp.
Let efficiency : M unit :=
  efficiency_milestones stats base_entry pts fg fga ft fta.
Let clean : M unit := clean_games stats base_entry mp.

Lemma outcome_defensive_milestones :
  outcome (defensive_milestones stats base_entry stl blk) = Ok tt.
Proof.
  unfold defensive_milestones.
  change (is_defensive_monster stats 7)
    with (Ok (7 <=? stl + blk) : result bool).
  rewrite lift_ok_bind. apply outcome_when_append.
Qed.

Lemma added_defensive_milestones :
  added (defensive_milestones stats base_entry stl blk)
    defensive_monster_games <> [] ->
  7 <= stl + blk.
Proof.
  unfold defensive_milestones.
  change (is_defensive_monster stats 7)
    with (Ok (7 <=? stl + blk) : result bool).
  rewrite lift_ok_bind. destruct (Z.leb_spec 7 (stl + blk)); done.
Qed.

(** The first seven blocks end normally on coerced stats. *)
Ltac pass_pure_blocks :=
  repeat (rewrite added_seq_r;
            [|appends_blocks|skips_block
             |first [ apply outcome_multi_coerced
                    | apply outcome_scoring_milestones
                    | apply outcome_rebounding_milestones
                    | apply outcome_assist_milestones
                    | apply outcome_steal_milestones
                    | apply outcome_block_milestones
                    | apply outcome_three_pointer_milestones
                    | apply outcome_combined_milestones
                    | apply outcome_defensive_milestones ]]).

Lemma added_check_combined c :
  c ∈ combined_categories ->
  added check c
  = if is_ok (outcome efficiency)
    then added (combined_milestones base_entry pts trb ast) c else [].
Proof.
  intros Hc. subst check efficiency. unfold check_milestones.
  each_listed Hc ltac:(
    pass_pure_blocks;
    rewrite added_seq_skips; [|appends_blocks|skips_block];
    destruct (outcome (efficiency_milestones _ _ _ _ _ _ _));
      [|reflexivity];
    rewrite added_seq_l; [reflexivity|appends_blocks|skips_blocks]).
Qed.

Lemma added_check_defensive :
  added check defensive_monster_games
  = if is_ok (outcome efficiency)
    then added (defensive_milestones stats base_entry stl blk)
           defensive_monster_games
    else [].
Proof.
  subst check efficiency. unfold check_milestones.
  pass_pure_blocks.
  rewrite added_seq_skips; [|appends_blocks|skips_block].
  destruct (outcome (efficiency_milestones _ _ _ _ _ _ _)); [|reflexivity].
  pass_pure_blocks.
  rewrite added_seq_l; [reflexivity|appends_blocks|skips_blocks].
Qed.

Lemma added_check_plus_minus c :
  c ∈ plus_minus_categories ->
  added check c
  = if is_ok (outcome efficiency) && is_ok (outcome clean)
    then added (plus_minus_milestones base_entry plus_minus) c else [].
Proof.
  intros Hc. subst check efficiency clean. unfold check_milestones.
  each_listed Hc ltac:(
    pass_pure_blocks;
    rewrite added_seq_skips; [|appends_blocks|skips_block];
    destruct (outcome (efficiency_milestones _ _ _ _ _ _ _));
      [|reflexivity];
    pass_pure_blocks;
    rewrite added_seq_skips; [|appends_blocks|skips_block];
    destruct (outcome (clean_games _ _ _)); reflexivity).
Qed.

Lemma added_multi_near_double_doubles :
  added (multi_category_achievements stats base_entry pts trb ast stl blk)
    near_double_doubles <> [] ->
  (2 <=? count_if (Z.leb 10) [pts; trb; ast; stl; blk]) = false.
Proof.
  subst stats. rewrite multi_coerced.
  destruct (2 <=? count_if (Z.leb 10) [pts; trb; ast; stl; blk]);
    [|done].
  by destruct_whens.
Qed.

End Related.

Lemma added_plus_minus_milestones base_entry plus_minus :
  let m := plus_minus_milestones base_entry plus_minus in
  (added m plus_25_games <> [] -> 25 <= plus_minus)
  /\ (added m plus_20_games <> [] -> 20 <= plus_minus < 25)
  /\ (added m minus_25_games <> [] -> plus_minus <= -25).
Proof.
  unfold plus_minus_milestones.
  destruct (Z.leb_spec 25 plus_minus), (Z.leb_spec 20 plus_minus),
    (Z.leb_spec plus_minus (-25)); try (exfalso; lia);
    repeat split; cbv; try done; lia.
Qed.

(** A stat at or above the lowest rung gets an entry in its ladder. *)
Lemma climb_present ladder v suffix base_entry t c m :
  (t, c, m) ∈ ladder -> t <= v ->
  exists c', c' ∈ ladder.*1.*2
             /\ added (climb ladder v suffix base_entry) c' <> [].
Proof.
  induction ladder as [|[[t0 c0] m0] rest IH]; intros Hin Ht.
  - by apply elem_of_nil in Hin.
  - cbn [climb]. destruct (Z.leb_spec t0 v) as [Hle|Hgt].
    + exists c0. split; [by left|]. rewrite added_append.
      by rewrite decide_True.
    + apply elem_of_cons in Hin as [[= -> -> ->]|Hin]; [lia|].
      destruct (IH Hin Ht) as (c' & Hc' & Hne).
      exists c'. split; [by right | exact Hne].
Qed.

(** Below the lowest rung a ladder adds nothing. *)
Lemma climb_absent ladder v suffix base_entry c :
  (forall t c' m, (t, c', m) ∈ ladder -> v < t) ->
  added (climb ladder v suffix base_entry) c = [].
Proof.
  induction ladder as [|[[t0 c0] m0] rest IH]; intros Hlow; [done|].
  cbn [climb]. destruct (Z.leb_spec t0 v) as [Hle|Hgt].
  - specialize (Hlow t0 c0 m0 (list_elem_of_here _ _)). lia.
  - apply IH. intros t c' m H. apply (Hlow t c' m). by right.
Qed.

Section RelatedCoerced.

Variable player : Player.
Variables team opponent game_id date side : string.
Variables pts trb ast stl blk fg3 fg3a fg fga ft fta tov plus_minus : Z.
Variable mp : pyval.

Hypothesis Hcoerced :
  coerced player pts trb ast stl blk fg3 fg3a fg fga ft fta tov plus_minus mp.

Let stats : dict :=
  mk_stats pts trb ast stl blk fg3 fg3a fg fga ft fta tov plus_minus mp.
Let base_entry : string -> fstring -> MilestoneEntry :=
  base_entry_of player team opponent game_id date side stats.
Let has (c : category) : Prop :=
  added (_check_player_milestones player team opponent game_id date side) c
  <> [].

Lemma has_check c :
  has c
  <-> added (check_milestones stats base_entry
               pts trb ast stl blk fg3 fg3a fg fga ft fta plus_minus mp) c
      <> [].
Proof.
  subst has. cbv beta.
  by rewrite (check_player_coerced _ _ _ _ _ _ _ _ _ _ _ _ _ _ _ _ _ _ _ _
                Hcoerced).
Qed.

Lemma has_combined c :
  c ∈ combined_categories ->
  has c
  <-> is_ok (outcome (efficiency_milestones stats base_entry
                        pts fg fga ft fta)) = true
      /\ added (combined_milestones base_entry pts trb ast) c <> [].
Proof.
  intros Hc. rewrite has_check. subst base_entry stats.
  rewrite added_check_combined by done.
  destruct (is_ok _); [|split; [done|by intros [? _]]].
  split; [by split|by intros [_ ?]].
Qed.

Lemma has_double_doubles :
  10 <= pts -> 10 <= trb \/ 10 <= ast -> has double_doubles.
Proof.
  intros Hp Hta. rewrite has_check. subst base_entry stats.
  rewrite added_check_milestones_multi by (unfold multi_categories; solve_elem).
  rewrite added_multi_double_doubles.
  assert (2 <= count_if (Z.leb 10) [pts; trb; ast; stl; blk]) as Hn.
  { cbn [count_if fold_right].
    destruct (Z.leb_spec 10 pts), (Z.leb_spec 10 trb), (Z.leb_spec 10 ast),
      (10 <=? stl), (10 <=? blk); lia. }
  apply Z.leb_le in Hn. by rewrite Hn.
Qed.

Lemma has_ladder ladder v suffix c :
  (ladder, v, suffix) ∈ stat_ladders trb ast stl blk fg3 ->
  c ∈ ladder.*1.*2 ->
  has c <-> added (climb ladder v suffix base_entry) c <> [].
Proof.
  intros Hl Hc. rewrite has_check. subst base_entry stats.
  by rewrite (added_check_ladder _ _ _ _ _ _ _ _ _ _ _ _ _ _ _ _ _ _ _ Hl Hc).
Qed.

Lemma has_defensive :
  has defensive_monster_games -> 7 <= stl + blk.
Proof.
  rewrite has_check. subst base_entry stats.
  rewrite added_check_defensive.
  destruct (is_ok _); [|done]. apply added_defensive_milestones.
Qed.

Lemma has_plus_minus c :
  c ∈ plus_minus_categories -> has c ->
  added (plus_minus_milestones base_entry plus_minus) c <> [].
Proof.
  intros Hc. rewrite has_check. subst base_entry stats.
  rewrite added_check_plus_minus by done.
  by destruct (_ && _).
Qed.

Lemma has_near_double_doubles :
  has near_double_doubles -> ~ has double_doubles.
Proof.
  rewrite !has_check. subst base_entry stats.
  rewrite !added_check_milestones_multi
    by (unfold multi_categories; solve_elem).
  intros Hnear. apply added_multi_near_double_doubles in Hnear.
  rewrite added_multi_double_doubles, Hnear. by intros [].
Qed.

Lemma related_coerced :
  (forall c, c ∈ combined_categories -> has c -> has double_doubles)
  /\ (has twenty_ten_five_games \/ has twenty_twenty_games ->
      has thirty_ten_games \/ has twenty_five_ten_games
      \/ has twenty_ten_games)
  /\ (has points_assists_double_double ->
      (exists c, c ∈ assist_categories /\ has c)
      /\ forall c, c ∈ rebounding_categories -> ~ has c)
  /\ (has defensive_monster_games ->
      exists c, c ∈ steal_categories ++ block_categories /\ has c)
  /\ (has plus_25_games -> ~ has plus_20_games /\ ~ has minus_25_games)
  /\ (has plus_20_games -> ~ has minus_25_games)
  /\ (has near_double_doubles -> ~ has double_doubles).
Proof.
  destruct (combined_conditions base_entry pts trb ast)
    as (H30 & H25 & H20 & H2105 & H2020 & Hpa).
  cbv zeta in *.
  destruct (added_plus_minus_milestones base_entry plus_minus)
    as (Hp25 & Hp20 & Hm25).
  cbv zeta in *.
  assert (Hin : forall c : category, c ∈ combined_categories ->
                  c ∈ combined_categories) by done.
  split; [|split; [|split; [|split; [|split; [|split]]]]].
  - intros c Hc Hhas. apply (has_combined c Hc) in Hhas as [_ Hhas].
    assert (10 <= pts /\ (10 <= trb \/ 10 <= ast)) as [? ?];
      [|by apply has_double_doubles].
    unfold combined_categories in Hc.
    repeat (apply elem_of_cons in Hc as [->|Hc]).
    + apply (proj1 H30) in Hhas. lia.
    + apply (proj1 H25) in Hhas. lia.
    + apply (proj1 H20) in Hhas. lia.
    + apply (proj1 H2105) in Hhas. lia.
    + apply (proj1 H2020) in Hhas. lia.
    + apply (proj1 Hpa) in Hhas. lia.
    + by apply elem_of_nil in Hc.
  - intros Hhas.
    assert (is_ok (outcome (efficiency_milestones stats base_entry
                              pts fg fga ft fta)) = true
            /\ 20 <= pts /\ 10 <= trb) as (Hok & Hp & Ht).
    { destruct Hhas as [Hhas|Hhas];
        apply has_combined in Hhas as [Hok Hhas];
        [|unfold combined_categories; solve_elem
         | |unfold combined_categories; solve_elem].
      - apply (proj1 H2105) in Hhas. split; [exact Hok|lia].
      - apply (proj1 H2020) in Hhas. split; [exact Hok|lia]. }
    rewrite (has_combined thirty_ten_games),
      (has_combined twenty_five_ten_games),
      (has_combined twenty_ten_games)
      by (unfold combined_categories; solve_elem).
    destruct (Z.leb_spec 30 pts);
      [left; split; [exact Hok|apply H30; lia]|].
    destruct (Z.leb_spec 25 pts);
      [right; left; split; [exact Hok|apply H25; lia]|].
    right; right. split; [exact Hok|apply H20; lia].
  - intros Hhas.
    apply has_combined in Hhas as [_ Hhas];
      [|unfold combined_categories; solve_elem].
    apply (proj1 Hpa) in Hhas. split.
    + destruct (climb_present assist_ladder ast " assists" base_entry
                  10 ten_assist_games "ten_assist_game")
        as (c & Hc & Hne); [unfold assist_ladder; solve_elem|lia|].
      exists c. split; [exact Hc|].
      apply (has_ladder assist_ladder ast " assists");
        [unfold stat_ladders; solve_elem | exact Hc | exact Hne].
    + intros c Hc.
      rewrite (has_ladder rebounding_ladder trb " rebounds");
        [|unfold stat_ladders; solve_elem | exact Hc].
      rewrite climb_absent; [by intros []|].
      intros t c' m Hl. unfold rebounding_ladder in Hl.
      repeat (apply elem_of_cons in Hl as [[= -> -> ->]|Hl]; [lia|]).
      by apply elem_of_nil in Hl.
  - intros Hhas. apply has_defensive in Hhas.
    destruct (Z.leb_spec 4 stl) as [Hs|Hs].
    + destruct (climb_present steal_ladder stl " steals" base_entry
                  4 four_steal_games "four_steal_game")
        as (c & Hc & Hne); [unfold steal_ladder; solve_elem|lia|].
      exists c. split; [apply elem_of_app; by left|].
      apply (has_ladder steal_ladder stl " steals");
        [unfold stat_ladders; solve_elem | exact Hc | exact Hne].
    + destruct (climb_present block_ladder blk " blocks" base_entry
                  4 four_block_games "four_block_game")
        as (c & Hc & Hne); [unfold block_ladder; solve_elem|lia|].
      exists c. split; [apply elem_of_app; by right|].
      apply (has_ladder block_ladder blk " blocks");
        [unfold stat_ladders; solve_elem | exact Hc | exact Hne].
  - intros Hhas.
    apply has_plus_minus, Hp25 in Hhas;
      [|unfold plus_minus_categories; solve_elem].
    split; intros Hhas';
      (apply has_plus_minus in Hhas';
         [|unfold plus_minus_categories; solve_elem]);
      [apply Hp20 in Hhas' | apply Hm25 in Hhas']; lia.
  - intros Hhas Hhas'.
    apply has_plus_minus, Hp20 in Hhas;
      [|unfold plus_minus_categories; solve_elem].
    apply has_plus_minus, Hm25 in Hhas';
      [|unfold plus_minus_categories; solve_elem].
    lia.
  - apply has_near_double_doubles.
Qed.

End RelatedCoerced.

(** X13. Categories of one player-game go together, whatever the record
    holds: an entry in a combined category (30-10, 25-10, 20-10, 20-10-5,
    20-20, points-assists double-double) comes with a double-double entry;
    a 20-10-5 or a 20-20 entry comes with a 30-10, 25-10 or 20-10 entry; a
    points-assists double-double comes with an entry of the assist ladder
    and with none of the rebounding ladder; a defensive-monster entry comes
    with an entry of the steal or of the block ladder; of the three
    plus/minus categories at most one gets an entry; and a near
    double-double excludes a double-double. *)
Theorem related_categories
    (player : Player) (team opponent game_id date side : string) :
  let has c :=
    added (_check_player_milestones player team opponent game_id date side) c
    <> [] in
  (forall c, c ∈ combined_categories -> has c -> has double_doubles)
  /\ (has twenty_ten_five_games \/ has twenty_twenty_games ->
      has thirty_ten_games \/ has twenty_five_ten_games
      \/ has twenty_ten_games)
  /\ (has points_assists_double_double ->
      (exists c, c ∈ assist_categories /\ has c)
      /\ forall c, c ∈ rebounding_categories -> ~ has c)
  /\ (has defensive_monster_games ->
      exists c, c ∈ steal_categories ++ block_categories /\ has c)
  /\ (has plus_25_games -> ~ has plus_20_games /\ ~ has minus_25_games)
  /\ (has plus_20_games -> ~ has minus_25_games)
  /\ (has near_double_doubles -> ~ has double_doubles).
Proof.
  destruct (check_player_cases player team opponent game_id date side)
    as [(pts & trb & ast & stl & blk & fg3 & fg3a & fg & fga & ft & fta
         & tov & plus_minus & mp & Hco)|Hnone].
  - exact (related_coerced player team opponent game_id date side
             pts trb ast stl blk fg3 fg3a fg fga ft fta tov plus_minus mp
             Hco).
  - cbv beta zeta.
    split; [intros c _; by rewrite Hnone|].
    rewrite !Hnone. repeat split; try done. by intros [?|?].
Qed.

(* ===================================================================== *)
(** * Batches *)
(* ===================================================================== *)

Lemma outcome_for_each {A} (xs : list A) body :
  (forall x, appends (body x)) ->
  is_ok (outcome (for_each xs body))
  = forallb (fun x => is_ok (outcome (body x))) xs.
Proof.
  intros Hb. induction xs as [|x xs IH]; [done|].
  cbn [for_each forallb].
  rewrite outcome_bind by (intros _; by apply appends_for_each).
  destruct (outcome (body x)) as [[]|e]; [exact IH|done].
Qed.

Lemma outcome_ok_unit (x : result unit) : is_ok x = true -> x = Ok tt.
Proof. by destruct x as [[]|e]. Qed.

Lemma added_for_each_ok {A} (xs : list A) body c :
  (forall x, appends (body x)) ->
  is_ok (outcome (for_each xs body)) = true ->
  added (for_each xs body) c = flat_map (fun x => added (body x) c) xs.
Proof.
  intros Hb Hok. apply added_for_each; [exact Hb|].
  by apply outcome_ok_unit.
Qed.

Lemma process_games_ok games r0 :
  is_ok (snd (process_games games r0))
  = forallb (fun game => is_ok (outcome (_process_game game))) games.
Proof.
  rewrite run_process_games. cbn [snd].
  rewrite <- outcome_for_each by apply appends_process_game.
  by destruct (outcome _).
Qed.

Lemma process_games_entries games r0 c :
  is_ok (snd (process_games games r0)) = true ->
  fst (process_games games r0) c
  = flat_map (fun game => added (_process_game game) c) games.
Proof.
  rewrite process_games_ok. intros Hok.
  rewrite run_process_games. cbn [fst].
  apply added_for_each_ok; [apply appends_process_game|].
  by rewrite outcome_for_each by apply appends_process_game.
Qed.

(** X14. A batch can be cut anywhere: [process_games] ends normally on
    [games1 ++ games2] exactly when it does on both parts, and then every
    category list is the list of the first part followed by the list of
    the second.  What the engine held before the call plays no role. *)
Theorem process_games_app
    (games1 games2 : list Game) (r0 r0' : MilestoneResults) :
  is_ok (snd (process_games (games1 ++ games2) r0))
  = is_ok (snd (process_games games1 r0))
    && is_ok (snd (process_games games2 r0))
  /\ (is_ok (snd (process_games (games1 ++ games2) r0)) = true ->
      forall c,
        fst (process_games (games1 ++ games2) r0) c
        = fst (process_games games1 r0) c ++ fst (process_games games2 r0) c)
  /\ process_games games1 r0 = process_games games1 r0'.
Proof.
  split; [|split].
  - rewrite !process_games_ok. apply forallb_app.
  - intros Hok c. pose proof Hok as Hok'.
    rewrite process_games_ok, forallb_app in Hok'.
    apply andb_prop in Hok' as [Hok1 Hok2].
    rewrite !process_games_entries
      by first [exact Hok | rewrite process_games_ok; assumption].
    apply flat_map_app.
  - by rewrite !run_process_games.
Qed.

(** X15. The order of the games of a batch decides only the order of the
    entries: a rearranged batch ends normally exactly when the original
    does, and then every category list holds the same entries, as many
    times each, as before. *)
Theorem process_games_permutation
    (games games' : list Game) (r0 : MilestoneResults) :
  games ≡ₚ games' ->
  is_ok (snd (process_games games' r0))
  = is_ok (snd (process_games games r0))
  /\ (is_ok (snd (process_games games r0)) = true ->
      forall c,
        fst (process_games games' r0) c ≡ₚ fst (process_games games r0) c).
Proof.
  intros Hp.
  assert (Hok : is_ok (snd (process_games games' r0))
                = is_ok (snd (process_games games r0))).
  { rewrite !process_games_ok. symmetry. by apply forallb_perm. }
  split; [exact Hok|]. intros Hok1 c.
  rewrite !process_games_entries by first [exact Hok1 | by rewrite Hok].
  symmetry. by apply Permutation_flat_map.
Qed.

(* ===================================================================== *)
(** * The coercions and the derived metrics *)
(* ===================================================================== *)

(** X16. [safe_int] raises in two cases only: [OverflowError] when the
    value is an infinite float, or a string that reads as one, and
    [ValueError] when the value is a NaN float.  A string that reads as
    NaN gives the default. *)
Theorem safe_int_raises_exactly (value : pyval) (default : Z) (e : exn) :
  safe_int value default = Raise e
  <-> (e = OverflowError
       /\ exists f, Float64.is_infinite f = true
            /\ (value = PyFloat f
                \/ exists s, value = PyStr s
                     /\ Str.to_float (Str.strip s) = Ok f))
      \/ (e = ValueError /\ value = PyFloat Float64.nan).
Proof.
  split.
  - destruct value as [|z|f|s|]; cbn [safe_int]; try discriminate.
    + destruct f as [sg|sg| |sg m ex]; cbn; try discriminate.
      * intros [= <-]. left. split; [done|].
        exists (S754_infinity sg). split; [done|by left].
      * intros [= <-]. by right.
    + pose proof (str_to_float_raises (Str.strip s)) as Hs.
      destruct (Str.to_float (Str.strip s)) as [f|e'] eqn:Hf.
      * cbn. destruct f as [sg|sg| |sg m ex]; cbn; try discriminate.
        intros [= <-]. left. split; [done|].
        exists (S754_infinity sg). split; [done|]. right. by exists s.
      * specialize (Hs e' eq_refl).
        apply list_elem_of_singleton in Hs as ->. discriminate.
  - intros [(-> & f & Hinf & [->|(s & -> & Hs)])|(-> & ->)].
    + by destruct f.
    + cbn [safe_int]. rewrite Hs. by destruct f.
    + reflexivity.
Qed.

(** X17. [safe_float] raises only [OverflowError], and only for an int too
    large for a float; a string never makes it raise: it gives the float
    the string reads as (an infinity or a NaN included) or else the
    default, as [None] and other types do. *)
Theorem safe_float_result (value : pyval) (default : float) :
  (forall e, safe_float value default = Raise e
             <-> e = OverflowError
                 /\ exists z, value = PyInt z
                      /\ Float64.is_infinite (Float64.of_Z z) = true)
  /\ (forall s, value = PyStr s ->
        safe_float value default
        = Ok (match Str.to_float (Str.strip s) with
              | Ok f => f
              | Raise _ => default
              end))
  /\ (value = PyNone \/ value = PyOther ->
      safe_float value default = Ok default)
  /\ (forall f, value = PyFloat f -> safe_float value default = Ok f).
Proof.
  split; [|split; [|split]].
  - intros e. split.
    + destruct value as [|z|f|s|]; cbn [safe_float]; try discriminate.
      * unfold float_of_int.
        destruct (Float64.is_infinite (Float64.of_Z z)) eqn:Hz;
          [|discriminate].
        intros [= <-]. split; [done|]. by exists z.
      * pose proof (str_to_float_raises (Str.strip s)) as Hs.
        destruct (Str.to_float (Str.strip s)) as [f|e'];
          [discriminate|].
        specialize (Hs e' eq_refl).
        apply list_elem_of_singleton in Hs as ->. discriminate.
    + intros (-> & z & -> & Hz). cbn. unfold float_of_int. by rewrite Hz.
  - intros s ->. cbn [safe_float].
    pose proof (str_to_float_raises (Str.strip s)) as Hs.
    destruct (Str.to_float (Str.strip s)) as [f|e']; [done|].
    specialize (Hs e' eq_refl). by apply list_elem_of_singleton in Hs as ->.
  - by intros [->| ->].
  - by intros f ->.
Qed.

















Lemma calculate_assist_to_turnover_ratio_raises stats :
  raises_only [OverflowError; ValueError]
    (calculate_assist_to_turnover_ratio stats).
Proof.
  unfold calculate_assist_to_turnover_ratio.
  apply raises_only_bind; [apply safe_int_raises|]. intros ast _.
  apply raises_only_bind; [apply safe_int_raises|]. intros tov _.
  destruct (Z.eqb_spec tov 0) as [|Hne]; [apply raises_only_ok|].
  apply raises_only_fmap, raises_only_bind.
  - apply lift2_raises; [apply raises_only_ok..|].
    intros x y [= <-] [= <-].
    apply num_truediv_ints_raises; [solve_elem|exact Hne].
  - intros r _. apply num_round_raises. solve_elem.
Qed.

Lemma calculate_rebound_rate_raises stats team_reb opp_reb :
  raises_only [OverflowError; ValueError]
    (calculate_rebound_rate stats team_reb opp_reb).
Proof.
  unfold calculate_rebound_rate.
  apply raises_only_bind; [apply safe_int_raises|]. intros trb _.
  cbv zeta. destruct (Z.eqb_spec (team_reb + opp_reb) 0) as [|Hne];
    [apply raises_only_ok|].
  apply raises_only_fmap, raises_only_bind.
  - apply lift2_raises; [|apply raises_only_ok|].
    + apply lift2_raises; [apply raises_only_ok..|].
      intros x y [= <-] [= <-].
      apply num_truediv_ints_raises; [solve_elem|exact Hne].
    + intros x y _ _. apply num_mul_raises. solve_elem.
  - intros r _. apply num_round_raises. solve_elem.
Qed.

(** X20. The derived metrics guard their divisions: none of
    [calculate_true_shooting], [calculate_assist_to_turnover_ratio],
    [calculate_rebound_rate] and [is_hot_shooting] can raise
    [ZeroDivisionError].  With no turnovers the assist-to-turnover ratio is
    [None] only when there are no assists either, and infinity otherwise;
    the rebound rate is [None] when the two teams have no rebound. *)
Theorem metric_divisions_guarded
    (stats : dict) (pts fga fta team_reb opp_reb min_attempts : Z)
    (threshold : num) :
  raises_only [OverflowError] (calculate_true_shooting pts fga fta)
  /\ raises_only [OverflowError; ValueError]
       (calculate_assist_to_turnover_ratio stats)
  /\ raises_only [OverflowError; ValueError]
       (calculate_rebound_rate stats team_reb opp_reb)
  /\ raises_only [OverflowError; ValueError]
       (is_hot_shooting stats threshold min_attempts)
  /\ (forall ast,
        safe_int (get stats "ast" (PyInt 0)) 0 = Ok ast ->
        safe_int (get stats "tov" (PyInt 0)) 0 = Ok 0 ->
        calculate_assist_to_turnover_ratio stats
        = Ok (if ast =? 0 then None else Some (Float Float64.inf)))
  /\ (forall trb,
        safe_int (get stats "trb" (PyInt 0)) 0 = Ok trb ->
        team_reb + opp_reb = 0 ->
        calculate_rebound_rate stats team_reb opp_reb = Ok None).
Proof.
  split; [|split; [|split; [|split; [|split]]]].
  - apply calculate_true_shooting_raises; solve_elem.
  - apply calculate_assist_to_turnover_ratio_raises.
  - apply calculate_rebound_rate_raises.
  - apply is_hot_shooting_raises; solve_elem.
  - intros ast Ha Ht. unfold calculate_assist_to_turnover_ratio.
    by rewrite Ha, Ht.
  - intros trb Ht Hz. unfold calculate_rebound_rate. rewrite Ht. cbn.
    by rewrite Hz.
Qed.

Section Nesting.

Variable stats : dict.
Variables threshold near_threshold : Z.

Let at_threshold : result Z :=
  sum_1_for categories (fun cat =>
    v ← safe_int (get stats cat (PyInt 0)) 0; Ok (threshold <=? v)).

Lemma all_for_mapM (f : string -> result Z) (t : Z) xs :
  all_for xs (fun x => v ← f x; Ok (t <=? v)) = Ok true ->
  exists vs, mapM f xs = Ok vs /\ forallb (Z.leb t) vs = true.
Proof.
  induction xs as [|x xs IH]; cbn [all_for mapM].
  - intros _. by exists [].
  - destruct (f x) as [v|e]; cbn; [|discriminate].
    destruct (t <=? v) eqn:Hv; [|discriminate].
    intros H. destruct (IH H) as (vs & -> & Hvs).
    exists (v :: vs). cbn. by rewrite Hv.
Qed.

Lemma forallb_leb_mono (t t' : Z) vs :
  t' <= t -> forallb (Z.leb t) vs = true -> forallb (Z.leb t') vs = true.
Proof.
  intros Ht. induction vs as [|v vs IH]; cbn; [done|].
  intros H. apply andb_prop in H as [Hv Hvs].
  rewrite IH by done. apply Z.leb_le in Hv.
  by rewrite (proj2 (Z.leb_le t' v)) by lia.
Qed.

(** X21. On any stats dict and for any thresholds the multi-category
    predicates are nested: a quadruple-double is a triple-double, a
    triple-double is a double-double, a near triple-double is a
    double-double but no triple-double, a near double-double is no
    double-double, and a 5x5 at a threshold of 5 or more is an all-around
    game.  The three N-double predicates raise together or not at all. *)
Theorem multi_category_nesting :
  (is_quadruple_double stats threshold = Ok true ->
   is_triple_double stats threshold = Ok true)
  /\ (is_triple_double stats threshold = Ok true ->
      is_double_double stats threshold = Ok true)
  /\ (is_near_triple_double stats threshold near_threshold = Ok true ->
      is_triple_double stats threshold = Ok false
      /\ is_double_double stats threshold = Ok true)
  /\ (is_near_double_double stats threshold near_threshold = Ok true ->
      is_double_double stats threshold = Ok false)
  /\ (5 <= threshold -> is_five_by_five stats threshold = Ok true ->
      is_all_around_game stats = Ok true)
  /\ is_ok (is_quadruple_double stats threshold)
     = is_ok (is_double_double stats threshold)
  /\ is_ok (is_triple_double stats threshold)
     = is_ok (is_double_double stats threshold).
Proof.
  assert (H5 : 5 <= threshold -> is_five_by_five stats threshold = Ok true ->
               is_all_around_game stats = Ok true).
  { intros Ht H. unfold is_five_by_five in H.
    apply all_for_mapM in H as (vs & Hvs & Hall).
    unfold is_all_around_game. rewrite Hvs. cbn.
    change (fun v => 5 <=? v) with (Z.leb 5).
    by rewrite (forallb_leb_mono threshold 5 vs Ht Hall). }
  revert H5. generalize (is_five_by_five stats threshold).
  generalize (is_all_around_game stats). intros all_around five_by_five H5.
  unfold is_quadruple_double, is_triple_double, is_double_double,
    is_near_triple_double, is_near_double_double.
  fold at_threshold. clearbody at_threshold.
  generalize (sum_1_for categories (fun cat =>
                v ← safe_int (get stats cat (PyInt 0)) 0;
                Ok ((near_threshold <=? v) && (v <? threshold)))).
  intros near.
  destruct at_threshold as [n|e]; [|by repeat split].
  change (Ok n ≫= ?f) with (f n). cbv beta.
  split; [|split; [|split; [|split; [|split]]]].
  - intros [= H]. f_equal. apply Z.leb_le in H. apply Z.leb_le. lia.
  - intros [= H]. f_equal. apply Z.leb_le in H. apply Z.leb_le. lia.
  - destruct near as [m|e]; [|discriminate].
    change (Ok m ≫= ?f) with (f m). cbv beta.
    destruct (Z.leb_spec 3 n) as [|Hlt]; [discriminate|].
    intros [= Hb]. apply andb_prop in Hb as [Hb _]. apply Z.eqb_eq in Hb.
    split; [f_equal; apply Z.leb_gt; lia | f_equal; apply Z.leb_le; lia].
  - destruct near as [m|e]; [|discriminate].
    change (Ok m ≫= ?f) with (f m). cbv beta.
    destruct (Z.leb_spec 2 n); [discriminate|]. done.
  - exact H5.
  - done.
Qed.

End Nesting.

Lemma elem_of_range lo n z :
  lo <= z < lo + Z.of_nat n -> z ∈ range lo n.
Proof.
  intros Hz. unfold range. apply list_elem_of_fmap.
  exists (Z.to_nat (z - lo)). split; [lia|].
  apply elem_of_seq. lia.
Qed.

Lemma hot_shooting_table :
  forallb (fun fga => forallb (fun fg => hot_shooting_agrees fg fga)
                        (range 0 101)) (range 0 101) = true.
Proof. vm_compute. reflexivity. Qed.

(** X22. For every pair of shot counts up to 100 the float test of
    [is_hot_shooting], [fg / fga >= 0.6] with at least 10 attempts, decides
    exactly [5 * fg >= 3 * fga]: a player at exactly 60% is hot, and no
    rounding of the quotient changes the verdict. *)
Theorem hot_shooting_exact (stats : dict) (fg fga : Z) :
  safe_int (get stats "fg" (PyInt 0)) 0 = Ok fg ->
  safe_int (get stats "fga" (PyInt 0)) 0 = Ok fga ->
  0 <= fg <= 100 -> 0 <= fga <= 100 ->
  is_hot_shooting stats (Str.literal "0.6") 10
  = Ok ((10 <=? fga) && (3 * fga <=? 5 * fg)).
Proof.
  intros Hfg Hfga Hr Hra.
  pose proof hot_shooting_table as Ht.
  rewrite forallb_forall in Ht.
  specialize (Ht fga). rewrite <- list_elem_of_In in Ht.
  specialize (Ht (elem_of_range 0 101 fga ltac:(lia))).
  rewrite forallb_forall in Ht.
  specialize (Ht fg). rewrite <- list_elem_of_In in Ht.
  specialize (Ht (elem_of_range 0 101 fg ltac:(lia))).
  unfold hot_shooting_agrees in Ht.
  assert (is_hot_shooting stats (Str.literal "0.6") 10
          = is_hot_shooting {[ "fg" := PyInt fg; "fga" := PyInt fga ]}
              (Str.literal "0.6") 10) as ->.
  { unfold is_hot_shooting. by rewrite Hfg, Hfga. }
  destruct (is_hot_shooting _ _ _) as [b|e]; [|discriminate].
  f_equal. by apply eqb_prop.
Qed.

Lemma twenty_minutes :
  Str.literal "20.0" = Float (S754_finite false 5629499534213120 (-48)).
Proof. vm_compute. reflexivity. Qed.

Lemma int_ge_twenty m : num_ge (Int m) (Str.literal "20.0") = (20 <=? m).
Proof.
  rewrite twenty_minutes. unfold num_ge, num_compare, Float64.compare_Z.
  change (0 <=? -48) with false. cbv iota.
  change (cond_Zopp false 5629499534213120) with 5629499534213120.
  change (2 ^ (- -48)) with 281474976710656.
  cbn [fmap option_fmap option_map].
  destruct (Z.compare_spec 5629499534213120 (m * 281474976710656))
    as [H|H|H];
    destruct (Z.leb_spec 20 m); cbn; try reflexivity; exfalso; lia.
Qed.

(** X23. [is_zero_turnover_game] on minutes that are no text: with an int
    it is true exactly when there is no turnover and the minutes are 20 or
    more; with [None] or a container it raises [TypeError] when there is no
    turnover, and is false otherwise (the comparison is not reached); with
    a float it compares the float with 20.0. *)
Theorem is_zero_turnover_game_cases (stats : dict) (tov : Z) :
  safe_int (get stats "tov" (PyInt 0)) 0 = Ok tov ->
  (forall m, get stats "mp" (PyInt 0) = PyInt m ->
     is_zero_turnover_game stats (Str.literal "20.0")
     = Ok ((tov =? 0) && (20 <=? m)))
  /\ (get stats "mp" (PyInt 0) = PyNone
      \/ get stats "mp" (PyInt 0) = PyOther ->
      is_zero_turnover_game stats (Str.literal "20.0")
      = if tov =? 0 then Raise TypeError else Ok false)
  /\ (forall f, get stats "mp" (PyInt 0) = PyFloat f ->
        is_zero_turnover_game stats (Str.literal "20.0")
        = Ok ((tov =? 0) && num_ge (Float f) (Str.literal "20.0"))).
Proof.
  intros Htov. unfold is_zero_turnover_game. rewrite Htov.
  change (Ok tov ≫= ?f) with (f tov). cbv beta zeta.
  split; [|split].
  - intros m ->. cbn. rewrite int_ge_twenty. by destruct (tov =? 0).
  - intros [-> | ->]; cbn; by destruct (tov =? 0).
  - intros f ->. cbn. by destruct (tov =? 0).
Qed.

(* ===================================================================== *)
(** * The further properties at the sample records *)
(* ===================================================================== *)

Lemma process_games_provenance_witness :
  let e :=
    base_entry_of sample_center "BOS" "LAL" "202401150LAL" "2024-01-15"
      "away" (mk_stats 20 15 12 10 5 0 0 0 0 0 0 2 0 (PyInt 38))
      "double_double"
      [FText "Double-double ("; FText "pts/reb/ast/stl"; FText ")"] in
  e ∈ fst (process_games [sample_game_1] new_MilestoneResults) double_doubles
  /\ milestone_type e = singular (field_name double_doubles)
  /\ (side e = "away" \/ side e = "home").
Proof.
  cbv zeta.
  assert (H : base_entry_of sample_center "BOS" "LAL" "202401150LAL"
                "2024-01-15" "away"
                (mk_stats 20 15 12 10 5 0 0 0 0 0 0 2 0 (PyInt 38))
                "double_double"
                [FText "Double-double ("; FText "pts/reb/ast/stl";
                 FText ")"]
              ∈ fst (process_games [sample_game_1] new_MilestoneResults)
                  double_doubles)
    by (vm_compute; left).
  split; [exact H|].
  destruct (process_games_provenance [sample_game_1] new_MilestoneResults
              double_doubles _ H) as (Ht & Hs & _).
  split; [exact Ht | exact Hs].
Defined.

Lemma unread_keys_ignored_witness :
  ("orb" ∉ read_keys)
  /\ _check_player_milestones (<["orb" := PyInt 7]> sample_center)
       "BOS" "LAL" "202401150LAL" "2024-01-15" "away"
     = _check_player_milestones sample_center
         "BOS" "LAL" "202401150LAL" "2024-01-15" "away".
Proof.
  assert (H : "orb" ∉ read_keys)
    by (apply (bool_decide_unpack _); vm_compute; exact I).
  split; [exact H|].
  exact (proj1 (unread_keys_ignored sample_center "orb" (PyInt 7)
                  "BOS" "LAL" "202401150LAL" "2024-01-15" "away"
                  20 15 12 10 5 0 0 0 0 0 0 2 0 (PyInt 38) H)).
Defined.

Lemma stat_ladders_exclusive_witness :
  coerced sample_center 20 15 12 10 5 0 0 0 0 0 0 2 0 (PyInt 38)
  /\ (rebounding_ladder, 15, " rebounds") ∈ stat_ladders 15 12 10 5 0
  /\ fifteen_rebound_games ∈ rebounding_ladder.*1.*2
  /\ fst (_check_player_milestones sample_center "BOS" "LAL" "202401150LAL"
            "2024-01-15" "away" new_MilestoneResults) fifteen_rebound_games
     = [base_entry_of sample_center "BOS" "LAL" "202401150LAL" "2024-01-15"
          "away" (mk_stats 20 15 12 10 5 0 0 0 0 0 0 2 0 (PyInt 38))
          "fifteen_rebound_game" [FInt 15; FText " rebounds"]].
Proof.
  assert (Hco : coerced sample_center 20 15 12 10 5 0 0 0 0 0 0 2 0 (PyInt 38))
    by (repeat split; vm_compute; reflexivity).
  assert (Hl : (rebounding_ladder, 15, " rebounds")
               ∈ stat_ladders 15 12 10 5 0)
    by (unfold stat_ladders; solve_elem).
  assert (Hc : fifteen_rebound_games ∈ rebounding_ladder.*1.*2)
    by (cbn; solve_elem).
  split; [exact Hco|]. split; [exact Hl|]. split; [exact Hc|].
  destruct (stat_ladders_exclusive sample_center "BOS" "LAL" "202401150LAL"
              "2024-01-15" "away" new_MilestoneResults
              20 15 12 10 5 0 0 0 0 0 0 2 0 (PyInt 38)
              rebounding_ladder 15 " rebounds" fifteen_rebound_games
              Hco Hl Hc) as [Hrun _].
  rewrite Hrun. reflexivity.
Defined.

Lemma process_games_permutation_witness :
  [sample_game_1; sample_game_2] ≡ₚ [sample_game_2; sample_game_1]
  /\ is_ok (snd (process_games [sample_game_2; sample_game_1]
                   new_MilestoneResults))
     = is_ok (snd (process_games [sample_game_1; sample_game_2]
                     new_MilestoneResults)).
Proof.
  assert (H : [sample_game_1; sample_game_2]
              ≡ₚ [sample_game_2; sample_game_1]) by apply perm_swap.
  split; [exact H|].
  exact (proj1 (process_games_permutation [sample_game_1; sample_game_2]
                  [sample_game_2; sample_game_1] new_MilestoneResults H)).
Defined.

Lemma hot_shooting_exact_witness :
  safe_int (get sample_scorer "fg" (PyInt 0)) 0 = Ok 16
  /\ safe_int (get sample_scorer "fga" (PyInt 0)) 0 = Ok 29
  /\ is_hot_shooting sample_scorer (Str.literal "0.6") 10 = Ok false.
Proof.
  assert (Hfg : safe_int (get sample_scorer "fg" (PyInt 0)) 0 = Ok 16)
    by reflexivity.
  assert (Hfga : safe_int (get sample_scorer "fga" (PyInt 0)) 0 = Ok 29)
    by reflexivity.
  split; [exact Hfg|]. split; [exact Hfga|].
  exact (hot_shooting_exact sample_scorer 16 29 Hfg Hfga
           ltac:(lia) ltac:(lia)).
Defined.

Lemma near_double_double_rule_witness :
  coerced sample_forward 12 9 6 5 5 0 0 0 0 0 0 1 0 (PyInt 33)
  /\ is_near_double_double
       (mk_stats 12 9 6 5 5 0 0 0 0 0 0 1 0 (PyInt 33)) 10 8 = Ok true
  /\ length (fst (_check_player_milestones sample_forward "LAL" "DEN"
                    "202401170DEN" "2024-01-17" "away" new_MilestoneResults)
               near_double_doubles) = 1%nat.
Proof.
  assert (Hco : coerced sample_forward 12 9 6 5 5 0 0 0 0 0 0 1 0 (PyInt 33))
    by (repeat split; vm_compute; reflexivity).
  split; [exact Hco|].
  destruct (near_double_double_rule sample_forward "LAL" "DEN" "202401170DEN"
              "2024-01-17" "away" new_MilestoneResults
              12 9 6 5 5 0 0 0 0 0 0 1 0 (PyInt 33) Hco)
    as (Hrule & _ & Hrun).
  split; [exact Hrule|]. rewrite Hrun. reflexivity.
Defined.


Lemma is_zero_turnover_game_cases_witness :
  safe_int (get sample_forward "tov" (PyInt 0)) 0 = Ok 1
  /\ is_zero_turnover_game sample_forward (Str.literal "20.0") = Ok false.
Proof.
  assert (H : safe_int (get sample_forward "tov" (PyInt 0)) 0 = Ok 1)
    by reflexivity.
  split; [exact H|].
  exact (proj1 (is_zero_turnover_game_cases sample_forward 1 H) 33 eq_refl).
Defined.
